(** * moto.apigateway.models: the resource tree, deployments and stage patches

    A shallow embedding of [moto/apigateway/models.py].  Python dictionaries
    whose iteration order is observed by the code ([RestAPI.resources],
    [Resource.resource_methods]) are association lists kept in insertion
    order; the other dictionaries are [gmap]s.  Methods that mutate [self]
    and may raise are functions from the state to the new state paired with
    an [outcome], so that what was mutated before an exception stays
    visible. *)

From Stdlib Require Import ZArith QArith Ascii String List Lia.
From stdpp Require Import gmap strings list fin_maps finite.

Close Scope Q_scope.
Local Open Scope string_scope.
Local Open Scope list_scope.

(** ** Exceptions and outcomes *)

Inductive exn : Type :=
| KeyError (key : string)
| IndexError
| ValueError
| RecursionError
| PatchNotImplemented (op : string)
| RestAPINotFound
| StageNotFoundException
| ApiKeyNotFoundException
| ApiKeyAlreadyExists
| AwsProxyNotAllowed
| CrossAccountNotAllowed
| IntegrationMethodNotDefined
| InvalidArn
| InvalidIntegrationArn
| InvalidHttpEndpoint
| InvalidResourcePathException
| RoleNotSpecified
| NoIntegrationDefined
| NoMethodDefined.

Inductive outcome (A : Type) : Type :=
| Returns (a : A)
| Raises (e : exn).

Arguments Returns {A} a.
Arguments Raises {A} e.

Definition bind_outcome {A B : Type} (o : outcome A) (k : A -> outcome B) : outcome B :=
  match o with
  | Returns a => k a
  | Raises e => Raises e
  end.

(** A method of an object of type [S]: the object after the call, and what
    the call returned or raised. *)
Definition M (S A : Type) : Type := S -> S * outcome A.

Definition ret {S A : Type} (a : A) : M S A := fun s => (s, Returns a).

Definition raise {S A : Type} (e : exn) : M S A := fun s => (s, Raises e).

Definition bind {S A B : Type} (m : M S A) (k : A -> M S B) : M S B :=
  fun s =>
    match m s with
    | (s', Returns a) => k a s'
    | (s', Raises e) => (s', Raises e)
    end.

Definition modify {S : Type} (f : S -> S) : M S unit := fun s => (f s, Returns tt).

Definition lift {S A : Type} (o : outcome A) : M S A := fun s => (s, o).

Notation "'let!' x ':=' m 'in' k" := (bind m (fun x => k))
  (at level 10, x pattern, m at level 100, k at level 200).

Notation "'try!' x ':=' o 'in' k" := (bind_outcome o (fun x => k))
  (at level 10, x pattern, o at level 100, k at level 200).

(** ** Python strings *)

(** [bool(s)] for a value that is [None] or a string. *)
Definition truthy (o : option string) : bool :=
  match o with
  | Some s => negb (String.eqb s "")
  | None => false
  end.

Definition lower_ascii (c : ascii) : ascii :=
  let n := nat_of_ascii c in
  if (65 <=? n)%nat && (n <=? 90)%nat then ascii_of_nat (n + 32) else c.

(** [s.lower()] *)
Fixpoint lower (s : string) : string :=
  match s with
  | EmptyString => EmptyString
  | String c s' => String (lower_ascii c) (lower s')
  end.

(** [sub in s] *)
Fixpoint contains (sub s : string) : bool :=
  String.prefix sub s ||
  match s with
  | EmptyString => false
  | String _ s' => contains sub s'
  end.

(** [s.split(sep, maxsplit)] for a separator of one character. *)
Fixpoint split (sep : ascii) (maxsplit : nat) (s : string) : list string :=
  match s with
  | EmptyString => [EmptyString]
  | String c s' =>
      match maxsplit with
      | S n =>
          if Ascii.eqb c sep then EmptyString :: split sep n s'
          else match split sep maxsplit s' with
               | h :: t => String c h :: t
               | [] => [String c EmptyString]
               end
      | O => [s]
      end
  end.

(** [s.rindex(sub)] for a non-empty [sub]; [None] is Python's ValueError. *)
Fixpoint rindex (sub s : string) : option nat :=
  match s with
  | EmptyString => None
  | String _ s' =>
      match rindex sub s' with
      | Some i => Some (S i)
      | None => if String.prefix sub s then Some O else None
      end
  end.

(** [s[n:]] *)
Fixpoint drop_string (n : nat) (s : string) : string :=
  match n, s with
  | O, _ => s
  | S n', String _ s' => drop_string n' s'
  | S _, EmptyString => EmptyString
  end.

(** The value of a non-empty string of ASCII decimal digits. *)
Definition digit_value (c : ascii) : option Z :=
  let n := nat_of_ascii c in
  if (48 <=? n)%nat && (n <=? 57)%nat then Some (Z.of_nat (n - 48)) else None.

Fixpoint digits_value_from (acc : Z) (s : string) : option Z :=
  match s with
  | EmptyString => Some acc
  | String c s' =>
      match digit_value c with
      | Some d => digits_value_from (10 * acc + d)%Z s'
      | None => None
      end
  end.

Definition digits_value (s : string) : option Z :=
  match s with
  | EmptyString => None
  | _ => digits_value_from 0%Z s
  end.

(** ** Regular expressions, as [re.match] uses them

    The patterns of this module use literals, character classes, [?], [+]
    and alternation only; they are written as terms of [regex] and matched
    with Brzozowski derivatives. *)

Inductive regex : Type :=
| Void
| Eps
| Class (p : ascii -> bool)
| Cat (r1 r2 : regex)
| Alt (r1 r2 : regex)
| Star (r : regex).

Definition Chr (c : ascii) : regex := Class (Ascii.eqb c).

Definition Plus (r : regex) : regex := Cat r (Star r).

Definition Opt (r : regex) : regex := Alt r Eps.

Fixpoint Lit (s : string) : regex :=
  match s with
  | EmptyString => Eps
  | String c s' => Cat (Chr c) (Lit s')
  end.

Fixpoint nullable (r : regex) : bool :=
  match r with
  | Void => false
  | Eps => true
  | Class _ => false
  | Cat r1 r2 => nullable r1 && nullable r2
  | Alt r1 r2 => nullable r1 || nullable r2
  | Star _ => true
  end.

Fixpoint deriv (c : ascii) (r : regex) : regex :=
  match r with
  | Void => Void
  | Eps => Void
  | Class p => if p c then Eps else Void
  | Cat r1 r2 =>
      if nullable r1 then Alt (Cat (deriv c r1) r2) (deriv c r2)
      else Cat (deriv c r1) r2
  | Alt r1 r2 => Alt (deriv c r1) (deriv c r2)
  | Star r' => Cat (deriv c r') (Star r')
  end.

(** [re.match("^" + r, s)]: some prefix of [s] is in the language of [r]. *)
Fixpoint re_match (r : regex) (s : string) : bool :=
  nullable r ||
  match s with
  | EmptyString => false
  | String c s' => re_match (deriv c r) s'
  end.

Fixpoint re_fullmatch (r : regex) (s : string) : bool :=
  match s with
  | EmptyString => nullable r
  | String c s' => re_fullmatch (deriv c r) s'
  end.

(** [s] without its last character when that is a newline. *)
Fixpoint chomp (s : string) : option string :=
  match s with
  | EmptyString => None
  | String c EmptyString => if Ascii.eqb c "010"%char then Some EmptyString else None
  | String c s' => option_map (String c) (chomp s')
  end.

(** [re.match("^" + r + "$", s)]: Python's [$] matches at the end of the
    string and also just before a newline that ends the string. *)
Definition re_match_dollar (r : regex) (s : string) : bool :=
  re_fullmatch r s ||
  match chomp s with
  | Some s' => re_fullmatch r s'
  | None => false
  end.

Definition in_range (lo hi : ascii) (c : ascii) : bool :=
  (nat_of_ascii lo <=? nat_of_ascii c)%nat && (nat_of_ascii c <=? nat_of_ascii hi)%nat.

(** [[a-zA-Z0-9-]] *)
Definition alnum_dash (c : ascii) : bool :=
  in_range "a" "z" c || in_range "A" "Z" c || in_range "0" "9" c || Ascii.eqb c "-".

(** [[a-zA-Z0-9._-]] *)
Definition path_char (c : ascii) : bool :=
  in_range "a" "z" c || in_range "A" "Z" c || in_range "0" "9" c
  || Ascii.eqb c "." || Ascii.eqb c "_" || Ascii.eqb c "-".

(** ["^\\{?[a-zA-Z0-9._-]+\\+?\\}?$"] without its anchors *)
Definition path_part_pattern : regex :=
  Cat (Opt (Chr "{")) (Cat (Plus (Class path_char)) (Cat (Opt (Chr "+")) (Opt (Chr "}")))).

(** ["^arn:aws:apigateway:[a-zA-Z0-9-]+:s3"] *)
Definition s3_arn_pattern : regex :=
  Cat (Lit "arn:aws:apigateway:") (Cat (Plus (Class alnum_dash)) (Lit ":s3")).

(** ["^arn:aws:"] *)
Definition arn_pattern : regex := Lit "arn:aws:".

(** ["^arn:aws:apigateway:[a-zA-Z0-9-]+:[a-zA-Z0-9-]+:(path|action)/"] *)
Definition integration_arn_pattern : regex :=
  Cat (Lit "arn:aws:apigateway:")
    (Cat (Plus (Class alnum_dash))
       (Cat (Chr ":")
          (Cat (Plus (Class alnum_dash))
             (Cat (Chr ":") (Cat (Alt (Lit "path") (Lit "action")) (Chr "/")))))).

(** ** Python values and the builtins the module calls *)

(** A binary64 value: every finite one is a rational. *)
Inductive pyfloat : Type :=
| FloatQ (q : Q)
| FloatInf (negative : bool)
| FloatNaN.

Inductive pyval : Type :=
| VBool (b : bool)
| VInt (z : Z)
| VFloat (f : pyfloat)
| VStr (s : string).

Record url : Type := { scheme : string; netloc : string; url_path : string }.

(** What the module takes from outside: the account id of [moto.sts.models]
    (a string of decimal digits), [urlparse], and the builtins [int], [float]
    and [str] of a float on the strings that are not plain runs of decimal
    digits.  [None] stands for the exception the Python function raises. *)
Class Env : Type := {
  ACCOUNT_ID : string;
  urlparse : string -> option url;
  int_ext : string -> option Z;
  float_ext : string -> option pyfloat;
  float_str : pyfloat -> string
}.

(** [int(s)]: a run of ASCII digits is its decimal value. *)
Definition py_int `{env : Env} (s : string) : outcome Z :=
  match digits_value s with
  | Some n => Returns n
  | None => match int_ext s with Some n => Returns n | None => Raises ValueError end
  end.

(** [float(s)]: a run of ASCII digits of value at most 2^53 is that integer,
    exactly. *)
Definition py_float `{env : Env} (s : string) : outcome pyfloat :=
  match digits_value s with
  | Some n =>
      if (n <=? 2 ^ 53)%Z then Returns (FloatQ (inject_Z n))
      else match float_ext s with Some f => Returns f | None => Raises ValueError end
  | None => match float_ext s with Some f => Returns f | None => Raises ValueError end
  end.

(** ** Dictionaries whose order is observed: association lists in insertion
    order, as Python's [dict] keeps them *)

Definition odict (V : Type) : Type := list (string * V).

Fixpoint odict_get {V : Type} (k : string) (d : odict V) : option V :=
  match d with
  | [] => None
  | (k', v) :: d' => if String.eqb k k' then Some v else odict_get k d'
  end.

(** [d[k] = v]: an existing key keeps its place, a new one goes last. *)
Fixpoint odict_set {V : Type} (k : string) (v : V) (d : odict V) : odict V :=
  match d with
  | [] => [(k, v)]
  | (k', v') :: d' =>
      if String.eqb k k' then (k, v) :: d' else (k', v') :: odict_set k v d'
  end.

Fixpoint odict_del {V : Type} (k : string) (d : odict V) : odict V :=
  match d with
  | [] => []
  | (k', v') :: d' => if String.eqb k k' then d' else (k', v') :: odict_del k d'
  end.

Definition odict_values {V : Type} (d : odict V) : list V := map snd d.

(** [d[k]] *)
Definition odict_item {V : Type} (k : string) (d : odict V) : outcome V :=
  match odict_get k d with
  | Some v => Returns v
  | None => Raises (KeyError k)
  end.

Definition item {V : Type} (k : string) (d : gmap string V) : outcome V :=
  match d !! k with
  | Some v => Returns v
  | None => Raises (KeyError k)
  end.

(** [any(l)] *)
Definition any {A : Type} (truth : A -> bool) (l : list A) : bool := existsb truth l.

(** ** Entity records *)

Module Deployment.

Record t : Type := {
  id : string;
  stageName : string;
  description : string;
  createdDate : Z
}.

(** [Deployment.__init__]; [now] is [int(time.time())]. *)
Definition init (deployment_id name description : string) (now : Z) : t :=
  {| id := deployment_id; stageName := name; description := description;
     createdDate := now |}.

End Deployment.

Module IntegrationResponse.

Record t : Type := {
  responseTemplates : gmap string (option string);
  statusCode : pyval;
  selectionPattern : option string;
  contentHandling : option string
}.

(** [IntegrationResponse.__init__]: the two optional keys are set only
    when their argument is truthy. *)
Definition init (status_code : pyval) (selection_pattern : option string)
    (response_templates : option (gmap string (option string)))
    (content_handling : option string) : t :=
  {| responseTemplates :=
       match response_templates with
       | None => {[ "application/json" := None ]}
       | Some rt => rt
       end;
     statusCode := status_code;
     selectionPattern := if truthy selection_pattern then selection_pattern else None;
     contentHandling := if truthy content_handling then content_handling else None |}.

End IntegrationResponse.

Module Integration.

Record t : Type := {
  type : string;
  uri : string;
  httpMethod : string;
  requestTemplates : option (gmap string string);
  integrationResponses : gmap string IntegrationResponse.t
}.

Definition init (integration_type uri http_method : string)
    (request_templates : option (gmap string string)) : t :=
  {| type := integration_type; uri := uri; httpMethod := http_method;
     requestTemplates := request_templates;
     integrationResponses :=
       {[ "200" := IntegrationResponse.init (VInt 200) None None None ]} |}.

Definition create_integration_response (status_code : string)
    (selection_pattern : option string)
    (response_templates : gmap string (option string))
    (content_handling : option string) : M t IntegrationResponse.t :=
  fun self =>
    let response_templates :=
      if bool_decide (response_templates = ∅) then None else Some response_templates in
    let integration_response :=
      IntegrationResponse.init (VStr status_code) selection_pattern
        response_templates content_handling in
    ({| type := type self; uri := uri self; httpMethod := httpMethod self;
        requestTemplates := requestTemplates self;
        integrationResponses :=
          <[status_code := integration_response]> (integrationResponses self) |},
     Returns integration_response).

Definition set_integrationResponses (rs : gmap string IntegrationResponse.t) (i : t) : t :=
  {| type := type i; uri := uri i; httpMethod := httpMethod i;
     requestTemplates := requestTemplates i; integrationResponses := rs |}.

Definition get_integration_response (status_code : string) (self : t)
  : outcome IntegrationResponse.t :=
  item status_code (integrationResponses self).

(** [pop] without a default: a missing status code is a [KeyError]. *)
Definition delete_integration_response (status_code : string) : M t IntegrationResponse.t :=
  fun self =>
    match integrationResponses self !! status_code with
    | Some integration_response =>
        (set_integrationResponses (delete status_code (integrationResponses self)) self,
         Returns integration_response)
    | None => (self, Raises (KeyError status_code))
    end.

End Integration.

Module MethodResponse.

Record t : Type := { statusCode : string }.

End MethodResponse.

Module Method.

(** The dictionary of a method.  [methodIntegration] is [None] when the
    key is absent (after [delete_integration]), [Some None] when it holds
    [None] (a new method) and [Some (Some i)] when it holds an
    integration.  The keys [authorizerId], [requestParameters] and
    [requestModels] are created holding [None] and never written again;
    with [httpMethod] always present the dictionary is never empty. *)
Record t : Type := {
  httpMethod : string;
  authorizationType : option string;
  apiKeyRequired : bool;
  methodIntegration : option (option Integration.t);
  method_responses : gmap string MethodResponse.t
}.

Definition init (method_type : string) (authorization_type : option string)
    (api_key_required : option bool) : t :=
  {| httpMethod := method_type;
     authorizationType := authorization_type;
     apiKeyRequired := match api_key_required with Some b => b | None => false end;
     methodIntegration := Some None;
     method_responses := ∅ |}.

Definition set_methodIntegration (i : option (option Integration.t)) (m : t) : t :=
  {| httpMethod := httpMethod m; authorizationType := authorizationType m;
     apiKeyRequired := apiKeyRequired m; methodIntegration := i;
     method_responses := method_responses m |}.

(** [bool(method)]: a non-empty dictionary. *)
Definition truth (m : t) : bool := true.

Definition create_response (response_code : string) : M t MethodResponse.t :=
  fun self =>
    let method_response := {| MethodResponse.statusCode := response_code |} in
    ({| httpMethod := httpMethod self; authorizationType := authorizationType self;
        apiKeyRequired := apiKeyRequired self;
        methodIntegration := methodIntegration self;
        method_responses := <[response_code := method_response]> (method_responses self) |},
     Returns method_response).

Definition set_method_responses (rs : gmap string MethodResponse.t) (m : t) : t :=
  {| httpMethod := httpMethod m; authorizationType := authorizationType m;
     apiKeyRequired := apiKeyRequired m; methodIntegration := methodIntegration m;
     method_responses := rs |}.

Definition get_response (response_code : string) (self : t) : outcome MethodResponse.t :=
  item response_code (method_responses self).

Definition delete_response (response_code : string) : M t MethodResponse.t :=
  fun self =>
    match method_responses self !! response_code with
    | Some method_response =>
        (set_method_responses (delete response_code (method_responses self)) self,
         Returns method_response)
    | None => (self, Raises (KeyError response_code))
    end.

End Method.

Module Resource.

Record t : Type := {
  id : string;
  region_name : string;
  api_id : string;
  path_part : string;
  parent_id : option string;
  resource_methods : odict Method.t
}.

Definition init (id region_name api_id path_part : string) (parent_id : option string) : t :=
  {| id := id; region_name := region_name; api_id := api_id; path_part := path_part;
     parent_id := parent_id; resource_methods := [] |}.

Definition set_resource_methods (ms : odict Method.t) (r : t) : t :=
  {| id := id r; region_name := region_name r; api_id := api_id r;
     path_part := path_part r; parent_id := parent_id r; resource_methods := ms |}.

Section GetPath.

(** [apigateway_backends[region_name].get_resource(api_id, resource_id)]:
    the lookup through the module's registry of backends, which is
    declared after the classes. *)
Variable get_resource : string -> string -> string -> outcome t.

(** [get_path] and [get_parent_path] call each other; [fuel] bounds the
    depth of the calls, as the interpreter's recursion limit does. *)
Fixpoint get_path_fuel (fuel : nat) (self : t) : outcome string :=
  match fuel with
  | O => Raises RecursionError
  | S fuel' =>
      try! parent_path :=
        (match parent_id self with
         | Some pid =>
             if truthy (Some pid) then
               try! parent := get_resource (region_name self) (api_id self) pid in
               try! parent_path := get_path_fuel fuel' parent in
               Returns (if negb (String.eqb parent_path "/")
                        then (parent_path ++ "/")%string else parent_path)
             else Returns ""
         | None => Returns ""
         end) in
      Returns (parent_path ++ path_part self)%string
  end.

End GetPath.

Definition add_method (method_type : string) (authorization_type : option string)
    (api_key_required : option bool) : M t Method.t :=
  fun self =>
    let method := Method.init method_type authorization_type api_key_required in
    (set_resource_methods (odict_set method_type method (resource_methods self)) self,
     Returns method).

Definition get_method (method_type : string) (self : t) : outcome Method.t :=
  odict_item method_type (resource_methods self).

Definition add_integration (method_type integration_type uri : string)
    (request_templates : option (gmap string string)) : M t Integration.t :=
  fun self =>
    let integration :=
      Integration.init integration_type uri method_type request_templates in
    match odict_get method_type (resource_methods self) with
    | None => (self, Raises (KeyError method_type))
    | Some m =>
        (set_resource_methods
           (odict_set method_type
              (Method.set_methodIntegration (Some (Some integration)) m)
              (resource_methods self)) self,
         Returns integration)
    end.

Definition get_integration (method_type : string) (self : t)
  : outcome (option Integration.t) :=
  try! m := odict_item method_type (resource_methods self) in
  match Method.methodIntegration m with
  | Some i => Returns i
  | None => Raises (KeyError "methodIntegration")
  end.

Definition delete_integration (method_type : string) : M t (option Integration.t) :=
  fun self =>
    match odict_get method_type (resource_methods self) with
    | None => (self, Raises (KeyError method_type))
    | Some m =>
        match Method.methodIntegration m with
        | None => (self, Raises (KeyError "methodIntegration"))
        | Some i =>
            (set_resource_methods
               (odict_set method_type (Method.set_methodIntegration None m)
                  (resource_methods self)) self,
             Returns i)
        end
    end.

End Resource.

Module Patch.

(** One patch operation.  [value] is [None] when the dictionary has no
    ["value"] key. *)
Record t : Type := {
  op : string;
  path : string;
  value : option string
}.

(** [op["value"]] *)
Definition get_value (o : t) : outcome string :=
  match value o with
  | Some v => Returns v
  | None => Raises (KeyError "value")
  end.

End Patch.

Module Stage.

(** The dictionary of a stage; [cacheClusterSize] is [None] when the key
    is absent. *)
Record t : Type := {
  stageName : option string;
  deploymentId : option string;
  methodSettings : gmap string (gmap string pyval);
  variables : gmap string string;
  description : string;
  cacheClusterEnabled : option bool;
  cacheClusterSize : option string
}.

(** [Stage.__init__]; the size, when given, has been through [str]. *)
Definition init (name deployment_id : option string)
    (variables : option (gmap string string)) (description : string)
    (cacheClusterEnabled : option bool) (cacheClusterSize : option string) : t :=
  {| stageName := name;
     deploymentId := deployment_id;
     methodSettings := ∅;
     variables := default ∅ variables;
     description := description;
     cacheClusterEnabled := cacheClusterEnabled;
     cacheClusterSize :=
       match cacheClusterSize with
       | Some size => Some size
       | None => if default false cacheClusterEnabled then Some "0.5" else None
       end |}.

Definition set_methodSettings (ms : gmap string (gmap string pyval)) (s : t) : t :=
  {| stageName := stageName s; deploymentId := deploymentId s; methodSettings := ms;
     variables := variables s; description := description s;
     cacheClusterEnabled := cacheClusterEnabled s;
     cacheClusterSize := cacheClusterSize s |}.

Definition set_variables (vs : gmap string string) (s : t) : t :=
  {| stageName := stageName s; deploymentId := deploymentId s;
     methodSettings := methodSettings s; variables := vs;
     description := description s; cacheClusterEnabled := cacheClusterEnabled s;
     cacheClusterSize := cacheClusterSize s |}.

Definition set_description (d : string) (s : t) : t :=
  {| stageName := stageName s; deploymentId := deploymentId s;
     methodSettings := methodSettings s; variables := variables s;
     description := d; cacheClusterEnabled := cacheClusterEnabled s;
     cacheClusterSize := cacheClusterSize s |}.

Definition set_deploymentId (d : option string) (s : t) : t :=
  {| stageName := stageName s; deploymentId := d;
     methodSettings := methodSettings s; variables := variables s;
     description := description s; cacheClusterEnabled := cacheClusterEnabled s;
     cacheClusterSize := cacheClusterSize s |}.

Definition set_cacheClusterEnabled (b : option bool) (s : t) : t :=
  {| stageName := stageName s; deploymentId := deploymentId s;
     methodSettings := methodSettings s; variables := variables s;
     description := description s; cacheClusterEnabled := b;
     cacheClusterSize := cacheClusterSize s |}.

Definition set_cacheClusterSize (z : option string) (s : t) : t :=
  {| stageName := stageName s; deploymentId := deploymentId s;
     methodSettings := methodSettings s; variables := variables s;
     description := description s; cacheClusterEnabled := cacheClusterEnabled s;
     cacheClusterSize := z |}.

Definition _get_default_method_settings : gmap string pyval :=
  list_to_map
    [ ("throttlingRateLimit", VFloat (FloatQ (inject_Z 1000)));
      ("dataTraceEnabled", VBool false);
      ("metricsEnabled", VBool false);
      ("unauthorizedCacheControlHeaderStrategy", VStr "SUCCEED_WITH_RESPONSE_HEADER");
      ("cacheTtlInSeconds", VInt 300);
      ("cacheDataEncrypted", VBool true);
      ("cachingEnabled", VBool false);
      ("throttlingBurstLimit", VInt 2000);
      ("requireAuthorizationForCacheControl", VBool true) ].

Definition mappings : list (string * string) :=
  [ ("metrics/enabled", "metricsEnabled");
    ("logging/loglevel", "loggingLevel");
    ("logging/dataTrace", "dataTraceEnabled");
    ("throttling/burstLimit", "throttlingBurstLimit");
    ("throttling/rateLimit", "throttlingRateLimit");
    ("caching/enabled", "cachingEnabled");
    ("caching/ttlInSeconds", "cacheTtlInSeconds");
    ("caching/dataEncrypted", "cacheDataEncrypted");
    ("caching/requireAuthorizationForCacheControl", "requireAuthorizationForCacheControl");
    ("caching/unauthorizedCacheControlHeaderStrategy",
     "unauthorizedCacheControlHeaderStrategy") ].

(** Returns [None] for a key that is not in [mappings]. *)
Definition _method_settings_translations (key : string) : option string :=
  odict_get key mappings.

Definition _str2bool (v : string) : bool := String.eqb (lower v) "true".

Inductive setting_type : Type := TBool | TInt | TFloat | TStr.

Definition type_mappings : list (string * setting_type) :=
  [ ("metricsEnabled", TBool);
    ("loggingLevel", TStr);
    ("dataTraceEnabled", TBool);
    ("throttlingBurstLimit", TInt);
    ("throttlingRateLimit", TFloat);
    ("cachingEnabled", TBool);
    ("cacheTtlInSeconds", TInt);
    ("cacheDataEncrypted", TBool);
    ("requireAuthorizationForCacheControl", TBool);
    ("unauthorizedCacheControlHeaderStrategy", TStr) ].

Section Operations.

Context `{env : Env}.

Definition _convert_to_type (key val : string) : outcome pyval :=
  match odict_get key type_mappings with
  | Some TBool => Returns (VBool (_str2bool val))
  | Some TInt => try! n := py_int val in Returns (VInt n)
  | Some TFloat => try! f := py_float val in Returns (VFloat f)
  | Some TStr => Returns (VStr val)
  | None => Returns (VStr val)
  end.

(** The entry of defaults is written before the value is converted, so
    it stays when the conversion raises. *)
Definition _patch_method_setting (resource_path_and_method key value : string)
  : M t unit :=
  match _method_settings_translations key with
  | Some updated_key =>
      let! _ :=
        modify (fun self =>
          match methodSettings self !! resource_path_and_method with
          | None =>
              set_methodSettings
                (<[resource_path_and_method := _get_default_method_settings]>
                   (methodSettings self)) self
          | Some _ => self
          end) in
      let! converted := lift (_convert_to_type updated_key value) in
      fun self =>
        match methodSettings self !! resource_path_and_method with
        | Some settings =>
            (set_methodSettings
               (<[resource_path_and_method := <[updated_key := converted]> settings]>
                  (methodSettings self)) self,
             Returns tt)
        | None => (self, Raises (KeyError resource_path_and_method))
        end
  | None => ret tt
  end.

Definition _apply_operation_to_variables (op : Patch.t) : M t unit :=
  match rindex "variables/" (Patch.path op) with
  | None => raise ValueError
  | Some i =>
      let key := drop_string (i + 10) (Patch.path op) in
      if String.eqb (Patch.op op) "remove" then
        modify (fun self => set_variables (delete key (variables self)) self)
      else if String.eqb (Patch.op op) "replace" then
        let! v := lift (Patch.get_value op) in
        modify (fun self => set_variables (<[key := v]> (variables self)) self)
      else raise (PatchNotImplemented (Patch.op op))
  end.

(** The body of the loop of [apply_operations]. *)
Definition apply_operation (op : Patch.t) : M t unit :=
  if contains "variables/" (Patch.path op) then
    _apply_operation_to_variables op
  else if contains "/cacheClusterEnabled" (Patch.path op) then
    let! v := lift (Patch.get_value op) in
    modify (fun self =>
      let self := set_cacheClusterEnabled (Some (_str2bool v)) self in
      match cacheClusterSize self with
      | None => if _str2bool v then set_cacheClusterSize (Some "0.5") self else self
      | Some _ => self
      end)
  else if contains "/cacheClusterSize" (Patch.path op) then
    let! v := lift (Patch.get_value op) in
    let! f := lift (py_float v) in
    modify (set_cacheClusterSize (Some (float_str f)))
  else if contains "/description" (Patch.path op) then
    let! v := lift (Patch.get_value op) in
    modify (set_description v)
  else if contains "/deploymentId" (Patch.path op) then
    let! v := lift (Patch.get_value op) in
    modify (set_deploymentId (Some v))
  else if String.eqb (Patch.op op) "replace" then
    match split "/" 3 (Patch.path op) with
    | [_; resource_specifier; method_specifier; setting] =>
        let! v := lift (Patch.get_value op) in
        _patch_method_setting
          (resource_specifier ++ "/" ++ method_specifier)%string setting v
    | _ => ret tt
    end
  else raise (PatchNotImplemented (Patch.op op)).

Fixpoint apply_operations (patch_operations : list Patch.t) : M t unit :=
  match patch_operations with
  | [] => ret tt
  | op :: rest => let! _ := apply_operation op in apply_operations rest
  end.

End Operations.

End Stage.

Module ApiKey.

Record t : Type := {
  id : string;
  value : string;
  name : option string;
  customerId : option string;
  description : option string;
  enabled : bool;
  createdDate : Z;
  lastUpdatedDate : Z;
  stageKeys : list string;
  tags : option (gmap string string)
}.

(** The keyword arguments of [ApiKey.__init__], [None] where the payload
    has no such key. *)
Record payload : Type := {
  p_name : option string;
  p_description : option string;
  p_enabled : option bool;
  p_generateDistinctId : option bool;
  p_value : option string;
  p_stageKeys : option (list string);
  p_tags : option (gmap string string);
  p_customerId : option string
}.

(** [ApiKey.__init__]: [new_id] is what [create_id()] returns,
    [random_value] what [random.sample] over letters and digits gives,
    [now] is [int(time.time())]. *)
Definition init (p : payload) (new_id random_value : string) (now : Z) : t :=
  {| id := new_id;
     value := if truthy (p_value p) then default "" (p_value p) else random_value;
     name := p_name p;
     customerId := p_customerId p;
     description := p_description p;
     enabled := default false (p_enabled p);
     createdDate := now;
     lastUpdatedDate := now;
     stageKeys := default [] (p_stageKeys p);
     tags := p_tags p |}.

Definition set_name (x : option string) (k : t) : t :=
  {| id := id k; value := value k; name := x; customerId := customerId k;
     description := description k; enabled := enabled k; createdDate := createdDate k;
     lastUpdatedDate := lastUpdatedDate k; stageKeys := stageKeys k; tags := tags k |}.

Definition set_customerId (x : option string) (k : t) : t :=
  {| id := id k; value := value k; name := name k; customerId := x;
     description := description k; enabled := enabled k; createdDate := createdDate k;
     lastUpdatedDate := lastUpdatedDate k; stageKeys := stageKeys k; tags := tags k |}.

Definition set_description (x : option string) (k : t) : t :=
  {| id := id k; value := value k; name := name k; customerId := customerId k;
     description := x; enabled := enabled k; createdDate := createdDate k;
     lastUpdatedDate := lastUpdatedDate k; stageKeys := stageKeys k; tags := tags k |}.

Definition set_enabled (x : bool) (k : t) : t :=
  {| id := id k; value := value k; name := name k; customerId := customerId k;
     description := description k; enabled := x; createdDate := createdDate k;
     lastUpdatedDate := lastUpdatedDate k; stageKeys := stageKeys k; tags := tags k |}.

Definition _str2bool (v : string) : bool := String.eqb (lower v) "true".

(** The body of the loop of [update_operations]: a [replace] on a path that
    names none of the four fields does nothing. *)
Definition update_operation (op : Patch.t) : M t unit :=
  if String.eqb (Patch.op op) "replace" then
    if contains "/name" (Patch.path op) then
      let! v := lift (Patch.get_value op) in modify (set_name (Some v))
    else if contains "/customerId" (Patch.path op) then
      let! v := lift (Patch.get_value op) in modify (set_customerId (Some v))
    else if contains "/description" (Patch.path op) then
      let! v := lift (Patch.get_value op) in modify (set_description (Some v))
    else if contains "/enabled" (Patch.path op) then
      let! v := lift (Patch.get_value op) in modify (set_enabled (_str2bool v))
    else ret tt
  else raise (PatchNotImplemented (Patch.op op)).

Fixpoint update_operations (patch_operations : list Patch.t) : M t unit :=
  match patch_operations with
  | [] => ret tt
  | op :: rest => let! _ := update_operation op in update_operations rest
  end.

End ApiKey.

Module UsagePlan.

Record t : Type := {
  id : string;
  name : option string;
  description : option string;
  apiStages : list (gmap string string);
  throttle : option (gmap string pyval);
  quota : option (gmap string pyval);
  tags : option (gmap string string)
}.

End UsagePlan.

Module UsagePlanKey.

Record t : Type := {
  id : string;
  name : option string;
  type : string;
  value : string
}.

(** The payload of [create_usage_plan_key], [None] for a missing key. *)
Record payload : Type := {
  keyId : option string;
  keyType : option string
}.

End UsagePlanKey.

Module RestAPI.

(** The authorizers and models of an API are left out: nothing below
    reads or writes them.  [update_integration_mocks] registers callbacks
    with the [responses] library and touches no field of the API. *)
Record t : Type := {
  id : string;
  region_name : string;
  name : string;
  description : string;
  create_date : Z;
  api_key_source : string;
  policy : option string;
  deployments : gmap string Deployment.t;
  stages : gmap string Stage.t;
  resources : odict Resource.t
}.

Definition set_resources (rs : odict Resource.t) (a : t) : t :=
  {| id := id a; region_name := region_name a; name := name a;
     description := description a; create_date := create_date a;
     api_key_source := api_key_source a; policy := policy a;
     deployments := deployments a; stages := stages a; resources := rs |}.

Definition set_stages (ss : gmap string Stage.t) (a : t) : t :=
  {| id := id a; region_name := region_name a; name := name a;
     description := description a; create_date := create_date a;
     api_key_source := api_key_source a; policy := policy a;
     deployments := deployments a; stages := ss; resources := resources a |}.

Definition set_deployments (ds : gmap string Deployment.t) (a : t) : t :=
  {| id := id a; region_name := region_name a; name := name a;
     description := description a; create_date := create_date a;
     api_key_source := api_key_source a; policy := policy a;
     deployments := ds; stages := stages a; resources := resources a |}.

(** [child_id] is what [create_id()] returns. *)
Definition add_child (path : string) (parent_id : option string) (child_id : string)
  : M t Resource.t :=
  fun self =>
    let child := Resource.init child_id (region_name self) (id self) path parent_id in
    (set_resources (odict_set child_id child (resources self)) self, Returns child).

(** [RestAPI.__init__]; [root_id] is the id drawn for the default child. *)
Definition init (id region_name name description : string)
    (api_key_source policy : option string) (now : Z) (root_id : string) : t :=
  fst (add_child "/" None root_id
         {| id := id; region_name := region_name; name := name;
            description := description; create_date := now;
            api_key_source :=
              if truthy api_key_source then default "" api_key_source else "HEADER";
            policy := if truthy policy then policy else None;
            deployments := ∅; stages := ∅; resources := [] |}).

Section GetResourceForPath.

(** [Resource.get_path], which goes through the registry of backends. *)
Variable get_path : Resource.t -> outcome string.

Fixpoint first_with_path (path_after_stage_name : string) (rs : list Resource.t)
  : outcome (option Resource.t) :=
  match rs with
  | [] => Returns None
  | resource :: rs' =>
      try! p := get_path resource in
      if String.eqb p path_after_stage_name then Returns (Some resource)
      else first_with_path path_after_stage_name rs'
  end.

(** Falls off the end of the loop, returning [None], when no resource
    has the path. *)
Definition get_resource_for_path (path_after_stage_name : string) (self : t)
  : outcome (option Resource.t) :=
  first_with_path path_after_stage_name (odict_values (resources self)).

End GetResourceForPath.

Definition create_stage (name : string) (deployment_id : option string)
    (variables : option (gmap string string)) (description : string)
    (cacheClusterEnabled : option bool) (cacheClusterSize : option string)
  : M t Stage.t :=
  fun self =>
    let stage :=
      Stage.init (Some name) deployment_id (Some (default ∅ variables)) description
        cacheClusterEnabled cacheClusterSize in
    (set_stages (<[name := stage]> (stages self)) self, Returns stage).

(** [deployment_id] is what [create_id()] returns. *)
Definition create_deployment (name description : string)
    (stage_variables : option (gmap string string))
    (deployment_id : string) (now : Z) : M t Deployment.t :=
  fun self =>
    let stage_variables := default ∅ stage_variables in
    let deployment := Deployment.init deployment_id name description now in
    let self := set_deployments (<[deployment_id := deployment]> (deployments self)) self in
    let self :=
      set_stages
        (<[name := Stage.init (Some name) (Some deployment_id) (Some stage_variables)
                     "" (Some false) None]> (stages self)) self in
    (self, Returns deployment).

Definition get_deployment (deployment_id : string) (self : t) : outcome Deployment.t :=
  item deployment_id (deployments self).

(** [pop] without a default. *)
Definition delete_deployment (deployment_id : string) : M t Deployment.t :=
  fun self =>
    match deployments self !! deployment_id with
    | Some deployment =>
        (set_deployments (delete deployment_id (deployments self)) self, Returns deployment)
    | None => (self, Raises (KeyError deployment_id))
    end.

End RestAPI.

Module APIGatewayBackend.

(** The domain names and the (always empty) [models] dictionary of the
    backend are left out: nothing below reads or writes them. *)
Record t : Type := {
  apis : gmap string RestAPI.t;
  keys : gmap string ApiKey.t;
  usage_plans : gmap string UsagePlan.t;
  usage_plan_keys : gmap string (gmap string UsagePlanKey.t);
  region_name : string
}.

Definition init (region_name : string) : t :=
  {| apis := ∅; keys := ∅; usage_plans := ∅; usage_plan_keys := ∅;
     region_name := region_name |}.

Definition set_apis (x : gmap string RestAPI.t) (b : t) : t :=
  {| apis := x; keys := keys b; usage_plans := usage_plans b;
     usage_plan_keys := usage_plan_keys b; region_name := region_name b |}.

Definition set_keys (x : gmap string ApiKey.t) (b : t) : t :=
  {| apis := apis b; keys := x; usage_plans := usage_plans b;
     usage_plan_keys := usage_plan_keys b; region_name := region_name b |}.

Definition set_usage_plan_keys (x : gmap string (gmap string UsagePlanKey.t)) (b : t) : t :=
  {| apis := apis b; keys := keys b; usage_plans := usage_plans b;
     usage_plan_keys := x; region_name := region_name b |}.

Definition get_rest_api (function_id : string) (self : t) : outcome RestAPI.t :=
  match apis self !! function_id with
  | Some rest_api => Returns rest_api
  | None => Raises RestAPINotFound
  end.

(** Runs a method of the API [function_id]; the API is one shared object,
    so what the method did to it is kept also when it raises. *)
Definition on_api {A : Type} (function_id : string) (m : M RestAPI.t A) : M t A :=
  fun self =>
    match get_rest_api function_id self with
    | Returns api =>
        let (api', r) := m api in
        (set_apis (<[function_id := api']> (apis self)) self, r)
    | Raises e => (self, Raises e)
    end.

(** The same for a method of the resource [resource_id] of that API. *)
Definition on_resource {A : Type} (function_id resource_id : string)
    (m : M Resource.t A) : M t A :=
  on_api function_id (fun api =>
    match odict_get resource_id (RestAPI.resources api) with
    | Some resource =>
        let (resource', r) := m resource in
        (RestAPI.set_resources
           (odict_set resource_id resource' (RestAPI.resources api)) api, r)
    | None => (api, Raises (KeyError resource_id))
    end).

(** [api_id] is what [create_id()] returns, [root_id] the id of the API's
    default child. *)
Definition create_rest_api (name description : string)
    (api_key_source policy : option string)
    (api_id root_id : string) (now : Z) : M t RestAPI.t :=
  fun self =>
    let rest_api :=
      RestAPI.init api_id (region_name self) name description api_key_source policy
        now root_id in
    (set_apis (<[api_id := rest_api]> (apis self)) self, Returns rest_api).

Definition list_resources (function_id : string) (self : t) : outcome (list Resource.t) :=
  try! api := get_rest_api function_id self in
  Returns (odict_values (RestAPI.resources api)).

Definition get_resource (function_id resource_id : string) (self : t)
  : outcome Resource.t :=
  try! api := get_rest_api function_id self in
  odict_item resource_id (RestAPI.resources api).

Definition create_resource (function_id : string) (parent_resource_id : option string)
    (path_part : string) (child_id : string) : M t Resource.t :=
  if negb (re_match_dollar path_part_pattern path_part) then
    raise InvalidResourcePathException
  else
    on_api function_id (RestAPI.add_child path_part parent_resource_id child_id).

Definition delete_resource (function_id resource_id : string) : M t Resource.t :=
  on_api function_id (fun api =>
    match odict_get resource_id (RestAPI.resources api) with
    | Some resource =>
        (RestAPI.set_resources (odict_del resource_id (RestAPI.resources api)) api,
         Returns resource)
    | None => (api, Raises (KeyError resource_id))
    end).

Definition get_method (function_id resource_id method_type : string) (self : t)
  : outcome Method.t :=
  try! resource := get_resource function_id resource_id self in
  Resource.get_method method_type resource.

Definition create_method (function_id resource_id method_type : string)
    (authorization_type : option string) (api_key_required : option bool)
  : M t Method.t :=
  on_resource function_id resource_id
    (Resource.add_method method_type authorization_type api_key_required).

Definition get_stage (function_id stage_name : string) (self : t) : outcome Stage.t :=
  try! api := get_rest_api function_id self in
  match RestAPI.stages api !! stage_name with
  | Some stage => Returns stage
  | None => Raises StageNotFoundException
  end.

(** [get_stage] raises for a missing stage, so the branch of the source
    that would build an empty [Stage()] is never taken: every stage
    dictionary has keys and is truthy. *)
Definition update_stage `{env : Env} (function_id stage_name : string)
    (patch_operations : list Patch.t) : M t Stage.t :=
  on_api function_id (fun api =>
    match RestAPI.stages api !! stage_name with
    | Some stage =>
        let (stage', r) := Stage.apply_operations patch_operations stage in
        (RestAPI.set_stages (<[stage_name := stage']> (RestAPI.stages api)) api,
         match r with
         | Returns _ => Returns stage'
         | Raises e => Raises e
         end)
    | None => (api, Raises StageNotFoundException)
    end).

Definition in_list (x : string) (l : list string) : bool :=
  existsb (String.eqb x) l.

Section Integrations.

Context `{env : Env}.

(** [all([result.scheme, result.netloc, result.path])], [False] when
    [urlparse] raises. *)
Definition _uri_validator (uri : string) : bool :=
  match urlparse uri with
  | Some result =>
      negb (String.eqb (scheme result) "") && negb (String.eqb (netloc result) "")
      && negb (String.eqb (url_path result) "")
  | None => false
  end.

(** ["^arn:aws:iam::" + str(ACCOUNT_ID)] *)
Definition iam_arn_pattern : regex := Lit ("arn:aws:iam::" ++ ACCOUNT_ID)%string.

Definition create_integration (function_id resource_id method_type : string)
    (integration_type uri : string) (integration_method credentials : option string)
    (request_templates : option (gmap string string)) : M t Integration.t :=
  let! resource := (fun self => (self, get_resource function_id resource_id self)) in
  if truthy credentials && negb (re_match iam_arn_pattern (default "" credentials)) then
    raise CrossAccountNotAllowed
  else if negb (truthy integration_method)
          && in_list integration_type ["HTTP"; "HTTP_PROXY"; "AWS"; "AWS_PROXY"] then
    raise IntegrationMethodNotDefined
  else if in_list integration_type ["AWS_PROXY"] && re_match s3_arn_pattern uri then
    raise AwsProxyNotAllowed
  else if in_list integration_type ["AWS"] && re_match s3_arn_pattern uri
          && negb (truthy credentials) then
    raise RoleNotSpecified
  else if in_list integration_type ["HTTP"; "HTTP_PROXY"] && negb (_uri_validator uri) then
    raise InvalidHttpEndpoint
  else if in_list integration_type ["AWS"; "AWS_PROXY"] && negb (re_match arn_pattern uri) then
    raise InvalidArn
  else if in_list integration_type ["AWS"; "AWS_PROXY"]
          && negb (re_match integration_arn_pattern uri) then
    raise InvalidIntegrationArn
  else
    on_resource function_id resource_id
      (Resource.add_integration method_type integration_type uri request_templates).

End Integrations.

Definition get_integration (function_id resource_id method_type : string) (self : t)
  : outcome (option Integration.t) :=
  try! resource := get_resource function_id resource_id self in
  Resource.get_integration method_type resource.

Definition delete_integration (function_id resource_id method_type : string)
  : M t (option Integration.t) :=
  on_resource function_id resource_id (Resource.delete_integration method_type).

(** [bool(i)] for [i] an integration or [None]: an integration is a
    dictionary with keys. *)
Definition integration_truth (i : option Integration.t) : bool :=
  match i with
  | Some _ => true
  | None => false
  end.

(** [deployment_id] is what [create_id()] returns. *)
Definition create_deployment (function_id name description : string)
    (stage_variables : option (gmap string string))
    (deployment_id : string) (now : Z) : M t Deployment.t :=
  let stage_variables := Some (default ∅ stage_variables) in
  let! api := (fun self => (self, get_rest_api function_id self)) in
  let! resources := (fun self => (self, list_resources function_id self)) in
  match map (fun res => odict_values (Resource.resource_methods res)) resources with
  | [] => raise IndexError
  | methods :: _ =>
      if negb (any Method.truth methods) then raise NoMethodDefined
      else
        let method_integrations :=
          map (fun method =>
                 match Method.methodIntegration method with
                 | Some i => i
                 | None => None
                 end) methods in
        if negb (any integration_truth method_integrations) then
          raise NoIntegrationDefined
        else
          on_api function_id
            (RestAPI.create_deployment name description stage_variables deployment_id now)
  end.

Definition get_deployment (function_id deployment_id : string) (self : t)
  : outcome Deployment.t :=
  try! api := get_rest_api function_id self in
  RestAPI.get_deployment deployment_id api.

Definition get_apikeys (self : t) : list ApiKey.t :=
  (map_to_list (keys self)).*2.

(** [new_id], [random_value] and [now] are what [ApiKey.__init__] draws. *)
Definition create_apikey (payload : ApiKey.payload)
    (new_id random_value : string) (now : Z) : M t ApiKey.t :=
  let store : M t ApiKey.t :=
    fun self =>
      let key := ApiKey.init payload new_id random_value now in
      (set_keys (<[ApiKey.id key := key]> (keys self)) self, Returns key) in
  match ApiKey.p_value payload with
  | Some value =>
      fun self =>
        if existsb (fun api_key => String.eqb (ApiKey.value api_key) value)
             (get_apikeys self)
        then (self, Raises ApiKeyAlreadyExists)
        else store self
  | None => store
  end.

(** The empty dictionary for a new plan id is written before the key id
    is looked up. *)
Definition create_usage_plan_key (usage_plan_id : string)
    (payload : UsagePlanKey.payload) : M t UsagePlanKey.t :=
  let! _ :=
    modify (fun self =>
      match usage_plan_keys self !! usage_plan_id with
      | None => set_usage_plan_keys (<[usage_plan_id := ∅]> (usage_plan_keys self)) self
      | Some _ => self
      end) in
  match UsagePlanKey.keyId payload with
  | None => raise (KeyError "keyId")
  | Some key_id =>
      fun self =>
        match keys self !! key_id with
        | None => (self, Raises ApiKeyNotFoundException)
        | Some api_key =>
            match UsagePlanKey.keyType payload with
            | None => (self, Raises (KeyError "keyType"))
            | Some key_type =>
                let usage_plan_key :=
                  {| UsagePlanKey.id := key_id;
                     UsagePlanKey.type := key_type;
                     UsagePlanKey.name := ApiKey.name api_key;
                     UsagePlanKey.value := ApiKey.value api_key |} in
                match usage_plan_keys self !! usage_plan_id with
                | Some plan_keys =>
                    (set_usage_plan_keys
                       (<[usage_plan_id := <[key_id := usage_plan_key]> plan_keys]>
                          (usage_plan_keys self)) self,
                     Returns usage_plan_key)
                | None => (self, Raises (KeyError usage_plan_id))
                end
            end
        end
  end.

Definition get_usage_plan_keys (usage_plan_id : string) (self : t) : list UsagePlanKey.t :=
  match usage_plan_keys self !! usage_plan_id with
  | None => []
  | Some plan_keys => (map_to_list plan_keys).*2
  end.

(** Runs a method of the method [method_type] of a resource: the lookups of
    [get_method], then the call on the shared method object. *)
Definition on_method {A : Type} (function_id resource_id method_type : string)
    (m : M Method.t A) : M t A :=
  on_resource function_id resource_id (fun resource =>
    match odict_get method_type (Resource.resource_methods resource) with
    | Some method =>
        let (method', r) := m method in
        (Resource.set_resource_methods
           (odict_set method_type method' (Resource.resource_methods resource)) resource, r)
    | None => (resource, Raises (KeyError method_type))
    end).

Definition get_method_response (function_id resource_id method_type response_code : string)
    (self : t) : outcome MethodResponse.t :=
  try! method := get_method function_id resource_id method_type self in
  Method.get_response response_code method.

Definition create_method_response (function_id resource_id method_type response_code : string)
  : M t MethodResponse.t :=
  on_method function_id resource_id method_type (Method.create_response response_code).

Definition delete_method_response (function_id resource_id method_type response_code : string)
  : M t MethodResponse.t :=
  on_method function_id resource_id method_type (Method.delete_response response_code).

(** Returns [api.stages.get(stage_name)], the stage just stored. *)
Definition create_stage (function_id stage_name : string) (deploymentId : option string)
    (variables : option (gmap string string)) (description : string)
    (cacheClusterEnabled : option bool) (cacheClusterSize : option string) : M t Stage.t :=
  on_api function_id
    (RestAPI.create_stage stage_name deploymentId (Some (default ∅ variables)) description
       cacheClusterEnabled cacheClusterSize).

(** [del api.stages[stage_name]] *)
Definition delete_stage (function_id stage_name : string) : M t unit :=
  on_api function_id (fun api =>
    match RestAPI.stages api !! stage_name with
    | Some _ => (RestAPI.set_stages (delete stage_name (RestAPI.stages api)) api, Returns tt)
    | None => (api, Raises (KeyError stage_name))
    end).

Definition delete_deployment (function_id deployment_id : string) : M t Deployment.t :=
  on_api function_id (RestAPI.delete_deployment deployment_id).

(** [self.apis.pop(function_id)] *)
Definition delete_rest_api (function_id : string) : M t RestAPI.t :=
  fun self =>
    match apis self !! function_id with
    | Some rest_api => (set_apis (delete function_id (apis self)) self, Returns rest_api)
    | None => (self, Raises (KeyError function_id))
    end.

Definition get_apikey (api_key_id : string) (self : t) : outcome ApiKey.t :=
  item api_key_id (keys self).

(** The key is one shared object: what the operations did to it before one
    of them raised is kept. *)
Definition update_apikey (api_key_id : string) (patch_operations : list Patch.t)
  : M t ApiKey.t :=
  fun self =>
    match keys self !! api_key_id with
    | Some key =>
        let (key', r) := ApiKey.update_operations patch_operations key in
        (set_keys (<[api_key_id := key']> (keys self)) self,
         match r with
         | Returns _ => Returns key'
         | Raises e => Raises e
         end)
    | None => (self, Raises (KeyError api_key_id))
    end.

(** [self.keys.pop(api_key_id)], then [{}] is returned. *)
Definition delete_apikey (api_key_id : string) : M t unit :=
  fun self =>
    match keys self !! api_key_id with
    | Some _ => (set_keys (delete api_key_id (keys self)) self, Returns tt)
    | None => (self, Raises (KeyError api_key_id))
    end.

(** [self.usage_plan_keys[usage_plan_id].pop(key_id)] *)
Definition delete_usage_plan_key (usage_plan_id key_id : string) : M t unit :=
  fun self =>
    match usage_plan_keys self !! usage_plan_id with
    | Some plan_keys =>
        match plan_keys !! key_id with
        | Some _ =>
            (set_usage_plan_keys
               (<[usage_plan_id := delete key_id plan_keys]> (usage_plan_keys self)) self,
             Returns tt)
        | None => (self, Raises (KeyError key_id))
        end
    | None => (self, Raises (KeyError usage_plan_id))
    end.

End APIGatewayBackend.

(** ** The registry [apigateway_backends] and the lookups through it *)

Abbreviation registry := (gmap string APIGatewayBackend.t).

(** [apigateway_backends[region_name].get_resource(api_id, resource_id)] *)
Definition lookup_resource (backends : registry) (region_name api_id resource_id : string)
  : outcome Resource.t :=
  match backends !! region_name with
  | Some backend => APIGatewayBackend.get_resource api_id resource_id backend
  | None => Raises (KeyError region_name)
  end.

(** Region, API id and resource id of every resource of every backend. *)
Definition all_resource_keys (backends : registry) : list (string * string * string) :=
  flat_map (fun rb : string * APIGatewayBackend.t =>
    flat_map (fun ia : string * RestAPI.t =>
      map (fun kr : string * Resource.t => (fst rb, fst ia, fst kr))
        (RestAPI.resources (snd ia)))
      (map_to_list (APIGatewayBackend.apis (snd rb))))
    (map_to_list backends).

(** [Resource.get_path]: a chain of parents that ends is no longer than the
    number of resources, so with this fuel [RecursionError] is the outcome
    of a cycle of parents only. *)
Definition get_path (backends : registry) (self : Resource.t) : outcome string :=
  Resource.get_path_fuel (lookup_resource backends)
    (2 + length (all_resource_keys backends)) self.

(** [RestAPI.get_resource_for_path] *)
Definition get_resource_for_path (backends : registry) (path_after_stage_name : string)
    (self : RestAPI.t) : outcome (option Resource.t) :=
  RestAPI.get_resource_for_path (get_path backends) path_after_stage_name self.

(** ** The chain of parents that [get_path] climbs *)

Section Ancestors.

Variable get_resource : string -> string -> string -> outcome Resource.t.

(** The arguments of the lookup of the parent, when [parent_id] is truthy. *)
Definition parent_key (r : Resource.t) : option (string * string * string) :=
  match Resource.parent_id r with
  | Some pid =>
      if truthy (Some pid) then Some (Resource.region_name r, Resource.api_id r, pid)
      else None
  | None => None
  end.

Definition lookup_key (k : string * string * string) : outcome Resource.t :=
  get_resource (fst (fst k)) (snd (fst k)) (snd k).

(** The parent, when there is one and its lookup returns. *)
Definition parent_of (r : Resource.t) : option Resource.t :=
  match parent_key r with
  | Some k => match lookup_key k with Returns q => Some q | Raises _ => None end
  | None => None
  end.

Fixpoint ancestor (n : nat) (r : Resource.t) : option Resource.t :=
  match n with
  | O => Some r
  | S n' => match parent_of r with Some q => ancestor n' q | None => None end
  end.

(** The keys of the first [n] lookups. *)
Fixpoint trail (n : nat) (r : Resource.t) : list (string * string * string) :=
  match n with
  | O => []
  | S n' =>
      match parent_key r with
      | Some k =>
          match lookup_key k with
          | Returns q => k :: trail n' q
          | Raises _ => []
          end
      | None => []
      end
  end.

End Ancestors.

(** ** Patch operations that [Stage.apply_operations] rejects

    The two [raise Exception('Patch operation "%s" not implemented')] of the
    stage: under [variables/] an operation other than [remove] and
    [replace], and outside the named fields an operation other than
    [replace]. *)
Definition unsupported (o : Patch.t) : bool :=
  if contains "variables/" (Patch.path o) then
    negb (String.eqb (Patch.op o) "remove") && negb (String.eqb (Patch.op o) "replace")
  else
    negb (contains "/cacheClusterEnabled" (Patch.path o))
    && negb (contains "/cacheClusterSize" (Patch.path o))
    && negb (contains "/description" (Patch.path o))
    && negb (contains "/deploymentId" (Patch.path o))
    && negb (String.eqb (Patch.op o) "replace").

(** ** Patch operations that [Stage.apply_operations] passes over

    The [replace] branch of the stage with nothing to do: the path names
    none of the fields and either does not split into four parts (the
    [continue]), or its setting has no translation, so that
    [_patch_method_setting] returns at once; [op["value"]] is evaluated
    before that call and has to be there. *)
Definition skipped (o : Patch.t) : bool :=
  negb (contains "variables/" (Patch.path o))
  && negb (contains "/cacheClusterEnabled" (Patch.path o))
  && negb (contains "/cacheClusterSize" (Patch.path o))
  && negb (contains "/description" (Patch.path o))
  && negb (contains "/deploymentId" (Patch.path o))
  && String.eqb (Patch.op o) "replace"
  && match split "/" 3 (Patch.path o) with
     | [_; _; _; setting] =>
         match Patch.value o, Stage._method_settings_translations setting with
         | Some _, None => true
         | _, _ => false
         end
     | _ => true
     end.

(** ** States for the examples *)

(** An environment: the account id that moto uses by default; the builtins
    raise on what is not a run of digits. *)
Definition demo_env : Env :=
  {| ACCOUNT_ID := "123456789012";
     urlparse := fun _ => None;
     int_ext := fun _ => None;
     float_ext := fun _ => None;
     float_str := fun _ => "nan" |}.

(** A backend with one API: the root and a child [/pets]. *)
Definition backend_with_child : APIGatewayBackend.t :=
  let b := APIGatewayBackend.init "us-east-1" in
  let b := fst (APIGatewayBackend.create_rest_api "petstore" "" None None "api1" "root00" 0 b) in
  fst (APIGatewayBackend.create_resource "api1" (Some "root00") "pets" "res001" b).

(** The same, with a [GET] method on the child. *)
Definition backend_with_method : APIGatewayBackend.t :=
  fst (APIGatewayBackend.create_method "api1" "res001" "GET" (Some "NONE") None
         backend_with_child).

(** The same, with a [MOCK] integration on that method. *)
Definition backend_with_integration : APIGatewayBackend.t :=
  fst (APIGatewayBackend.create_integration (env := demo_env) "api1" "res001" "GET"
         "MOCK" "" None None None backend_with_method).

Definition demo_registry : registry := {[ "us-east-1" := backend_with_child ]}.

Definition demo_root : Resource.t := Resource.init "root00" "us-east-1" "api1" "/" None.

Definition demo_child : Resource.t :=
  Resource.init "res001" "us-east-1" "api1" "pets" (Some "root00").

Definition demo_api : RestAPI.t :=
  RestAPI.init "api1" "us-east-1" "petstore" "" None None 0 "root00".

Definition demo_stage : Stage.t :=
  Stage.init (Some "prod") (Some "dep001") None "" (Some false) None.

Definition rate_limit_patch : Patch.t :=
  {| Patch.op := "replace"; Patch.path := "/*/*/throttling/rateLimit";
     Patch.value := Some "500" |}.

Definition cache_cluster_patch : Patch.t :=
  {| Patch.op := "replace"; Patch.path := "/cacheClusterEnabled";
     Patch.value := Some "true" |}.

Definition demo_key_payload (value : string) : ApiKey.payload :=
  {| ApiKey.p_name := Some "key"; ApiKey.p_description := None;
     ApiKey.p_enabled := None; ApiKey.p_generateDistinctId := None;
     ApiKey.p_value := Some value; ApiKey.p_stageKeys := None;
     ApiKey.p_tags := None; ApiKey.p_customerId := None |}.

(** A backend holding one API key, of value ["secret"]. *)
Definition backend_with_key : APIGatewayBackend.t :=
  fst (APIGatewayBackend.create_apikey (demo_key_payload "secret") "key001"
         "r4nd0m" 0 (APIGatewayBackend.init "us-east-1")).

(** ** Predicates of the further properties *)

(** A stage with the cache cluster enabled has a size for it. *)
Definition cache_size_when_enabled (st : Stage.t) : Prop :=
  Stage.cacheClusterEnabled st = Some true -> is_Some (Stage.cacheClusterSize st).

(** Every entry of the method settings has every key of the defaults. *)
Definition settings_complete (st : Stage.t) : Prop :=
  forall k settings x,
    Stage.methodSettings st !! k = Some settings ->
    is_Some (Stage._get_default_method_settings !! x) ->
    is_Some (settings !! x).

(** No character class of [r] accepts [c]. *)
Fixpoint rejects (c : ascii) (r : regex) : bool :=
  match r with
  | Void | Eps => true
  | Class p => negb (p c)
  | Cat r1 r2 | Alt r1 r2 => rejects c r1 && rejects c r2
  | Star r' => rejects c r'
  end.

(** [r] matches no string, by its shape. *)
Fixpoint is_void (r : regex) : bool :=
  match r with
  | Void => true
  | Eps | Class _ | Star _ => false
  | Cat r1 r2 => is_void r1 || is_void r2
  | Alt r1 r2 => is_void r1 && is_void r2
  end.

(** Each resource of [rs] has a non-empty segment and the one before it,
    [parent] for the first, as the parent that the registry returns. *)
Fixpoint linked (backends : registry) (parent : Resource.t) (rs : list Resource.t) : Prop :=
  match rs with
  | [] => True
  | r :: rs' =>
      (exists pid,
          Resource.parent_id r = Some pid
          /\ truthy (Some pid) = true
          /\ lookup_resource backends (Resource.region_name r) (Resource.api_id r) pid
             = Returns parent)
      /\ Resource.path_part r <> ""
      /\ linked backends r rs'
  end.

(** No two API keys of the backend have the same value. *)
Definition values_unique (b : APIGatewayBackend.t) : Prop :=
  forall k1 k2 key1 key2,
    APIGatewayBackend.keys b !! k1 = Some key1 ->
    APIGatewayBackend.keys b !! k2 = Some key2 ->
    ApiKey.value key1 = ApiKey.value key2 ->
    k1 = k2.

(** ** Further states for the examples *)

(** The API of [backend_with_child]. *)
Definition api_with_child : RestAPI.t :=
  fst (RestAPI.add_child "pets" (Some "root00") "res001" demo_api).

(** [backend_with_child] with a stage [prod] made by [create_stage]. *)
Definition backend_with_stage : APIGatewayBackend.t :=
  fst (APIGatewayBackend.create_stage "api1" "prod" (Some "dep001") None "" None None
         backend_with_child).

(** A backend whose root has a [GET] method with a [MOCK] integration. *)
Definition backend_deployable : APIGatewayBackend.t :=
  let b := fst (APIGatewayBackend.create_method "api1" "root00" "GET" (Some "NONE") None
                  backend_with_child) in
  fst (APIGatewayBackend.create_integration (env := demo_env) "api1" "root00" "GET"
         "MOCK" "" None None None b).

(** The same after [create_deployment] of the stage [prod]. *)
Definition backend_deployed : APIGatewayBackend.t :=
  fst (APIGatewayBackend.create_deployment "api1" "prod" "" None "dep001" 0
         backend_deployable).

Definition demo_grandchild : Resource.t :=
  Resource.init "res002" "us-east-1" "api1" "{id}" (Some "res001").

(** A registry whose backend has the chain [/], [pets], [{id}]. *)
Definition registry_with_grandchild : registry :=
  {[ "us-east-1" :=
       fst (APIGatewayBackend.create_resource "api1" (Some "res001") "{id}" "res002"
              backend_with_child) ]}.

(** A registry whose backend has lost the root of [backend_with_child]. *)
Definition registry_without_root : registry :=
  {[ "us-east-1" := fst (APIGatewayBackend.delete_resource "api1" "root00"
                           backend_with_child) ]}.

Definition variable_patch (op key value : string) : Patch.t :=
  {| Patch.op := op; Patch.path := "/variables/" ++ key; Patch.value := Some value |}.

Definition burst_limit_patch (value : string) : Patch.t :=
  {| Patch.op := "replace"; Patch.path := "/*/*/throttling/burstLimit";
     Patch.value := Some value |}.

Definition usage_plan_key_payload (key_id : string) : UsagePlanKey.payload :=
  {| UsagePlanKey.keyId := Some key_id; UsagePlanKey.keyType := Some "API_KEY" |}.

(** The API of a backend of the examples. *)
Definition api_of (b : APIGatewayBackend.t) : RestAPI.t :=
  default demo_api (APIGatewayBackend.apis b !! "api1").

(** The resource [/pets] of a backend of the examples. *)
Definition pets_of (b : APIGatewayBackend.t) : Resource.t :=
  default demo_child (odict_get "res001" (RestAPI.resources (api_of b))).

(** * Properties *)

(** ** The string functions on the inputs of the module *)

Example split_method_setting_path :
  split "/" 3 "/*/*/throttling/rateLimit" = [""; "*"; "*"; "throttling/rateLimit"]
  /\ split "/" 3 "/a/b/logging/dataTrace/x" = [""; "a"; "b"; "logging/dataTrace/x"]
  /\ split "/" 3 "/tracingEnabled" = [""; "tracingEnabled"].
Proof. repeat split; reflexivity. Qed.

Example rindex_takes_last_occurrence :
  rindex "variables/" "/variables/variables/x" = Some 11
  /\ drop_string (11 + 10) "/variables/variables/x" = "x"
  /\ rindex "variables/" "/description" = None.
Proof. repeat split; reflexivity. Qed.

Example contains_is_substring_test :
  contains "/cacheClusterEnabled" "/cacheClusterEnabled" = true
  /\ contains "variables/" "/variables/color" = true
  /\ contains "variables/" "/variables" = false
  /\ contains "" "" = true.
Proof. repeat split; reflexivity. Qed.

Example path_part_pattern_examples :
  re_match_dollar path_part_pattern "pets" = true
  /\ re_match_dollar path_part_pattern "{proxy+}" = true
  /\ re_match_dollar path_part_pattern "{id}" = true
  /\ re_match_dollar path_part_pattern "/" = false
  /\ re_match_dollar path_part_pattern "" = false
  /\ re_match_dollar path_part_pattern "pets/all" = false
  /\ re_match_dollar path_part_pattern "a b" = false.
Proof. repeat split; reflexivity. Qed.

Example arn_pattern_examples :
  re_match s3_arn_pattern "arn:aws:apigateway:us-west-2:s3:path/b/k" = true
  /\ re_match s3_arn_pattern "arn:aws:s3:::bucket" = false
  /\ re_match arn_pattern "arn:aws:s3:::bucket" = true
  /\ re_match integration_arn_pattern "arn:aws:s3:::bucket" = false
  /\ re_match integration_arn_pattern
       "arn:aws:apigateway:us-east-1:lambda:path/2015-03-31/functions/f/invocations" = true
  /\ re_match integration_arn_pattern "arn:aws:apigateway:us-west-2:s3:path/b/k" = true.
Proof. repeat split; reflexivity. Qed.

Example builtin_examples :
  py_float (env := demo_env) "500" = Returns (FloatQ (inject_Z 500))
  /\ py_int (env := demo_env) "2000" = Returns 2000%Z
  /\ Stage._str2bool "True" = true
  /\ Stage._str2bool "yes" = false.
Proof. repeat split; reflexivity. Qed.

(** ** [get_path]: the fuel is enough *)
Section FuelSuffices.

Variable get_resource : string -> string -> string -> outcome Resource.t.
Variable known : list (string * string * string).
Hypothesis get_resource_known :
  forall k q, lookup_key get_resource k = Returns q -> k ∈ known.

Lemma get_path_fuel_step (n : nat) (r : Resource.t) :
  Resource.get_path_fuel get_resource (S n) r =
  match parent_key r with
  | None => Returns (Resource.path_part r)
  | Some k =>
      try! parent := lookup_key get_resource k in
      try! parent_path := Resource.get_path_fuel get_resource n parent in
      Returns ((if negb (String.eqb parent_path "/")
                then (parent_path ++ "/")%string else parent_path)
               ++ Resource.path_part r)%string
  end.
Proof.
  unfold parent_key, lookup_key. cbn [Resource.get_path_fuel].
  destruct (Resource.parent_id r) as [pid|]; [|reflexivity].
  destruct (truthy (Some pid)); [|reflexivity].
  cbn [fst snd].
  destruct (get_resource _ _ pid) as [q|e]; [|reflexivity].
  cbn [bind_outcome].
  destruct (Resource.get_path_fuel get_resource n q); reflexivity.
Qed.

Lemma ancestor_add (a b : nat) (r : Resource.t) :
  ancestor get_resource (a + b) r =
  match ancestor get_resource a r with
  | Some q => ancestor get_resource b q
  | None => None
  end.
Proof.
  revert r. induction a as [|a IH]; intros r; [reflexivity|].
  cbn [Nat.add ancestor]. destruct (parent_of get_resource r); auto.
Qed.

Lemma ancestor_le (a b : nat) (r : Resource.t) :
  a <= b -> is_Some (ancestor get_resource b r) -> is_Some (ancestor get_resource a r).
Proof.
  intros Hle Hb. replace b with (a + (b - a)) in Hb by lia.
  rewrite ancestor_add in Hb.
  destruct (ancestor get_resource a r); [eauto|]. destruct Hb; discriminate.
Qed.

(** While the chain of parents goes on, the fuel runs out. *)
Lemma climbing_exhausts (n : nat) (r : Resource.t) :
  is_Some (ancestor get_resource n r) ->
  Resource.get_path_fuel get_resource n r = Raises RecursionError.
Proof.
  revert r. induction n as [|n IH]; intros r Hn; [reflexivity|].
  rewrite get_path_fuel_step. cbn [ancestor] in Hn. unfold parent_of in Hn.
  destruct (parent_key r) as [k|]; [|destruct Hn; discriminate].
  destruct (lookup_key get_resource k) as [q|e]; [|destruct Hn; discriminate].
  cbn [bind_outcome]. rewrite (IH q Hn). reflexivity.
Qed.

(** Once the chain has ended, more fuel changes nothing. *)
Lemma ended_stable (n m : nat) (r : Resource.t) :
  ancestor get_resource n r = None -> n <= m ->
  Resource.get_path_fuel get_resource m r = Resource.get_path_fuel get_resource n r.
Proof.
  revert m r. induction n as [|n IH]; intros m r Hn Hle; [discriminate|].
  destruct m as [|m]; [lia|].
  rewrite !get_path_fuel_step. cbn [ancestor] in Hn. unfold parent_of in Hn.
  destruct (parent_key r) as [k|]; [|reflexivity].
  destruct (lookup_key get_resource k) as [q|e]; [|reflexivity].
  cbn [bind_outcome]. rewrite (IH m q Hn); [reflexivity|lia].
Qed.

Lemma trail_length (n : nat) (r : Resource.t) :
  is_Some (ancestor get_resource n r) -> length (trail get_resource n r) = n.
Proof.
  revert r. induction n as [|n IH]; intros r Hn; [reflexivity|].
  cbn [ancestor trail] in *. unfold parent_of in Hn.
  destruct (parent_key r) as [k|]; [|destruct Hn; discriminate].
  destruct (lookup_key get_resource k) as [q|e]; [|destruct Hn; discriminate].
  cbn [length]. f_equal. auto.
Qed.

Lemma trail_known (n : nat) (r : Resource.t) :
  trail get_resource n r ⊆ known.
Proof.
  revert r. induction n as [|n IH]; intros r k Hk; cbn [trail] in Hk.
  - inversion Hk.
  - destruct (parent_key r) as [k'|]; [|inversion Hk].
    destruct (lookup_key get_resource k') as [q|e] eqn:Hq; [|inversion Hk].
    apply elem_of_cons in Hk as [->|Hk]; [eauto|]. eapply IH; eauto.
Qed.

Lemma trail_lookup (n i : nat) (r : Resource.t) (k : string * string * string) :
  trail get_resource n r !! i = Some k ->
  exists q, ancestor get_resource (S i) r = Some q /\ lookup_key get_resource k = Returns q.
Proof.
  revert i r. induction n as [|n IH]; intros i r Hi; cbn [trail] in Hi; [discriminate|].
  cbn [ancestor]. unfold parent_of.
  destruct (parent_key r) as [k'|]; [|discriminate].
  destruct (lookup_key get_resource k') as [q|e] eqn:Hq; [|discriminate].
  destruct i as [|i]; cbn in Hi.
  - injection Hi as <-. exists q. auto.
  - destruct (IH i q Hi) as (q' & Ha & Hl). exists q'. split; [|exact Hl].
    exact Ha.
Qed.

Lemma ancestor_loop (d j : nat) (q : Resource.t) :
  ancestor get_resource d q = Some q -> ancestor get_resource (j * d) q = Some q.
Proof.
  intros Hd. induction j as [|j IH]; [reflexivity|].
  cbn [Nat.mul]. rewrite ancestor_add, Hd. exact IH.
Qed.

(** A chain longer than the number of resources passes twice through the
    same one, and then never ends. *)
Lemma long_chain_is_cycle (n : nat) (r : Resource.t) :
  length known < n -> is_Some (ancestor get_resource n r) ->
  forall m, is_Some (ancestor get_resource m r).
Proof.
  intros Hlen Hn m.
  destruct (list_pigeonhole (trail get_resource n r) known) as (i1 & i2 & k & Hlt & H1 & H2).
  { apply trail_known. }
  { rewrite trail_length; auto. }
  destruct (trail_lookup _ _ _ _ H1) as (q1 & Ha1 & Hq1).
  destruct (trail_lookup _ _ _ _ H2) as (q2 & Ha2 & Hq2).
  assert (q2 = q1) as -> by congruence.
  assert (Hloop : ancestor get_resource (i2 - i1) q1 = Some q1).
  { replace (S i2) with (S i1 + (i2 - i1)) in Ha2 by lia.
    rewrite ancestor_add, Ha1 in Ha2. exact Ha2. }
  apply (ancestor_le m (S i1 + m * (i2 - i1))); [nia|].
  rewrite ancestor_add, Ha1, (ancestor_loop _ m _ Hloop). eauto.
Qed.

Lemma get_path_fuel_stable (n : nat) (r : Resource.t) :
  length known < n ->
  Resource.get_path_fuel get_resource (S n) r = Resource.get_path_fuel get_resource n r.
Proof.
  intros Hlen. destruct (ancestor get_resource n r) as [q|] eqn:Hn.
  - assert (Hall : forall m, is_Some (ancestor get_resource m r)).
    { apply (long_chain_is_cycle n); eauto. }
    rewrite !climbing_exhausts; auto.
  - apply ended_stable; auto.
Qed.

End FuelSuffices.

(** ** The resource tree *)

Lemma odict_get_In {V : Type} (k : string) (v : V) (d : odict V) :
  odict_get k d = Some v -> In (k, v) d.
Proof.
  induction d as [|[k' v'] d IH]; cbn; [discriminate|].
  destruct (String.eqb_spec k k') as [->|Hne].
  - intros [= ->]. auto.
  - auto.
Qed.

Lemma lookup_resource_known (backends : registry) (k : string * string * string)
    (q : Resource.t) :
  lookup_key (lookup_resource backends) k = Returns q -> k ∈ all_resource_keys backends.
Proof.
  destruct k as [[region api_id] rid]. unfold lookup_key, lookup_resource. cbn [fst snd].
  destruct (backends !! region) as [backend|] eqn:Hb; [|discriminate].
  unfold APIGatewayBackend.get_resource, APIGatewayBackend.get_rest_api.
  destruct (APIGatewayBackend.apis backend !! api_id) as [api|] eqn:Ha; [|discriminate].
  cbn [bind_outcome]. unfold odict_item.
  destruct (odict_get rid (RestAPI.resources api)) as [r|] eqn:Hr; [|discriminate].
  intros _. apply list_elem_of_In. unfold all_resource_keys.
  apply in_flat_map. exists (region, backend). split.
  { apply list_elem_of_In, elem_of_map_to_list, Hb. }
  apply in_flat_map. exists (api_id, api). split.
  { apply list_elem_of_In, elem_of_map_to_list, Ha. }
  apply in_map_iff. exists (rid, r). split; [reflexivity|].
  apply odict_get_In, Hr.
Qed.

(** C2: [get_path()] of the root node that an API creates for itself is
    ["/"], as is that of every node with no parent and the segment ["/"]: a
    node with no parent has its own segment as path.  [get_path()] of a node
    with a parent is the parent's [get_path()], with ["/"] appended when
    that is not ["/"] already, followed by the node's own segment; when the
    parent's [get_path()] raises, so does the node's. *)
Theorem get_path_root_and_child (backends : registry) :
  (forall id region name description api_key_source policy now root_id,
      exists root,
        RestAPI.resources
          (RestAPI.init id region name description api_key_source policy now root_id)
        = [(root_id, root)]
        /\ Resource.parent_id root = None
        /\ get_path backends root = Returns "/")
  /\ (forall r : Resource.t,
        truthy (Resource.parent_id r) = false ->
        get_path backends r = Returns (Resource.path_part r))
  /\ (forall (r parent : Resource.t) (pid : string),
        Resource.parent_id r = Some pid ->
        truthy (Some pid) = true ->
        lookup_resource backends (Resource.region_name r) (Resource.api_id r) pid
        = Returns parent ->
        get_path backends r =
        try! parent_path := get_path backends parent in
        Returns ((if negb (String.eqb parent_path "/")
                  then (parent_path ++ "/")%string else parent_path)
                 ++ Resource.path_part r)%string).
Proof.
  assert (Hroot : forall r : Resource.t,
             truthy (Resource.parent_id r) = false ->
             get_path backends r = Returns (Resource.path_part r)).
  { intros r Hr. unfold get_path. cbn [Nat.add].
    rewrite get_path_fuel_step. unfold parent_key.
    destruct (Resource.parent_id r) as [pid|]; [|reflexivity].
    rewrite Hr. reflexivity. }
  split; [|split].
  - intros. eexists. split; [reflexivity|]. split; [reflexivity|].
    rewrite Hroot; reflexivity.
  - exact Hroot.
  - intros r parent pid Hpid Ht Hparent. unfold get_path. cbn [Nat.add].
    rewrite (get_path_fuel_step _ (S _) r). unfold parent_key. rewrite Hpid, Ht.
    unfold lookup_key. cbn [fst snd]. rewrite Hparent. cbn [bind_outcome].
    rewrite (get_path_fuel_stable _ (all_resource_keys backends)
               (lookup_resource_known backends) (S (length (all_resource_keys backends))));
      [reflexivity|lia].
Qed.

Lemma get_path_root_and_child_witness :
  Resource.parent_id demo_child = Some "root00"
  /\ truthy (Some "root00") = true
  /\ lookup_resource demo_registry "us-east-1" "api1" "root00" = Returns demo_root
  /\ truthy (Resource.parent_id demo_root) = false
  /\ get_path demo_registry demo_root = Returns "/"
  /\ get_path demo_registry demo_child = Returns "/pets".
Proof.
  assert (Hroot : get_path demo_registry demo_root = Returns "/").
  { apply (proj1 (proj2 (get_path_root_and_child demo_registry)) demo_root). reflexivity. }
  do 4 (split; [reflexivity|]). split; [exact Hroot|].
  rewrite (proj2 (proj2 (get_path_root_and_child demo_registry)) demo_child demo_root
             "root00" eq_refl eq_refl eq_refl), Hroot.
  reflexivity.
Defined.

(** The scan of [get_resource_for_path], for any function that gives the
    path of a resource. *)
Section Scan.

Variable path_of : Resource.t -> outcome string.

Lemma first_with_path_first_match (path : string) (before after : list Resource.t)
    (r : Resource.t) :
  (forall x, In x before -> exists p, path_of x = Returns p /\ p <> path) ->
  path_of r = Returns path ->
  RestAPI.first_with_path path_of path (before ++ r :: after) = Returns (Some r).
Proof.
  intros Hbefore Hr. induction before as [|x before IH]; cbn [app RestAPI.first_with_path].
  - rewrite Hr. cbn [bind_outcome]. rewrite String.eqb_refl. reflexivity.
  - destruct (Hbefore x) as (p & Hp & Hne); [left; reflexivity|].
    rewrite Hp. cbn [bind_outcome].
    destruct (String.eqb_spec p path); [contradiction|].
    apply IH. intros y Hy. apply Hbefore. right. exact Hy.
Qed.

Lemma first_with_path_no_match (path : string) (rs : list Resource.t) :
  (forall x, In x rs -> exists p, path_of x = Returns p /\ p <> path) ->
  RestAPI.first_with_path path_of path rs = Returns None.
Proof.
  intros Hrs. induction rs as [|x rs IH]; cbn [RestAPI.first_with_path]; [reflexivity|].
  destruct (Hrs x) as (p & Hp & Hne); [left; reflexivity|].
  rewrite Hp. cbn [bind_outcome].
  destruct (String.eqb_spec p path); [contradiction|].
  apply IH. intros y Hy. apply Hrs. right. exact Hy.
Qed.

End Scan.

Lemma get_resource_for_path_no_match (backends : registry) (path : string) (api : RestAPI.t) :
  (forall x, In x (odict_values (RestAPI.resources api)) ->
             exists p, get_path backends x = Returns p /\ p <> path) ->
  get_resource_for_path backends path api = Returns None.
Proof.
  intros Hall. unfold get_resource_for_path, RestAPI.get_resource_for_path.
  apply first_with_path_no_match. exact Hall.
Qed.

(** C6: on an API with the resources [/] and [/pets],
    [get_resource_for_path("/pets")] returns the node of that path, and
    [get_resource_for_path("/orders")], which no node has, returns [None]:
    the loop ends and nothing is raised. *)
Theorem get_resource_for_path_without_match_returns_none :
  APIGatewayBackend.get_rest_api "api1" backend_with_child
  = Returns (fst (RestAPI.add_child "pets" (Some "root00") "res001" demo_api))
  /\ map (get_path demo_registry)
       (odict_values
          (RestAPI.resources (fst (RestAPI.add_child "pets" (Some "root00") "res001" demo_api))))
     = [Returns "/"; Returns "/pets"]
  /\ get_resource_for_path demo_registry "/orders"
       (fst (RestAPI.add_child "pets" (Some "root00") "res001" demo_api))
     = Returns None
  /\ get_resource_for_path demo_registry "/pets"
       (fst (RestAPI.add_child "pets" (Some "root00") "res001" demo_api))
     = Returns (Some demo_child).
Proof.
  repeat split; vm_compute; reflexivity.
Qed.

(** C10: [create_resource] checks [path_part] before it looks the API up: a
    [path_part] that fails the pattern raises [InvalidResourcePathException]
    whether the API exists or not, and [RestAPINotFound] is raised exactly
    when the [path_part] is valid and the API is missing. *)
Theorem create_resource_validates_path_first
    (b : APIGatewayBackend.t) (function_id : string) (parent_resource_id : option string)
    (path_part child_id : string) :
  (re_match_dollar path_part_pattern path_part = false ->
   APIGatewayBackend.create_resource function_id parent_resource_id path_part child_id b
   = (b, Raises InvalidResourcePathException))
  /\ (snd (APIGatewayBackend.create_resource function_id parent_resource_id path_part
             child_id b) = Raises RestAPINotFound
      <-> re_match_dollar path_part_pattern path_part = true
          /\ APIGatewayBackend.apis b !! function_id = None).
Proof.
  unfold APIGatewayBackend.create_resource.
  destruct (re_match_dollar path_part_pattern path_part); cbn [negb].
  - split; [discriminate|].
    unfold APIGatewayBackend.on_api, APIGatewayBackend.get_rest_api.
    destruct (APIGatewayBackend.apis b !! function_id) as [api|].
    + cbn. split; [discriminate|]. intros [_ ?]. discriminate.
    + cbn. split; auto.
  - split; [reflexivity|]. cbn. split; [discriminate|]. intros [? _]. discriminate.
Qed.

Lemma create_resource_validates_path_first_witness :
  re_match_dollar path_part_pattern "pets/all" = false
  /\ APIGatewayBackend.apis (APIGatewayBackend.init "us-east-1") !! "noapi" = None
  /\ APIGatewayBackend.create_resource "noapi" (Some "root00") "pets/all" "res001"
       (APIGatewayBackend.init "us-east-1")
     = (APIGatewayBackend.init "us-east-1", Raises InvalidResourcePathException)
  /\ re_match_dollar path_part_pattern "pets" = true
  /\ snd (APIGatewayBackend.create_resource "noapi" (Some "root00") "pets" "res001"
            (APIGatewayBackend.init "us-east-1"))
     = Raises RestAPINotFound.
Proof.
  split; [reflexivity|]. split; [reflexivity|]. split.
  - apply (proj1 (create_resource_validates_path_first (APIGatewayBackend.init "us-east-1")
                    "noapi" (Some "root00") "pets/all" "res001")).
    reflexivity.
  - split; [reflexivity|].
    apply (proj2 (create_resource_validates_path_first (APIGatewayBackend.init "us-east-1")
                    "noapi" (Some "root00") "pets" "res001")).
    split; reflexivity.
Defined.

(** ** Deployments *)

Lemma create_deployment_error_keeps_state
    (b : APIGatewayBackend.t) (function_id name description : string)
    (stage_variables : option (gmap string string)) (deployment_id : string) (now : Z)
    (e : exn) :
  snd (APIGatewayBackend.create_deployment function_id name description stage_variables
         deployment_id now b) = Raises e ->
  fst (APIGatewayBackend.create_deployment function_id name description stage_variables
         deployment_id now b) = b.
Proof.
  unfold APIGatewayBackend.create_deployment, bind, APIGatewayBackend.list_resources.
  destruct (APIGatewayBackend.get_rest_api function_id b) as [api|e'] eqn:Hapi;
    [|reflexivity].
  cbn [bind_outcome].
  destruct (map _ (odict_values (RestAPI.resources api))) as [|methods rest]; [reflexivity|].
  destruct (negb (any Method.truth methods)); [reflexivity|].
  destruct (negb (any APIGatewayBackend.integration_truth _)); [reflexivity|].
  unfold APIGatewayBackend.on_api. rewrite Hapi. cbn. discriminate.
Qed.

Lemma create_deployment_first_resource_with_integration
    (b : APIGatewayBackend.t) (function_id name description : string)
    (stage_variables : option (gmap string string)) (deployment_id : string) (now : Z)
    (api : RestAPI.t) (first_id : string) (first : Resource.t) (others : odict Resource.t)
    (method : Method.t) (integration : Integration.t) :
  APIGatewayBackend.get_rest_api function_id b = Returns api ->
  RestAPI.resources api = (first_id, first) :: others ->
  In method (odict_values (Resource.resource_methods first)) ->
  Method.methodIntegration method = Some (Some integration) ->
  let result :=
    APIGatewayBackend.create_deployment function_id name description stage_variables
      deployment_id now b in
  snd result = Returns (Deployment.init deployment_id name description now)
  /\ exists api' stage,
       APIGatewayBackend.apis (fst result) !! function_id = Some api'
       /\ RestAPI.deployments api' !! deployment_id
          = Some (Deployment.init deployment_id name description now)
       /\ RestAPI.stages api' !! name = Some stage
       /\ Stage.stageName stage = Some name
       /\ Stage.deploymentId stage = Some deployment_id.
Proof.
  intros Hapi Hres Hin Hint result. subst result.
  unfold APIGatewayBackend.create_deployment, bind, APIGatewayBackend.list_resources.
  rewrite Hapi. cbn [bind_outcome]. rewrite Hres. unfold odict_values in *.
  cbn [map snd].
  assert (Hany : any Method.truth (map snd (Resource.resource_methods first)) = true).
  { apply existsb_exists. exists method. split; [exact Hin|reflexivity]. }
  rewrite Hany. cbn [negb].
  assert (Hint' : any APIGatewayBackend.integration_truth
                    (map (fun m => match Method.methodIntegration m with
                                   | Some i => i
                                   | None => None
                                   end) (map snd (Resource.resource_methods first))) = true).
  { apply existsb_exists. exists (Some integration). split; [|reflexivity].
    apply in_map_iff. exists method. rewrite Hint. auto. }
  rewrite Hint'. cbn [negb].
  unfold APIGatewayBackend.on_api. rewrite Hapi.
  cbn. split; [reflexivity|].
  eexists _, _. split; [apply lookup_insert_eq|].
  cbn. split; [apply lookup_insert_eq|]. split; [apply lookup_insert_eq|].
  split; reflexivity.
Qed.

Lemma create_deployment_first_resource_without_methods
    (b : APIGatewayBackend.t) (function_id name description : string)
    (stage_variables : option (gmap string string)) (deployment_id : string) (now : Z)
    (api : RestAPI.t) (first_id : string) (first : Resource.t) (others : odict Resource.t) :
  APIGatewayBackend.get_rest_api function_id b = Returns api ->
  RestAPI.resources api = (first_id, first) :: others ->
  Resource.resource_methods first = [] ->
  APIGatewayBackend.create_deployment function_id name description stage_variables
    deployment_id now b
  = (b, Raises NoMethodDefined).
Proof.
  intros Hapi Hres Hfirst.
  unfold APIGatewayBackend.create_deployment, bind, APIGatewayBackend.list_resources.
  rewrite Hapi. cbn [bind_outcome]. rewrite Hres. cbn [odict_values map snd].
  rewrite Hfirst. reflexivity.
Qed.

(** C1: on an API whose root has no method and whose child [/pets] has a
    [GET] method with an integration, [create_deployment] raises
    [NoMethodDefined] and changes nothing; it raises the same when that
    method has no integration.  Only the methods of the first resource are
    looked at. *)
Theorem create_deployment_misses_methods_of_children :
  APIGatewayBackend.get_integration "api1" "res001" "GET" backend_with_integration
  = Returns (Some (Integration.init "MOCK" "" "GET" None))
  /\ APIGatewayBackend.create_deployment "api1" "prod" "" None "dep001" 0
       backend_with_integration
     = (backend_with_integration, Raises NoMethodDefined)
  /\ APIGatewayBackend.get_method "api1" "res001" "GET" backend_with_method
     = Returns (Method.init "GET" (Some "NONE") None)
  /\ APIGatewayBackend.create_deployment "api1" "prod" "" None "dep001" 0
       backend_with_method
     = (backend_with_method, Raises NoMethodDefined).
Proof.
  repeat split; vm_compute; reflexivity.
Qed.

(** ** Integrations *)

Section Integrations.

Context {env : Env}.

Lemma on_resource_not_role_error {A : Type} (function_id resource_id : string)
    (m : M Resource.t A) (b : APIGatewayBackend.t) :
  (forall r, snd (m r) <> Raises RoleNotSpecified) ->
  snd (APIGatewayBackend.on_resource function_id resource_id m b) <> Raises RoleNotSpecified.
Proof.
  intros Hm. unfold APIGatewayBackend.on_resource, APIGatewayBackend.on_api.
  destruct (APIGatewayBackend.get_rest_api function_id b) as [api|e] eqn:Hapi.
  - destruct (odict_get resource_id (RestAPI.resources api)) as [r|].
    + specialize (Hm r). destruct (m r) as [r' o]. exact Hm.
    + discriminate.
  - unfold APIGatewayBackend.get_rest_api in Hapi.
    destruct (APIGatewayBackend.apis b !! function_id); [discriminate|].
    injection Hapi as <-. discriminate.
Qed.
(** C3, amended: on an existing resource, with type [AWS] and an integration
    method, for a URI that matches [^arn:aws:apigateway:[a-zA-Z0-9-]+:s3],
    [create_integration] without credentials raises [RoleNotSpecified] and
    changes nothing, and with credentials that match the IAM prefix of the
    account it does not raise [RoleNotSpecified] and goes on to the checks
    of the URI; for the URI ["arn:aws:s3:::bucket"], without credentials or
    with credentials that match the IAM prefix, it raises
    [InvalidIntegrationArn] and changes nothing. *)
Theorem create_integration_s3_requires_role
    (b : APIGatewayBackend.t) (function_id resource_id method_type uri : string)
    (integration_method credentials : option string)
    (request_templates : option (gmap string string)) (resource : Resource.t) :
  APIGatewayBackend.get_resource function_id resource_id b = Returns resource ->
  truthy integration_method = true ->
  (re_match s3_arn_pattern uri = true ->
   (truthy credentials = false ->
    APIGatewayBackend.create_integration function_id resource_id method_type "AWS" uri
      integration_method credentials request_templates b
    = (b, Raises RoleNotSpecified))
   /\ (truthy credentials = true ->
       re_match APIGatewayBackend.iam_arn_pattern (default "" credentials) = true ->
       snd (APIGatewayBackend.create_integration function_id resource_id method_type "AWS"
              uri integration_method credentials request_templates b)
       <> Raises RoleNotSpecified
       /\ APIGatewayBackend.create_integration function_id resource_id method_type "AWS" uri
            integration_method credentials request_templates b
          = (if negb (re_match arn_pattern uri) then raise InvalidArn
             else if negb (re_match integration_arn_pattern uri) then
               raise InvalidIntegrationArn
             else
               APIGatewayBackend.on_resource function_id resource_id
                 (Resource.add_integration method_type "AWS" uri request_templates)) b))
  /\ (truthy credentials = false
      \/ re_match APIGatewayBackend.iam_arn_pattern (default "" credentials) = true ->
      APIGatewayBackend.create_integration function_id resource_id method_type "AWS"
        "arn:aws:s3:::bucket" integration_method credentials request_templates b
      = (b, Raises InvalidIntegrationArn)).
Proof.
  intros Hres Hmethod. split.
  - intros Hs3.
    unfold APIGatewayBackend.create_integration, bind. rewrite Hres, Hmethod, Hs3.
    change (APIGatewayBackend.in_list "AWS" ["HTTP"; "HTTP_PROXY"; "AWS"; "AWS_PROXY"])
      with true.
    change (APIGatewayBackend.in_list "AWS" ["AWS_PROXY"]) with false.
    change (APIGatewayBackend.in_list "AWS" ["AWS"]) with true.
    change (APIGatewayBackend.in_list "AWS" ["HTTP"; "HTTP_PROXY"]) with false.
    change (APIGatewayBackend.in_list "AWS" ["AWS"; "AWS_PROXY"]) with true.
    cbn [negb andb]. split.
    + intros Hcred. rewrite Hcred. reflexivity.
    + intros Hcred Hiam. rewrite Hcred, Hiam. cbn [negb andb]. split; [|reflexivity].
      destruct (re_match arn_pattern uri); cbn [negb]; [|discriminate].
      destruct (re_match integration_arn_pattern uri); cbn [negb]; [|discriminate].
      apply on_resource_not_role_error. intros r. unfold Resource.add_integration.
      destruct (odict_get method_type (Resource.resource_methods r)); discriminate.
  - intros Hcred.
    assert (Hcross : truthy credentials
                     && negb (re_match APIGatewayBackend.iam_arn_pattern
                                (default "" credentials)) = false).
    { destruct Hcred as [Hc|Hc]; rewrite Hc; [reflexivity|apply andb_false_r]. }
    unfold APIGatewayBackend.create_integration, bind. rewrite Hres, Hmethod, Hcross.
    change (APIGatewayBackend.in_list "AWS" ["HTTP"; "HTTP_PROXY"; "AWS"; "AWS_PROXY"])
      with true.
    change (APIGatewayBackend.in_list "AWS" ["AWS_PROXY"]) with false.
    change (APIGatewayBackend.in_list "AWS" ["AWS"]) with true.
    change (APIGatewayBackend.in_list "AWS" ["HTTP"; "HTTP_PROXY"]) with false.
    change (APIGatewayBackend.in_list "AWS" ["AWS"; "AWS_PROXY"]) with true.
    change (re_match s3_arn_pattern "arn:aws:s3:::bucket") with false.
    change (re_match arn_pattern "arn:aws:s3:::bucket") with true.
    change (re_match integration_arn_pattern "arn:aws:s3:::bucket") with false.
    reflexivity.
Qed.

End Integrations.

Lemma create_integration_s3_requires_role_witness :
  APIGatewayBackend.get_resource "api1" "res001" backend_with_method
  = Returns (fst (Resource.add_method "GET" (Some "NONE") None demo_child))
  /\ truthy (Some "POST") = true
  /\ re_match s3_arn_pattern "arn:aws:apigateway:us-west-2:s3:path/b/k" = true
  /\ truthy None = false
  /\ APIGatewayBackend.create_integration (env := demo_env) "api1" "res001" "GET" "AWS"
       "arn:aws:apigateway:us-west-2:s3:path/b/k" (Some "POST") None None backend_with_method
     = (backend_with_method, Raises RoleNotSpecified)
  /\ truthy (Some "arn:aws:iam::123456789012:role/s3") = true
  /\ re_match (APIGatewayBackend.iam_arn_pattern (env := demo_env))
       "arn:aws:iam::123456789012:role/s3" = true
  /\ snd (APIGatewayBackend.create_integration (env := demo_env) "api1" "res001" "GET" "AWS"
            "arn:aws:apigateway:us-west-2:s3:path/b/k" (Some "POST")
            (Some "arn:aws:iam::123456789012:role/s3") None backend_with_method)
     <> Raises RoleNotSpecified
  /\ APIGatewayBackend.create_integration (env := demo_env) "api1" "res001" "GET" "AWS"
       "arn:aws:s3:::bucket" (Some "POST") None None backend_with_method
     = (backend_with_method, Raises InvalidIntegrationArn)
  /\ APIGatewayBackend.create_integration (env := demo_env) "api1" "res001" "GET" "AWS"
       "arn:aws:s3:::bucket" (Some "POST") (Some "arn:aws:iam::123456789012:role/s3") None
       backend_with_method
     = (backend_with_method, Raises InvalidIntegrationArn).
Proof.
  split; [reflexivity|]. split; [reflexivity|]. split; [reflexivity|].
  split; [reflexivity|]. split.
  { apply (proj1 (create_integration_s3_requires_role (env := demo_env)
                    backend_with_method
                    "api1" "res001" "GET" "arn:aws:apigateway:us-west-2:s3:path/b/k"
                    (Some "POST") None None
                    (fst (Resource.add_method "GET" (Some "NONE") None demo_child))
                    eq_refl eq_refl) eq_refl).
    reflexivity. }
  split; [reflexivity|]. split; [reflexivity|]. split.
  { apply (proj2 (proj1 (create_integration_s3_requires_role (env := demo_env)
                           backend_with_method
                           "api1" "res001" "GET" "arn:aws:apigateway:us-west-2:s3:path/b/k"
                           (Some "POST") (Some "arn:aws:iam::123456789012:role/s3") None
                           (fst (Resource.add_method "GET" (Some "NONE") None demo_child))
                           eq_refl eq_refl) eq_refl));
      reflexivity. }
  split.
  { apply (proj2 (create_integration_s3_requires_role (env := demo_env)
                    backend_with_method
                    "api1" "res001" "GET" "arn:aws:apigateway:us-west-2:s3:path/b/k"
                    (Some "POST") None None
                    (fst (Resource.add_method "GET" (Some "NONE") None demo_child))
                    eq_refl eq_refl)).
    left. reflexivity. }
  apply (proj2 (create_integration_s3_requires_role (env := demo_env)
                  backend_with_method
                  "api1" "res001" "GET" "arn:aws:apigateway:us-west-2:s3:path/b/k"
                  (Some "POST") (Some "arn:aws:iam::123456789012:role/s3") None
                  (fst (Resource.add_method "GET" (Some "NONE") None demo_child))
                  eq_refl eq_refl)).
  right. reflexivity.
Defined.

(** C3, as stated, fails: with the URI ["arn:aws:s3:::bucket"], type [AWS],
    an integration method and no credentials the call raises
    [InvalidIntegrationArn], not [RoleNotSpecified]. *)
Lemma s3_bucket_arn_is_not_a_role_error :
  APIGatewayBackend.get_method "api1" "res001" "GET" backend_with_method
  = Returns (Method.init "GET" (Some "NONE") None)
  /\ snd (APIGatewayBackend.create_integration (env := demo_env) "api1" "res001" "GET" "AWS"
            "arn:aws:s3:::bucket" (Some "POST") None None backend_with_method)
     = Raises InvalidIntegrationArn
  /\ snd (APIGatewayBackend.create_integration (env := demo_env) "api1" "res001" "GET" "AWS"
            "arn:aws:s3:::bucket" (Some "POST") None None backend_with_method)
     <> Raises RoleNotSpecified.
Proof.
  assert (H : snd (APIGatewayBackend.create_integration (env := demo_env) "api1" "res001"
                     "GET" "AWS" "arn:aws:s3:::bucket" (Some "POST") None None
                     backend_with_method)
              = Raises InvalidIntegrationArn) by (vm_compute; reflexivity).
  split; [vm_compute; reflexivity|]. split; [exact H|]. rewrite H. discriminate.
Qed.

(** ** Stage patches *)

Section StagePatches.

Context {env : Env}.

Lemma apply_operations_app (pre post : list Patch.t) (st : Stage.t) :
  Stage.apply_operations (pre ++ post) st =
  match Stage.apply_operations pre st with
  | (st1, Returns _) => Stage.apply_operations post st1
  | (st1, Raises e) => (st1, Raises e)
  end.
Proof.
  revert st. induction pre as [|o pre IH]; intros st; [reflexivity|].
  cbn [app Stage.apply_operations]. unfold bind.
  destruct (Stage.apply_operation o st) as [st1 [[]|e]]; [apply IH|reflexivity].
Qed.

Lemma unsupported_raises (o : Patch.t) (st : Stage.t) :
  unsupported o = true ->
  Stage.apply_operation o st = (st, Raises (PatchNotImplemented (Patch.op o))).
Proof.
  unfold unsupported, Stage.apply_operation.
  destruct (contains "variables/" (Patch.path o)) eqn:Hv.
  - intros [Hrm Hrp]%andb_prop. unfold Stage._apply_operation_to_variables.
    apply negb_true_iff in Hrm, Hrp. rewrite Hrm, Hrp.
    assert (Hri : exists i, rindex "variables/" (Patch.path o) = Some i).
    { clear -Hv. induction (Patch.path o) as [|c s IH]; [discriminate|].
      cbn [contains] in Hv. cbn [rindex].
      destruct (rindex "variables/" s) as [i|]; [eauto|].
      apply orb_prop in Hv as [Hp|Hc]; [rewrite Hp; eauto|].
      destruct (IH Hc) as [i Hi]. discriminate. }
    destruct Hri as [i ->]. reflexivity.
  - intros H. repeat (apply andb_prop in H as [H ?]).
    repeat match goal with
           | Hn : negb _ = true |- _ => apply negb_true_iff in Hn; rewrite Hn
           end.
    reflexivity.
Qed.

Lemma skipped_returns (o : Patch.t) (st : Stage.t) :
  skipped o = true -> Stage.apply_operation o st = (st, Returns tt).
Proof.
  unfold skipped, Stage.apply_operation. intros H.
  apply andb_prop in H as [H Hsplit]. apply andb_prop in H as [H Hop].
  repeat (apply andb_prop in H as [H ?]).
  repeat match goal with
         | Hn : negb _ = true |- _ => apply negb_true_iff in Hn; rewrite Hn
         end.
  rewrite Hop.
  destruct (split "/" 3 (Patch.path o)) as [|a [|b [|c [|setting [|x l]]]]];
    try reflexivity.
  unfold bind, lift, Patch.get_value, Stage._patch_method_setting.
  destruct (Patch.value o) as [v|]; [|discriminate].
  destruct (Stage._method_settings_translations setting); [discriminate|reflexivity].
Qed.

(** C5, amended: when the operations before it have been applied and an
    operation is one that the interpreter rejects (under [variables/] an
    operation other than [remove] and [replace], outside the named fields
    an operation other than [replace]), the batch raises the
    not-implemented exception of that operation, the stage is left as the
    earlier operations made it, and the operations after it are not
    applied; a [replace] on a path that names none of the fields and is not
    a method setting that the stage knows is passed over, and the batch
    goes on with the operations after it. *)
Theorem unsupported_patch_aborts_batch
    (st st1 : Stage.t) (pre post : list Patch.t) (bad : Patch.t) :
  Stage.apply_operations pre st = (st1, Returns tt) ->
  (unsupported bad = true ->
   Stage.apply_operations (pre ++ bad :: post) st
   = (st1, Raises (PatchNotImplemented (Patch.op bad))))
  /\ (skipped bad = true ->
      Stage.apply_operations (pre ++ bad :: post) st
      = Stage.apply_operations post st1).
Proof.
  intros Hpre. rewrite apply_operations_app, Hpre.
  cbn [Stage.apply_operations]. unfold bind. split; intros Hbad.
  - rewrite (unsupported_raises bad st1 Hbad). reflexivity.
  - rewrite (skipped_returns bad st1 Hbad). reflexivity.
Qed.

(** C4: on a stage with no method settings for ["*/*"], the patch
    [replace /*/*/throttling/rateLimit "500"] creates the entry ["*/*"] with
    the default settings, except [throttlingRateLimit], which is the float
    500.0; nothing else of the stage changes. *)
Theorem rate_limit_patch_materialises_defaults (st : Stage.t) :
  Stage.methodSettings st !! "*/*" = None ->
  Stage.apply_operations [rate_limit_patch] st =
  (Stage.set_methodSettings
     (<["*/*" :=
          list_to_map
            [ ("throttlingRateLimit", VFloat (FloatQ (inject_Z 500)));
              ("throttlingBurstLimit", VInt 2000);
              ("cacheTtlInSeconds", VInt 300);
              ("cacheDataEncrypted", VBool true);
              ("cachingEnabled", VBool false);
              ("dataTraceEnabled", VBool false);
              ("metricsEnabled", VBool false);
              ("unauthorizedCacheControlHeaderStrategy", VStr "SUCCEED_WITH_RESPONSE_HEADER");
              ("requireAuthorizationForCacheControl", VBool true) ]]>
        (Stage.methodSettings st)) st,
   Returns tt).
Proof.
  intros Hnone.
  cbn [Stage.apply_operations]. unfold bind at 1.
  assert (Hop : Stage.apply_operation rate_limit_patch =
                Stage._patch_method_setting "*/*" "throttling/rateLimit" "500").
  { reflexivity. }
  rewrite Hop. unfold Stage._patch_method_setting.
  change (Stage._method_settings_translations "throttling/rateLimit")
    with (Some "throttlingRateLimit").
  assert (Hc : Stage._convert_to_type "throttlingRateLimit" "500"
               = Returns (VFloat (FloatQ (inject_Z 500)))) by reflexivity.
  unfold bind, modify, lift, ret. rewrite Hnone.
  cbn [Stage.methodSettings Stage.set_methodSettings].
  rewrite lookup_insert_eq, Hc.
  unfold Stage.set_methodSettings.
  cbn [Stage.methodSettings Stage.stageName Stage.deploymentId Stage.variables
       Stage.description Stage.cacheClusterEnabled Stage.cacheClusterSize].
  rewrite insert_insert_eq.
  replace (<["throttlingRateLimit" := VFloat (FloatQ (inject_Z 500))]>
             Stage._get_default_method_settings)
    with (list_to_map (M := gmap string pyval)
            [ ("throttlingRateLimit", VFloat (FloatQ (inject_Z 500)));
              ("throttlingBurstLimit", VInt 2000);
              ("cacheTtlInSeconds", VInt 300);
              ("cacheDataEncrypted", VBool true);
              ("cachingEnabled", VBool false);
              ("dataTraceEnabled", VBool false);
              ("metricsEnabled", VBool false);
              ("unauthorizedCacheControlHeaderStrategy", VStr "SUCCEED_WITH_RESPONSE_HEADER");
              ("requireAuthorizationForCacheControl", VBool true) ])
    by (vm_compute; reflexivity).
  reflexivity.
Qed.

(** C9: on a stage with no [cacheClusterSize], the patch
    [replace /cacheClusterEnabled "true"] sets [cacheClusterEnabled] to true
    and [cacheClusterSize] to ["0.5"]. *)
Theorem cache_cluster_patch_sets_default_size (st : Stage.t) :
  Stage.cacheClusterSize st = None ->
  let result := Stage.apply_operations [cache_cluster_patch] st in
  snd result = Returns tt
  /\ Stage.cacheClusterEnabled (fst result) = Some true
  /\ Stage.cacheClusterSize (fst result) = Some "0.5"
  /\ fst result
     = Stage.set_cacheClusterSize (Some "0.5") (Stage.set_cacheClusterEnabled (Some true) st).
Proof.
  intros Hnone result.
  assert (Hop : Stage.apply_operation cache_cluster_patch st =
                (Stage.set_cacheClusterSize (Some "0.5")
                   (Stage.set_cacheClusterEnabled (Some true) st), Returns tt)).
  { change (Stage.apply_operation cache_cluster_patch)
      with (let! v := lift (Returns "true") in
            modify (fun self : Stage.t =>
              let self := Stage.set_cacheClusterEnabled (Some (Stage._str2bool v)) self in
              match Stage.cacheClusterSize self with
              | None => if Stage._str2bool v
                        then Stage.set_cacheClusterSize (Some "0.5") self else self
              | Some _ => self
              end)).
    unfold bind, lift, modify. cbn. rewrite Hnone. reflexivity. }
  assert (Hres : result =
                 (Stage.set_cacheClusterSize (Some "0.5")
                    (Stage.set_cacheClusterEnabled (Some true) st), Returns tt)).
  { subst result. cbn [Stage.apply_operations]. unfold bind. rewrite Hop. reflexivity. }
  rewrite Hres. repeat split; reflexivity.
Qed.

End StagePatches.

Lemma rate_limit_patch_materialises_defaults_witness :
  Stage.methodSettings demo_stage !! "*/*" = None
  /\ Stage.methodSettings
       (fst (Stage.apply_operations (env := demo_env) [rate_limit_patch] demo_stage))
       !! "*/*"
     = Some (list_to_map
               [ ("throttlingRateLimit", VFloat (FloatQ (inject_Z 500)));
                 ("throttlingBurstLimit", VInt 2000);
                 ("cacheTtlInSeconds", VInt 300);
                 ("cacheDataEncrypted", VBool true);
                 ("cachingEnabled", VBool false);
                 ("dataTraceEnabled", VBool false);
                 ("metricsEnabled", VBool false);
                 ("unauthorizedCacheControlHeaderStrategy",
                  VStr "SUCCEED_WITH_RESPONSE_HEADER");
                 ("requireAuthorizationForCacheControl", VBool true) ]).
Proof.
  split; [reflexivity|].
  rewrite (rate_limit_patch_materialises_defaults (env := demo_env) demo_stage);
    reflexivity.
Defined.

Lemma unsupported_patch_aborts_batch_witness :
  let applied :=
    Stage.set_cacheClusterSize (Some "0.5")
      (Stage.set_cacheClusterEnabled (Some true) demo_stage) in
  let bad := {| Patch.op := "add"; Patch.path := "/tracingEnabled"; Patch.value := Some "true" |} in
  let unknown :=
    {| Patch.op := "replace"; Patch.path := "/tracingEnabled"; Patch.value := Some "true" |} in
  Stage.apply_operations (env := demo_env) [cache_cluster_patch] demo_stage
  = (applied, Returns tt)
  /\ unsupported bad = true
  /\ Stage.apply_operations (env := demo_env)
       ([cache_cluster_patch] ++ bad :: [rate_limit_patch]) demo_stage
     = (applied, Raises (PatchNotImplemented "add"))
  /\ skipped unknown = true
  /\ Stage.apply_operations (env := demo_env)
       ([cache_cluster_patch] ++ unknown :: [rate_limit_patch]) demo_stage
     = Stage.apply_operations (env := demo_env) [rate_limit_patch] applied.
Proof.
  cbv zeta. split; [reflexivity|]. split; [reflexivity|]. split.
  { apply (proj1 (unsupported_patch_aborts_batch (env := demo_env) demo_stage
                    (Stage.set_cacheClusterSize (Some "0.5")
                       (Stage.set_cacheClusterEnabled (Some true) demo_stage))
                    [cache_cluster_patch] [rate_limit_patch]
                    {| Patch.op := "add"; Patch.path := "/tracingEnabled";
                       Patch.value := Some "true" |}
                    eq_refl)).
    reflexivity. }
  split; [reflexivity|].
  apply (proj2 (unsupported_patch_aborts_batch (env := demo_env) demo_stage
                  (Stage.set_cacheClusterSize (Some "0.5")
                     (Stage.set_cacheClusterEnabled (Some true) demo_stage))
                  [cache_cluster_patch] [rate_limit_patch]
                  {| Patch.op := "replace"; Patch.path := "/tracingEnabled";
                     Patch.value := Some "true" |}
                  eq_refl)).
  reflexivity.
Defined.

(** C5, as stated, fails: [replace /tracingEnabled] is an operation and a
    path that the stage does not know, yet the batch does not fail, and the
    rate limit of the operation after it is applied. *)
Lemma unknown_replace_does_not_abort_batch :
  let unknown :=
    {| Patch.op := "replace"; Patch.path := "/tracingEnabled"; Patch.value := Some "true" |} in
  let result :=
    Stage.apply_operations (env := demo_env) [unknown; rate_limit_patch] demo_stage in
  snd result = Returns tt
  /\ (Stage.methodSettings demo_stage !! "*/*") = None
  /\ (Stage.methodSettings (fst result) !! "*/*") ≫= (.!! "throttlingRateLimit")
     = Some (VFloat (FloatQ (inject_Z 500))).
Proof.
  cbv zeta. split; [reflexivity|]. split; [reflexivity|]. vm_compute. reflexivity.
Qed.

Lemma cache_cluster_patch_sets_default_size_witness :
  Stage.cacheClusterSize demo_stage = None
  /\ Stage.cacheClusterEnabled
       (fst (Stage.apply_operations (env := demo_env) [cache_cluster_patch] demo_stage))
     = Some true
  /\ Stage.cacheClusterSize
       (fst (Stage.apply_operations (env := demo_env) [cache_cluster_patch] demo_stage))
     = Some "0.5".
Proof.
  split; [reflexivity|].
  pose proof (cache_cluster_patch_sets_default_size (env := demo_env) demo_stage eq_refl)
    as (_ & Henabled & Hsize & _).
  split; [exact Henabled|exact Hsize].
Defined.

(** ** API keys and usage-plan keys *)

(** C7, amended: [create_usage_plan_key] with a [keyId] that is not among
    the API keys raises [ApiKeyNotFoundException]; the APIs, the API keys
    and the usage plans are unchanged and [get_usage_plan_keys] returns what
    it did for every plan, but a plan id that had no dictionary of keys has
    an empty one afterwards. *)
Theorem create_usage_plan_key_unknown_key
    (b : APIGatewayBackend.t) (usage_plan_id key_id : string)
    (payload : UsagePlanKey.payload) :
  UsagePlanKey.keyId payload = Some key_id ->
  APIGatewayBackend.keys b !! key_id = None ->
  let result := APIGatewayBackend.create_usage_plan_key usage_plan_id payload b in
  snd result = Raises ApiKeyNotFoundException
  /\ APIGatewayBackend.apis (fst result) = APIGatewayBackend.apis b
  /\ APIGatewayBackend.keys (fst result) = APIGatewayBackend.keys b
  /\ APIGatewayBackend.usage_plans (fst result) = APIGatewayBackend.usage_plans b
  /\ APIGatewayBackend.region_name (fst result) = APIGatewayBackend.region_name b
  /\ APIGatewayBackend.usage_plan_keys (fst result)
     = match APIGatewayBackend.usage_plan_keys b !! usage_plan_id with
       | Some _ => APIGatewayBackend.usage_plan_keys b
       | None => <[usage_plan_id := ∅]> (APIGatewayBackend.usage_plan_keys b)
       end
  /\ forall p, APIGatewayBackend.get_usage_plan_keys p (fst result)
               = APIGatewayBackend.get_usage_plan_keys p b.
Proof.
  intros Hid Hkey result.
  assert (Hres : result =
                 (match APIGatewayBackend.usage_plan_keys b !! usage_plan_id with
                  | Some _ => b
                  | None =>
                      APIGatewayBackend.set_usage_plan_keys
                        (<[usage_plan_id := ∅]> (APIGatewayBackend.usage_plan_keys b)) b
                  end, Raises ApiKeyNotFoundException)).
  { subst result. unfold APIGatewayBackend.create_usage_plan_key, bind, modify.
    rewrite Hid.
    destruct (APIGatewayBackend.usage_plan_keys b !! usage_plan_id);
      cbn [APIGatewayBackend.keys APIGatewayBackend.set_usage_plan_keys];
      rewrite Hkey; reflexivity. }
  rewrite Hres. cbn [fst snd]. split; [reflexivity|].
  destruct (APIGatewayBackend.usage_plan_keys b !! usage_plan_id) as [plan_keys|] eqn:Hplan.
  - repeat (split; [reflexivity|]). reflexivity.
  - do 5 (split; [reflexivity|]).
    intros p. unfold APIGatewayBackend.get_usage_plan_keys.
    cbn [APIGatewayBackend.usage_plan_keys APIGatewayBackend.set_usage_plan_keys].
    destruct (decide (usage_plan_id = p)) as [<-|Hne].
    + rewrite lookup_insert_eq, Hplan, map_to_list_empty. reflexivity.
    + rewrite lookup_insert_ne by exact Hne. reflexivity.
Qed.

Lemma create_usage_plan_key_unknown_key_witness :
  let payload :=
    {| UsagePlanKey.keyId := Some "nokey"; UsagePlanKey.keyType := Some "API_KEY" |} in
  UsagePlanKey.keyId payload = Some "nokey"
  /\ APIGatewayBackend.keys backend_with_key !! "nokey" = None
  /\ snd (APIGatewayBackend.create_usage_plan_key "plan01" payload backend_with_key)
     = Raises ApiKeyNotFoundException
  /\ APIGatewayBackend.usage_plan_keys
       (fst (APIGatewayBackend.create_usage_plan_key "plan01" payload backend_with_key))
     = {[ "plan01" := ∅ ]}.
Proof.
  cbv zeta. split; [reflexivity|]. split; [reflexivity|].
  pose proof (create_usage_plan_key_unknown_key backend_with_key "plan01" "nokey"
                {| UsagePlanKey.keyId := Some "nokey"; UsagePlanKey.keyType := Some "API_KEY" |}
                eq_refl eq_refl) as H.
  cbv zeta in H. destruct H as (Hraise & _ & _ & _ & _ & Hkeys & _).
  split; [exact Hraise|]. rewrite Hkeys. reflexivity.
Defined.

(** C7, as stated, fails: on a new backend the failed call leaves an empty
    dictionary under the plan id. *)
Lemma create_usage_plan_key_changes_state :
  let b := APIGatewayBackend.init "us-east-1" in
  let payload := {| UsagePlanKey.keyId := Some "nokey"; UsagePlanKey.keyType := Some "API_KEY" |} in
  APIGatewayBackend.keys b !! "nokey" = None
  /\ snd (APIGatewayBackend.create_usage_plan_key "plan01" payload b)
     = Raises ApiKeyNotFoundException
  /\ fst (APIGatewayBackend.create_usage_plan_key "plan01" payload b) <> b
  /\ APIGatewayBackend.usage_plan_keys b !! "plan01" = None
  /\ APIGatewayBackend.usage_plan_keys
       (fst (APIGatewayBackend.create_usage_plan_key "plan01" payload b)) !! "plan01"
     = Some ∅.
Proof.
  cbv zeta. split; [reflexivity|]. split; [reflexivity|]. split; [|split; reflexivity].
  intros Heq. apply (f_equal (fun s => APIGatewayBackend.usage_plan_keys s !! "plan01")) in Heq.
  vm_compute in Heq. discriminate.
Qed.

Lemma value_taken_spec (b : APIGatewayBackend.t) (value : string) :
  existsb (fun api_key => String.eqb (ApiKey.value api_key) value)
    (APIGatewayBackend.get_apikeys b) = true
  <-> exists k key, APIGatewayBackend.keys b !! k = Some key /\ ApiKey.value key = value.
Proof.
  unfold APIGatewayBackend.get_apikeys. rewrite existsb_exists. split.
  - intros (key & Hin & Heq). apply list_elem_of_In, list_elem_of_fmap in Hin.
    destruct Hin as ([k key'] & -> & Hin). apply elem_of_map_to_list in Hin.
    exists k, key'. split; [exact Hin|]. apply String.eqb_eq, Heq.
  - intros (k & key & Hk & Hv). exists key. split.
    + apply list_elem_of_In, list_elem_of_fmap. exists (k, key). split; [reflexivity|].
      apply elem_of_map_to_list, Hk.
    + apply String.eqb_eq, Hv.
Qed.
(** C8: [create_apikey] with an explicit value that a key of the backend
    has raises [ApiKeyAlreadyExists] and changes nothing; with an explicit
    value that no key has it returns the new key, stored under its id, whose
    value is the given one when that is not empty. *)
Theorem create_apikey_value_unique
    (b : APIGatewayBackend.t) (payload : ApiKey.payload) (value : string)
    (new_id random_value : string) (now : Z) :
  ApiKey.p_value payload = Some value ->
  ((exists k key, APIGatewayBackend.keys b !! k = Some key /\ ApiKey.value key = value) ->
   APIGatewayBackend.create_apikey payload new_id random_value now b
   = (b, Raises ApiKeyAlreadyExists))
  /\ ((forall k key, APIGatewayBackend.keys b !! k = Some key -> ApiKey.value key <> value) ->
      let key := ApiKey.init payload new_id random_value now in
      APIGatewayBackend.create_apikey payload new_id random_value now b
      = (APIGatewayBackend.set_keys (<[new_id := key]> (APIGatewayBackend.keys b)) b,
         Returns key)
      /\ APIGatewayBackend.keys
           (fst (APIGatewayBackend.create_apikey payload new_id random_value now b))
           !! new_id = Some key
      /\ (value <> "" -> ApiKey.value key = value)).
Proof.
  intros Hval. unfold APIGatewayBackend.create_apikey. rewrite Hval. split.
  - intros Htaken. apply value_taken_spec in Htaken. rewrite Htaken. reflexivity.
  - intros Hfree. cbv zeta.
    destruct (existsb _ (APIGatewayBackend.get_apikeys b)) eqn:Hex.
    + apply value_taken_spec in Hex as (k & key' & Hk & Hv). destruct (Hfree k key' Hk Hv).
    + split; [reflexivity|]. split.
      * cbn. apply lookup_insert_eq.
      * intros Hne. cbn. rewrite Hval. cbn.
        destruct (String.eqb_spec value ""); [contradiction|reflexivity].
Qed.

Lemma create_apikey_value_unique_witness :
  ApiKey.p_value (demo_key_payload "secret") = Some "secret"
  /\ APIGatewayBackend.keys backend_with_key !! "key001"
     = Some (ApiKey.init (demo_key_payload "secret") "key001" "r4nd0m" 0)
  /\ APIGatewayBackend.create_apikey (demo_key_payload "secret") "key002" "0th3r" 1
       backend_with_key
     = (backend_with_key, Raises ApiKeyAlreadyExists)
  /\ snd (APIGatewayBackend.create_apikey (demo_key_payload "fresh") "key002" "0th3r" 1
            backend_with_key)
     = Returns (ApiKey.init (demo_key_payload "fresh") "key002" "0th3r" 1).
Proof.
  split; [reflexivity|]. split; [reflexivity|]. split.
  - apply (proj1 (create_apikey_value_unique backend_with_key (demo_key_payload "secret")
                    "secret" "key002" "0th3r" 1 eq_refl)).
    exists "key001", (ApiKey.init (demo_key_payload "secret") "key001" "r4nd0m" 0).
    split; reflexivity.
  - pose proof (proj2 (create_apikey_value_unique backend_with_key
                         (demo_key_payload "fresh") "fresh" "key002" "0th3r" 1 eq_refl))
      as Hfree.
    cbv zeta in Hfree. destruct Hfree as (Hcreate & _).
    + intros k key Hk.
      change (APIGatewayBackend.keys backend_with_key)
        with (<["key001" := ApiKey.init (demo_key_payload "secret") "key001" "r4nd0m" 0]>
                (∅ : gmap string ApiKey.t)) in Hk.
      apply lookup_insert_Some in Hk as [[_ <-]|[_ Hk]]; [discriminate|].
      rewrite lookup_empty in Hk. discriminate.
    + rewrite Hcreate. reflexivity.
Defined.

(** * Further properties *)

(** ** Stage variables *)

Lemma rindex_absent (sub s : string) : contains sub s = false -> rindex sub s = None.
Proof.
  induction s as [|c s IH]; [reflexivity|].
  cbn [contains rindex]. intros [Hp Hc]%orb_false_elim.
  rewrite (IH Hc), Hp. reflexivity.
Qed.

Lemma prefix_empty (s : string) : String.prefix "" s = true.
Proof. destruct s; reflexivity. Qed.

Lemma variable_path_key (k : string) :
  contains "variables/" k = false ->
  contains "variables/" ("/variables/" ++ k) = true
  /\ rindex "variables/" ("/variables/" ++ k) = Some 1
  /\ drop_string (1 + 10) ("/variables/" ++ k) = k.
Proof.
  intros Hk. pose proof (rindex_absent _ _ Hk) as Hr.
  cbv [String.append]. fold String.append.
  cbn [contains rindex drop_string Nat.add].
  assert (Hp : String.prefix "variables/"
                 (String "v" (String "a" (String "r" (String "i" (String "a"
                   (String "b" (String "l" (String "e" (String "s" (String "/" k))))))))))
               = true).
  { cbn. apply prefix_empty. }
  rewrite Hp, Hr. cbn. auto.
Qed.

Section StageVariables.

Context {env : Env}.

(** X1: A [replace] at [/variables/<key>], for a key that does not itself
    contain [variables/], stores the value under that key: the stage
    afterwards has the variable, the other variables are as before and nothing
    else of the stage changes. *)
Theorem replace_variable_then_lookup (st : Stage.t) (k v : string) :
  contains "variables/" k = false ->
  let o := {| Patch.op := "replace"; Patch.path := "/variables/" ++ k;
              Patch.value := Some v |} in
  Stage.apply_operations [o] st
  = (Stage.set_variables (<[k := v]> (Stage.variables st)) st, Returns tt)
  /\ Stage.variables (fst (Stage.apply_operations [o] st)) !! k = Some v
  /\ forall k', k' <> k ->
       Stage.variables (fst (Stage.apply_operations [o] st)) !! k' = Stage.variables st !! k'.
Proof.
  intros Hk o. destruct (variable_path_key k Hk) as (Hc & Hr & Hd).
  assert (Heq : Stage.apply_operations [o] st
                = (Stage.set_variables (<[k := v]> (Stage.variables st)) st, Returns tt)).
  { cbn [Stage.apply_operations]. unfold bind, Stage.apply_operation.
    cbn [Patch.path Patch.op o]. rewrite Hc.
    unfold Stage._apply_operation_to_variables. cbn [Patch.path Patch.op o].
    rewrite Hr, Hd. reflexivity. }
  rewrite Heq. cbn [fst Stage.variables Stage.set_variables].
  split; [reflexivity|]. split; [apply lookup_insert_eq|].
  intros k' Hne. apply lookup_insert_ne. congruence.
Qed.

(** X2: A [remove] at [/variables/<key>] deletes the variable and returns
    normally whether or not it was there; when it was not there the stage is
    unchanged. *)
Theorem remove_variable (st : Stage.t) (k : string) (v : option string) :
  contains "variables/" k = false ->
  let o := {| Patch.op := "remove"; Patch.path := "/variables/" ++ k; Patch.value := v |} in
  Stage.apply_operations [o] st
  = (Stage.set_variables (delete k (Stage.variables st)) st, Returns tt)
  /\ Stage.variables (fst (Stage.apply_operations [o] st)) !! k = None
  /\ (Stage.variables st !! k = None -> fst (Stage.apply_operations [o] st) = st).
Proof.
  intros Hk o. destruct (variable_path_key k Hk) as (Hc & Hr & Hd).
  assert (Heq : Stage.apply_operations [o] st
                = (Stage.set_variables (delete k (Stage.variables st)) st, Returns tt)).
  { cbn [Stage.apply_operations]. unfold bind, Stage.apply_operation.
    cbn [Patch.path Patch.op o]. rewrite Hc.
    unfold Stage._apply_operation_to_variables. cbn [Patch.path Patch.op o].
    rewrite Hr, Hd. reflexivity. }
  rewrite Heq. cbn [fst Stage.variables Stage.set_variables].
  split; [reflexivity|]. split; [apply lookup_delete_eq|].
  intros Habsent. rewrite delete_id by exact Habsent. destruct st; reflexivity.
Qed.

(** X3: An operation whose path contains [variables/] is handled as a variable
    operation whatever else the path names: whether it returns or raises, the
    name, deployment id, method settings, description and cache-cluster fields
    of the stage are as before. *)
Theorem variable_patch_touches_variables_only (st : Stage.t) (o : Patch.t) :
  contains "variables/" (Patch.path o) = true ->
  let st' := fst (Stage.apply_operation o st) in
  Stage.stageName st' = Stage.stageName st
  /\ Stage.deploymentId st' = Stage.deploymentId st
  /\ Stage.methodSettings st' = Stage.methodSettings st
  /\ Stage.description st' = Stage.description st
  /\ Stage.cacheClusterEnabled st' = Stage.cacheClusterEnabled st
  /\ Stage.cacheClusterSize st' = Stage.cacheClusterSize st.
Proof.
  intros Hc st'. subst st'. unfold Stage.apply_operation. rewrite Hc.
  unfold Stage._apply_operation_to_variables.
  destruct (rindex "variables/" (Patch.path o)) as [i|]; [|repeat split; reflexivity].
  destruct (String.eqb (Patch.op o) "remove"); [repeat split; reflexivity|].
  destruct (String.eqb (Patch.op o) "replace"); [|repeat split; reflexivity].
  unfold bind, lift, Patch.get_value.
  destruct (Patch.value o); repeat split; reflexivity.
Qed.

End StageVariables.

(** ** Method settings of a stage *)

Section StageSettings.

Context {env : Env}.

(** X4: A [replace] whose path names none of the fields of the stage is
    ignored without an error when the path does not split into four parts, and
    when it does and the setting is not one of the known method settings (and
    the operation has a value). *)
Theorem unknown_replace_is_ignored (st : Stage.t) (o : Patch.t) :
  Patch.op o = "replace" ->
  contains "variables/" (Patch.path o) = false ->
  contains "/cacheClusterEnabled" (Patch.path o) = false ->
  contains "/cacheClusterSize" (Patch.path o) = false ->
  contains "/description" (Patch.path o) = false ->
  contains "/deploymentId" (Patch.path o) = false ->
  (length (split "/" 3 (Patch.path o)) <> 4 ->
   Stage.apply_operation o st = (st, Returns tt))
  /\ (forall a b c setting v,
        split "/" 3 (Patch.path o) = [a; b; c; setting] ->
        Stage._method_settings_translations setting = None ->
        Patch.value o = Some v ->
        Stage.apply_operation o st = (st, Returns tt)).
Proof.
  intros Hop H1 H2 H3 H4 H5. unfold Stage.apply_operation.
  rewrite Hop, H1, H2, H3, H4, H5. cbn [String.eqb]. 
  change (String.eqb "replace" "replace") with true. cbv iota. split.
  - intros Hlen.
    destruct (split "/" 3 (Patch.path o)) as [|a [|b [|c [|d [|x l]]]]]; try reflexivity.
    contradiction Hlen. reflexivity.
  - intros a b c setting v Hsplit Htr Hv. rewrite Hsplit.
    unfold bind, lift, Patch.get_value. rewrite Hv.
    unfold Stage._patch_method_setting. rewrite Htr. reflexivity.
Qed.

(** X5: When the value converts, [_patch_method_setting] writes it under the
    translated key of the entry of that resource path and method; an entry
    that exists keeps its other keys, and a missing one starts from the
    defaults. *)
Theorem patch_method_setting_updates_one_key
    (st : Stage.t) (resource_path_and_method key value updated_key : string)
    (converted : pyval) :
  Stage._method_settings_translations key = Some updated_key ->
  Stage._convert_to_type updated_key value = Returns converted ->
  Stage._patch_method_setting resource_path_and_method key value st
  = (Stage.set_methodSettings
       (<[resource_path_and_method :=
            <[updated_key := converted]>
              (default Stage._get_default_method_settings
                 (Stage.methodSettings st !! resource_path_and_method))]>
          (Stage.methodSettings st)) st,
     Returns tt).
Proof.
  intros Htr Hconv. unfold Stage._patch_method_setting. rewrite Htr.
  unfold bind, modify, lift. rewrite Hconv.
  destruct (Stage.methodSettings st !! resource_path_and_method) as [settings|] eqn:Hms.
  - rewrite Hms. reflexivity.
  - cbn [Stage.methodSettings Stage.set_methodSettings]. rewrite lookup_insert_eq.
    unfold Stage.set_methodSettings.
    cbn [Stage.methodSettings Stage.stageName Stage.deploymentId Stage.variables
         Stage.description Stage.cacheClusterEnabled Stage.cacheClusterSize default].
    rewrite insert_insert_eq. reflexivity.
Qed.

(** X6: When the conversion of the value raises, [_patch_method_setting]
    raises the same exception, and the entry of defaults it created for a new
    resource path and method stays in the stage; an existing entry is
    unchanged. *)
Theorem failed_conversion_keeps_defaults
    (st : Stage.t) (resource_path_and_method key value updated_key : string) (e : exn) :
  Stage._method_settings_translations key = Some updated_key ->
  Stage._convert_to_type updated_key value = Raises e ->
  Stage._patch_method_setting resource_path_and_method key value st
  = (match Stage.methodSettings st !! resource_path_and_method with
     | Some _ => st
     | None =>
         Stage.set_methodSettings
           (<[resource_path_and_method := Stage._get_default_method_settings]>
              (Stage.methodSettings st)) st
     end,
     Raises e).
Proof.
  intros Htr Hconv. unfold Stage._patch_method_setting. rewrite Htr.
  unfold bind, modify, lift. rewrite Hconv.
  destruct (Stage.methodSettings st !! resource_path_and_method); reflexivity.
Qed.

Lemma apply_operations_preserves (P : Stage.t -> Prop) :
  (forall o st, P st -> P (fst (Stage.apply_operation o st))) ->
  forall ops st, P st -> P (fst (Stage.apply_operations ops st)).
Proof.
  intros Hstep ops. induction ops as [|o ops IH]; intros st Hst; [exact Hst|].
  cbn [Stage.apply_operations]. unfold bind.
  specialize (Hstep o st Hst).
  destruct (Stage.apply_operation o st) as [st1 [[]|e]]; cbn [fst] in *; auto.
Qed.

(** What one operation can do to a stage. *)
Lemma apply_operation_cases (o : Patch.t) (st : Stage.t) :
  let st' := fst (Stage.apply_operation o st) in
  st' = st
  \/ (exists vs, st' = Stage.set_variables vs st)
  \/ (exists b, st' = Stage.set_cacheClusterEnabled (Some b) st
                /\ (b = true -> is_Some (Stage.cacheClusterSize st)))
  \/ st' = Stage.set_cacheClusterSize (Some "0.5")
             (Stage.set_cacheClusterEnabled (Some true) st)
  \/ (exists z, st' = Stage.set_cacheClusterSize (Some z) st)
  \/ (exists d, st' = Stage.set_description d st)
  \/ (exists d, st' = Stage.set_deploymentId (Some d) st)
  \/ (exists k settings,
        st' = Stage.set_methodSettings (<[k := settings]> (Stage.methodSettings st)) st
        /\ forall x, is_Some (default Stage._get_default_method_settings
                                (Stage.methodSettings st !! k) !! x) ->
                     is_Some (settings !! x)).
Proof.
  cbv zeta. unfold Stage.apply_operation.
  destruct (contains "variables/" (Patch.path o)).
  { unfold Stage._apply_operation_to_variables.
    destruct (rindex "variables/" (Patch.path o)) as [i|]; [|left; reflexivity].
    destruct (String.eqb (Patch.op o) "remove"); [right; left; eexists; reflexivity|].
    destruct (String.eqb (Patch.op o) "replace"); [|left; reflexivity].
    unfold bind, lift, Patch.get_value.
    destruct (Patch.value o); [right; left; eexists; reflexivity|left; reflexivity]. }
  destruct (contains "/cacheClusterEnabled" (Patch.path o)).
  { unfold bind, lift, Patch.get_value, modify.
    destruct (Patch.value o) as [v|]; [|left; reflexivity]. cbn [fst].
    destruct (Stage.cacheClusterSize st) as [z|] eqn:Hz.
    - right; right; left. exists (Stage._str2bool v).
      cbn [Stage.cacheClusterSize Stage.set_cacheClusterEnabled]. rewrite Hz.
      split; [reflexivity|]. eauto.
    - cbn [Stage.cacheClusterSize Stage.set_cacheClusterEnabled]. rewrite Hz.
      destruct (Stage._str2bool v).
      + right; right; right; left. reflexivity.
      + right; right; left. exists false. split; [reflexivity|discriminate]. }
  destruct (contains "/cacheClusterSize" (Patch.path o)).
  { unfold bind, lift, Patch.get_value, modify.
    destruct (Patch.value o) as [v|]; [|left; reflexivity].
    destruct (py_float v); [|left; reflexivity].
    do 4 right; left. eexists; reflexivity. }
  destruct (contains "/description" (Patch.path o)).
  { unfold bind, lift, Patch.get_value, modify.
    destruct (Patch.value o) as [v|]; [|left; reflexivity].
    do 5 right; left. eexists; reflexivity. }
  destruct (contains "/deploymentId" (Patch.path o)).
  { unfold bind, lift, Patch.get_value, modify.
    destruct (Patch.value o) as [v|]; [|left; reflexivity].
    do 6 right; left. eexists; reflexivity. }
  destruct (String.eqb (Patch.op o) "replace"); [|left; reflexivity].
  destruct (split "/" 3 (Patch.path o)) as [|a [|b [|c [|d [|x l]]]]]; try (left; reflexivity).
  unfold bind at 1, lift, Patch.get_value.
  destruct (Patch.value o) as [v|]; [|left; reflexivity].
  unfold Stage._patch_method_setting.
  destruct (Stage._method_settings_translations d) as [uk|]; [|left; reflexivity].
  unfold bind, modify, lift.
  destruct (Stage._convert_to_type uk v) as [cv|e].
  - do 7 right.
    destruct (Stage.methodSettings st !! (b +:+ "/" +:+ c)) as [settings|] eqn:Hms.
    + rewrite Hms. cbn [fst]. eexists _, _. split; [reflexivity|].
      intros x Hx. rewrite Hms in Hx. cbn [default] in Hx.
      destruct (decide (uk = x)) as [->|Hne].
      * rewrite lookup_insert_eq. eauto.
      * rewrite lookup_insert_ne by exact Hne. exact Hx.
    + cbn [Stage.methodSettings Stage.set_methodSettings]. rewrite lookup_insert_eq.
      cbn [fst]. unfold Stage.set_methodSettings.
      cbn [Stage.methodSettings Stage.stageName Stage.deploymentId Stage.variables
           Stage.description Stage.cacheClusterEnabled Stage.cacheClusterSize].
      rewrite insert_insert_eq. eexists _, _. split; [reflexivity|].
      intros x Hx. rewrite Hms in Hx. cbn [default] in Hx.
      destruct (decide (uk = x)) as [->|Hne].
      * rewrite lookup_insert_eq. eauto.
      * rewrite lookup_insert_ne by exact Hne. exact Hx.
  - destruct (Stage.methodSettings st !! (b +:+ "/" +:+ c)) as [settings|] eqn:Hms.
    + left. reflexivity.
    + do 7 right. cbn [fst]. eexists _, _. split; [reflexivity|].
      intros x Hx. rewrite Hms in Hx. exact Hx.
Qed.

End StageSettings.

(** ** What every batch of patches keeps *)

Section StageInvariants.

Context {env : Env}.

(** X7: A stage whose [cacheClusterEnabled] is true has a [cacheClusterSize]:
    [Stage.__init__] makes it so, and every batch of patch operations keeps it
    so, also a batch that raises. *)
Theorem enabled_cache_cluster_has_size :
  (forall name deployment_id variables description enabled size,
      cache_size_when_enabled
        (Stage.init name deployment_id variables description enabled size))
  /\ (forall ops st,
        cache_size_when_enabled st ->
        cache_size_when_enabled (fst (Stage.apply_operations ops st))).
Proof.
  split.
  - intros name dep vars descr enabled size. unfold cache_size_when_enabled.
    cbn. intros ->. destruct size; cbn; eauto.
  - apply apply_operations_preserves. intros o st Hst.
    unfold cache_size_when_enabled in *.
    destruct (apply_operation_cases o st)
      as [->|[[vs ->]|[(b & -> & Hb)|[->|[[z ->]|[[d ->]|[[d ->]|(k & s & -> & _)]]]]]]];
      cbn; eauto.
    intros [= ->]. auto.
Qed.

(** X8: Every entry of [methodSettings] holds every key of the default
    settings: a new stage has no entry, and every batch of patch operations,
    also one that raises, keeps the property. *)
Theorem method_settings_entries_stay_complete :
  (forall name deployment_id variables description enabled size,
      settings_complete (Stage.init name deployment_id variables description enabled size))
  /\ (forall ops st,
        settings_complete st -> settings_complete (fst (Stage.apply_operations ops st))).
Proof.
  split.
  - intros name dep vars descr enabled size k settings x Hk. cbn in Hk.
    rewrite lookup_empty in Hk. discriminate.
  - apply apply_operations_preserves. intros o st Hst.
    destruct (apply_operation_cases o st)
      as [->|[[vs ->]|[(b & -> & Hb)|[->|[[z ->]|[[d ->]|[[d ->]|(k & s & -> & Hs)]]]]]]];
      try exact Hst.
    intros k' settings x Hk' Hx. cbn in Hk'.
    destruct (decide (k = k')) as [<-|Hne].
    + rewrite lookup_insert_eq in Hk'. injection Hk' as <-. apply Hs.
      destruct (Stage.methodSettings st !! k) as [old|] eqn:Hold; cbn.
      * eapply Hst; eauto.
      * exact Hx.
    + rewrite lookup_insert_ne in Hk' by exact Hne. eapply Hst; eauto.
Qed.

(** X9: No batch of patch operations changes the [stageName] of a stage. *)
Theorem patches_never_rename_stage (ops : list Patch.t) (st : Stage.t) :
  Stage.stageName (fst (Stage.apply_operations ops st)) = Stage.stageName st.
Proof.
  apply (apply_operations_preserves (fun s => Stage.stageName s = Stage.stageName st));
    [|reflexivity].
  intros o s Hs.
  destruct (apply_operation_cases o s)
    as [->|[[vs ->]|[(b & -> & Hb)|[->|[[z ->]|[[d ->]|[[d ->]|(k & x & -> & _)]]]]]]];
    exact Hs.
Qed.

End StageInvariants.

(** ** Stages and deployments of the backend *)

Lemma set_apis_same (b : APIGatewayBackend.t) (function_id : string) (api : RestAPI.t) :
  APIGatewayBackend.apis b !! function_id = Some api ->
  APIGatewayBackend.set_apis (<[function_id := api]> (APIGatewayBackend.apis b)) b = b.
Proof.
  intros Hapi. unfold APIGatewayBackend.set_apis. rewrite insert_id by exact Hapi.
  destruct b; reflexivity.
Qed.

Lemma get_rest_api_found (b : APIGatewayBackend.t) (function_id : string) (api : RestAPI.t) :
  APIGatewayBackend.apis b !! function_id = Some api ->
  APIGatewayBackend.get_rest_api function_id b = Returns api.
Proof. intros H. unfold APIGatewayBackend.get_rest_api. rewrite H. reflexivity. Qed.

Lemma on_api_found {A : Type} (b : APIGatewayBackend.t) (function_id : string)
    (api : RestAPI.t) (m : M RestAPI.t A) :
  APIGatewayBackend.apis b !! function_id = Some api ->
  APIGatewayBackend.on_api function_id m b
  = (APIGatewayBackend.set_apis (<[function_id := fst (m api)]> (APIGatewayBackend.apis b)) b,
     snd (m api)).
Proof.
  intros H. unfold APIGatewayBackend.on_api. rewrite (get_rest_api_found _ _ _ H).
  destruct (m api); reflexivity.
Qed.

Lemma get_stage_after_set (b : APIGatewayBackend.t) (function_id name : string)
    (api' : RestAPI.t) :
  APIGatewayBackend.get_stage function_id name
    (APIGatewayBackend.set_apis (<[function_id := api']> (APIGatewayBackend.apis b)) b)
  = match RestAPI.stages api' !! name with
    | Some stage => Returns stage
    | None => Raises StageNotFoundException
    end.
Proof.
  unfold APIGatewayBackend.get_stage, APIGatewayBackend.get_rest_api.
  cbn [APIGatewayBackend.apis APIGatewayBackend.set_apis]. rewrite lookup_insert_eq.
  reflexivity.
Qed.

Lemma get_stage_found (b : APIGatewayBackend.t) (function_id name : string)
    (api : RestAPI.t) :
  APIGatewayBackend.apis b !! function_id = Some api ->
  APIGatewayBackend.get_stage function_id name b
  = match RestAPI.stages api !! name with
    | Some stage => Returns stage
    | None => Raises StageNotFoundException
    end.
Proof.
  intros H. unfold APIGatewayBackend.get_stage. rewrite (get_rest_api_found _ _ _ H).
  reflexivity.
Qed.

Lemma get_deployment_after_set (b : APIGatewayBackend.t) (function_id id : string)
    (api' : RestAPI.t) :
  APIGatewayBackend.get_deployment function_id id
    (APIGatewayBackend.set_apis (<[function_id := api']> (APIGatewayBackend.apis b)) b)
  = item id (RestAPI.deployments api').
Proof.
  unfold APIGatewayBackend.get_deployment, APIGatewayBackend.get_rest_api.
  cbn [APIGatewayBackend.apis APIGatewayBackend.set_apis]. rewrite lookup_insert_eq.
  reflexivity.
Qed.

Lemma get_deployment_found (b : APIGatewayBackend.t) (function_id id : string)
    (api : RestAPI.t) :
  APIGatewayBackend.apis b !! function_id = Some api ->
  APIGatewayBackend.get_deployment function_id id b = item id (RestAPI.deployments api).
Proof.
  intros H. unfold APIGatewayBackend.get_deployment. rewrite (get_rest_api_found _ _ _ H).
  reflexivity.
Qed.

Section StageLifecycle.

Context {env : Env}.

(** X10: [update_stage] raises [RestAPINotFound] for a missing API and
    [StageNotFoundException] for a missing stage of an existing API, and
    leaves the backend unchanged in both cases. *)
Theorem update_stage_of_missing_stage
    (b : APIGatewayBackend.t) (function_id stage_name : string) (ops : list Patch.t) :
  (APIGatewayBackend.apis b !! function_id = None ->
   APIGatewayBackend.update_stage function_id stage_name ops b = (b, Raises RestAPINotFound))
  /\ (forall api,
        APIGatewayBackend.apis b !! function_id = Some api ->
        RestAPI.stages api !! stage_name = None ->
        APIGatewayBackend.update_stage function_id stage_name ops b
        = (b, Raises StageNotFoundException)).
Proof.
  unfold APIGatewayBackend.update_stage. split.
  - intros Hapi. unfold APIGatewayBackend.on_api, APIGatewayBackend.get_rest_api.
    rewrite Hapi. reflexivity.
  - intros api Hapi Hstage. rewrite (on_api_found b function_id api _ Hapi).
    rewrite Hstage. cbn [fst snd]. rewrite (set_apis_same _ _ _ Hapi). reflexivity.
Qed.

(** X11: After [update_stage] on an existing stage, [get_stage] returns the
    stage as the batch left it, also when the batch raised; the other stages
    of the API are as before. *)
Theorem update_stage_keeps_what_was_applied
    (b : APIGatewayBackend.t) (function_id stage_name : string) (ops : list Patch.t)
    (api : RestAPI.t) (stage : Stage.t) :
  APIGatewayBackend.apis b !! function_id = Some api ->
  RestAPI.stages api !! stage_name = Some stage ->
  let patched := Stage.apply_operations ops stage in
  let result := APIGatewayBackend.update_stage function_id stage_name ops b in
  snd result = match snd patched with
               | Returns _ => Returns (fst patched)
               | Raises e => Raises e
               end
  /\ APIGatewayBackend.get_stage function_id stage_name (fst result) = Returns (fst patched)
  /\ forall other, other <> stage_name ->
       APIGatewayBackend.get_stage function_id other (fst result)
       = APIGatewayBackend.get_stage function_id other b.
Proof.
  intros Hapi Hstage patched result. subst result.
  unfold APIGatewayBackend.update_stage. rewrite (on_api_found b function_id api _ Hapi).
  rewrite Hstage. fold patched. destruct patched as [st' r]. cbn [fst snd].
  split; [reflexivity|]. split.
  - rewrite get_stage_after_set. cbn [RestAPI.stages RestAPI.set_stages].
    rewrite lookup_insert_eq. reflexivity.
  - intros other Hne. rewrite get_stage_after_set, (get_stage_found _ _ _ _ Hapi).
    cbn [RestAPI.stages RestAPI.set_stages]. rewrite lookup_insert_ne by congruence.
    reflexivity.
Qed.

End StageLifecycle.

(** X12: [create_stage] on an existing API returns the new stage, which
    [get_stage] then returns; the deployment id is stored as given, without
    being looked up, and the other stages and the deployments are as before. *)
Theorem create_stage_then_get_stage
    (b : APIGatewayBackend.t) (function_id stage_name : string)
    (deploymentId : option string) (variables : option (gmap string string))
    (description : string) (enabled : option bool) (size : option string)
    (api : RestAPI.t) :
  APIGatewayBackend.apis b !! function_id = Some api ->
  let stage :=
    Stage.init (Some stage_name) deploymentId (Some (default ∅ variables)) description
      enabled size in
  let result :=
    APIGatewayBackend.create_stage function_id stage_name deploymentId variables
      description enabled size b in
  snd result = Returns stage
  /\ APIGatewayBackend.get_stage function_id stage_name (fst result) = Returns stage
  /\ (forall other, other <> stage_name ->
        APIGatewayBackend.get_stage function_id other (fst result)
        = APIGatewayBackend.get_stage function_id other b)
  /\ (forall id, APIGatewayBackend.get_deployment function_id id (fst result)
                 = APIGatewayBackend.get_deployment function_id id b).
Proof.
  intros Hapi stage result. subst result. unfold APIGatewayBackend.create_stage.
  rewrite (on_api_found b function_id api _ Hapi). cbn [fst snd].
  split; [reflexivity|]. split; [|split].
  - rewrite get_stage_after_set. cbn. rewrite lookup_insert_eq. reflexivity.
  - intros other Hne. rewrite get_stage_after_set, (get_stage_found _ _ _ _ Hapi).
    cbn. rewrite lookup_insert_ne by congruence. reflexivity.
  - intros id. rewrite get_deployment_after_set, (get_deployment_found _ _ _ _ Hapi).
    reflexivity.
Qed.

(** X13: [delete_stage] of a missing stage raises [KeyError] and changes
    nothing; of an existing stage it removes that stage only: [get_stage] then
    raises [StageNotFoundException], the other stages and all deployments are
    as before. *)
Theorem delete_stage_removes_only_the_stage
    (b : APIGatewayBackend.t) (function_id stage_name : string) (api : RestAPI.t) :
  APIGatewayBackend.apis b !! function_id = Some api ->
  let result := APIGatewayBackend.delete_stage function_id stage_name b in
  (RestAPI.stages api !! stage_name = None ->
   result = (b, Raises (KeyError stage_name)))
  /\ (is_Some (RestAPI.stages api !! stage_name) ->
      snd result = Returns tt
      /\ APIGatewayBackend.get_stage function_id stage_name (fst result)
         = Raises StageNotFoundException
      /\ (forall other, other <> stage_name ->
            APIGatewayBackend.get_stage function_id other (fst result)
            = APIGatewayBackend.get_stage function_id other b)
      /\ (forall id, APIGatewayBackend.get_deployment function_id id (fst result)
                     = APIGatewayBackend.get_deployment function_id id b)).
Proof.
  intros Hapi result. subst result. unfold APIGatewayBackend.delete_stage.
  rewrite (on_api_found b function_id api _ Hapi). split.
  - intros Hnone. rewrite Hnone. cbn [fst snd]. rewrite (set_apis_same _ _ _ Hapi).
    reflexivity.
  - intros [stage Hstage]. rewrite Hstage. cbn [fst snd].
    split; [reflexivity|]. split; [|split].
    + rewrite get_stage_after_set. cbn. rewrite lookup_delete_eq. reflexivity.
    + intros other Hne. rewrite get_stage_after_set, (get_stage_found _ _ _ _ Hapi).
      cbn. rewrite lookup_delete_ne by congruence. reflexivity.
    + intros id. rewrite get_deployment_after_set, (get_deployment_found _ _ _ _ Hapi).
      reflexivity.
Qed.

(** X14: [delete_deployment] returns the deployment and removes it, so that
    [get_deployment] and a second [delete_deployment] raise [KeyError]; every
    stage, also one that refers to the deployment, is as before. *)
Theorem delete_deployment_keeps_stages
    (b : APIGatewayBackend.t) (function_id deployment_id : string) (api : RestAPI.t)
    (deployment : Deployment.t) :
  APIGatewayBackend.apis b !! function_id = Some api ->
  RestAPI.deployments api !! deployment_id = Some deployment ->
  let result := APIGatewayBackend.delete_deployment function_id deployment_id b in
  snd result = Returns deployment
  /\ APIGatewayBackend.get_deployment function_id deployment_id (fst result)
     = Raises (KeyError deployment_id)
  /\ (forall name, APIGatewayBackend.get_stage function_id name (fst result)
                   = APIGatewayBackend.get_stage function_id name b)
  /\ snd (APIGatewayBackend.delete_deployment function_id deployment_id (fst result))
     = Raises (KeyError deployment_id).
Proof.
  intros Hapi Hdep result. subst result. unfold APIGatewayBackend.delete_deployment.
  assert (Hdel : RestAPI.delete_deployment deployment_id api
                 = (RestAPI.set_deployments
                      (delete deployment_id (RestAPI.deployments api)) api,
                    Returns deployment)).
  { unfold RestAPI.delete_deployment. rewrite Hdep. reflexivity. }
  rewrite (on_api_found b function_id api _ Hapi), Hdel. cbn [fst snd].
  split; [reflexivity|]. split; [|split].
  - rewrite get_deployment_after_set. unfold item.
    cbn [RestAPI.deployments RestAPI.set_deployments]. rewrite lookup_delete_eq.
    reflexivity.
  - intros name. rewrite get_stage_after_set, (get_stage_found _ _ _ _ Hapi). reflexivity.
  - erewrite on_api_found
      by (cbn [APIGatewayBackend.apis APIGatewayBackend.set_apis]; apply lookup_insert_eq).
    unfold RestAPI.delete_deployment.
    cbn [snd fst RestAPI.deployments RestAPI.set_deployments].
    rewrite lookup_delete_eq. reflexivity.
Qed.

(** X15: When [create_deployment] returns, [get_deployment] returns the new
    deployment and the stage of that name is a new stage that refers to it,
    whatever an earlier stage of that name held; the other stages and the
    other deployments are as before. *)
Theorem create_deployment_resets_its_stage
    (b : APIGatewayBackend.t) (function_id name description : string)
    (stage_variables : option (gmap string string)) (deployment_id : string) (now : Z)
    (deployment : Deployment.t) :
  let result :=
    APIGatewayBackend.create_deployment function_id name description stage_variables
      deployment_id now b in
  snd result = Returns deployment ->
  deployment = Deployment.init deployment_id name description now
  /\ APIGatewayBackend.get_deployment function_id deployment_id (fst result)
     = Returns deployment
  /\ APIGatewayBackend.get_stage function_id name (fst result)
     = Returns (Stage.init (Some name) (Some deployment_id)
                  (Some (default ∅ stage_variables)) "" (Some false) None)
  /\ (forall other, other <> name ->
        APIGatewayBackend.get_stage function_id other (fst result)
        = APIGatewayBackend.get_stage function_id other b)
  /\ (forall other, other <> deployment_id ->
        APIGatewayBackend.get_deployment function_id other (fst result)
        = APIGatewayBackend.get_deployment function_id other b).
Proof.
  intros result. subst result.
  unfold APIGatewayBackend.create_deployment, bind, APIGatewayBackend.list_resources.
  destruct (APIGatewayBackend.get_rest_api function_id b) as [api|e] eqn:Hget;
    [|discriminate].
  assert (Hapi : APIGatewayBackend.apis b !! function_id = Some api).
  { unfold APIGatewayBackend.get_rest_api in Hget.
    destruct (APIGatewayBackend.apis b !! function_id); [congruence|discriminate]. }
  cbn [bind_outcome].
  destruct (map _ (odict_values (RestAPI.resources api))) as [|methods rest]; [discriminate|].
  destruct (negb (any Method.truth methods)); [discriminate|].
  destruct (negb (any APIGatewayBackend.integration_truth _)); [discriminate|].
  rewrite (on_api_found b function_id api _ Hapi).
  set (stage := Stage.init (Some name) (Some deployment_id)
                  (Some (default ∅ (Some (default ∅ stage_variables)))) "" (Some false) None).
  assert (Hcd : RestAPI.create_deployment name description
                  (Some (default ∅ stage_variables)) deployment_id now api
                = (RestAPI.set_stages (<[name := stage]> (RestAPI.stages api))
                     (RestAPI.set_deployments
                        (<[deployment_id := Deployment.init deployment_id name description now]>
                           (RestAPI.deployments api)) api),
                   Returns (Deployment.init deployment_id name description now)))
    by reflexivity.
  rewrite Hcd. cbn [fst snd]. intros [= <-].
  split; [reflexivity|]. split; [|split; [|split]].
  - rewrite get_deployment_after_set. unfold item.
    cbn [RestAPI.deployments RestAPI.set_deployments RestAPI.set_stages].
    rewrite lookup_insert_eq. reflexivity.
  - rewrite get_stage_after_set. cbn [RestAPI.stages RestAPI.set_stages].
    rewrite lookup_insert_eq. reflexivity.
  - intros other Hne. rewrite get_stage_after_set, (get_stage_found _ _ _ _ Hapi).
    cbn [RestAPI.stages RestAPI.set_stages RestAPI.set_deployments].
    rewrite lookup_insert_ne by congruence. reflexivity.
  - intros other Hne. rewrite get_deployment_after_set, (get_deployment_found _ _ _ _ Hapi).
    unfold item. cbn [RestAPI.deployments RestAPI.set_deployments RestAPI.set_stages].
    rewrite lookup_insert_ne by congruence. reflexivity.
Qed.

(** ** Resources of the backend *)

Lemma odict_get_set_eq {V : Type} (k : string) (v : V) (d : odict V) :
  odict_get k (odict_set k v d) = Some v.
Proof.
  induction d as [|[k' v'] d IH]; cbn.
  - rewrite String.eqb_refl. reflexivity.
  - destruct (String.eqb k k') eqn:Hk; cbn.
    + rewrite String.eqb_refl. reflexivity.
    + rewrite Hk. exact IH.
Qed.

Lemma odict_get_set_ne {V : Type} (k k' : string) (v : V) (d : odict V) :
  k' <> k -> odict_get k' (odict_set k v d) = odict_get k' d.
Proof.
  intros Hne. induction d as [|[k0 v0] d IH]; cbn.
  - destruct (String.eqb_spec k' k); [contradiction|reflexivity].
  - destruct (String.eqb_spec k k0) as [->|Hk]; cbn.
    + destruct (String.eqb_spec k' k0); [contradiction|reflexivity].
    + destruct (String.eqb k' k0); [reflexivity|exact IH].
Qed.

Lemma odict_set_fresh {V : Type} (k : string) (v : V) (d : odict V) :
  odict_get k d = None -> odict_set k v d = d ++ [(k, v)].
Proof.
  induction d as [|[k' v'] d IH]; cbn; [reflexivity|].
  destruct (String.eqb k k'); [discriminate|]. intros H. rewrite (IH H). reflexivity.
Qed.

Lemma odict_set_same {V : Type} (k : string) (v : V) (d : odict V) :
  odict_get k d = Some v -> odict_set k v d = d.
Proof.
  induction d as [|[k' v'] d IH]; cbn; [discriminate|].
  destruct (String.eqb_spec k k') as [->|Hne].
  - intros [= ->]. reflexivity.
  - intros H. rewrite (IH H). reflexivity.
Qed.

Lemma odict_get_del_ne {V : Type} (k k' : string) (d : odict V) :
  k' <> k -> odict_get k' (odict_del k d) = odict_get k' d.
Proof.
  intros Hne. induction d as [|[k0 v0] d IH]; cbn; [reflexivity|].
  destruct (String.eqb_spec k k0) as [->|Hk]; cbn.
  - destruct (String.eqb_spec k' k0); [contradiction|reflexivity].
  - destruct (String.eqb k' k0); [reflexivity|exact IH].
Qed.

Lemma odict_get_absent {V : Type} (k : string) (d : odict V) :
  ~ In k (map fst d) -> odict_get k d = None.
Proof.
  induction d as [|[k' v'] d IH]; cbn; [reflexivity|].
  intros Hnin. destruct (String.eqb_spec k k') as [->|Hne]; [tauto|]. apply IH. tauto.
Qed.

Lemma odict_get_del_eq {V : Type} (k : string) (d : odict V) :
  List.NoDup (map fst d) -> odict_get k (odict_del k d) = None.
Proof.
  induction d as [|[k' v'] d IH]; cbn; [reflexivity|].
  intros Hnd. apply List.NoDup_cons_iff in Hnd as [Hnin Hnd].
  destruct (String.eqb_spec k k') as [->|Hne].
  - apply odict_get_absent. exact Hnin.
  - cbn. destruct (String.eqb_spec k k'); [contradiction|]. apply IH, Hnd.
Qed.

Lemma get_resource_found (b : APIGatewayBackend.t) (function_id rid : string)
    (api : RestAPI.t) :
  APIGatewayBackend.apis b !! function_id = Some api ->
  APIGatewayBackend.get_resource function_id rid b
  = odict_item rid (RestAPI.resources api).
Proof.
  intros H. unfold APIGatewayBackend.get_resource. rewrite (get_rest_api_found _ _ _ H).
  reflexivity.
Qed.

Lemma get_resource_after_set (b : APIGatewayBackend.t) (function_id rid : string)
    (api' : RestAPI.t) :
  APIGatewayBackend.get_resource function_id rid
    (APIGatewayBackend.set_apis (<[function_id := api']> (APIGatewayBackend.apis b)) b)
  = odict_item rid (RestAPI.resources api').
Proof.
  apply get_resource_found. cbn. apply lookup_insert_eq.
Qed.

(** X16: [create_resource] with a valid path part and a new id returns the
    child, which [get_resource] then returns and which [list_resources] lists
    last; the other resources are as before, and the parent id is stored
    without being looked up. *)
Theorem create_resource_then_get_resource
    (b : APIGatewayBackend.t) (function_id : string) (parent_resource_id : option string)
    (path_part child_id : string) (api : RestAPI.t) :
  re_match_dollar path_part_pattern path_part = true ->
  APIGatewayBackend.apis b !! function_id = Some api ->
  odict_get child_id (RestAPI.resources api) = None ->
  let child :=
    Resource.init child_id (RestAPI.region_name api) (RestAPI.id api) path_part
      parent_resource_id in
  let result :=
    APIGatewayBackend.create_resource function_id parent_resource_id path_part child_id b in
  snd result = Returns child
  /\ APIGatewayBackend.get_resource function_id child_id (fst result) = Returns child
  /\ (forall rid, rid <> child_id ->
        APIGatewayBackend.get_resource function_id rid (fst result)
        = APIGatewayBackend.get_resource function_id rid b)
  /\ APIGatewayBackend.list_resources function_id (fst result)
     = Returns (odict_values (RestAPI.resources api) ++ [child]).
Proof.
  intros Hvalid Hapi Hfresh child result. subst result.
  unfold APIGatewayBackend.create_resource. rewrite Hvalid. cbn [negb].
  rewrite (on_api_found b function_id api _ Hapi).
  unfold RestAPI.add_child. cbn [fst snd]. fold child.
  split; [reflexivity|]. split; [|split].
  - rewrite get_resource_after_set. unfold odict_item. cbn [RestAPI.resources RestAPI.set_resources].
    rewrite odict_get_set_eq. reflexivity.
  - intros rid Hne. rewrite get_resource_after_set, (get_resource_found _ _ _ _ Hapi).
    unfold odict_item. cbn [RestAPI.resources RestAPI.set_resources].
    rewrite odict_get_set_ne by exact Hne. reflexivity.
  - unfold APIGatewayBackend.list_resources, APIGatewayBackend.get_rest_api.
    cbn [APIGatewayBackend.apis APIGatewayBackend.set_apis]. rewrite lookup_insert_eq.
    cbn [bind_outcome RestAPI.resources RestAPI.set_resources].
    rewrite (odict_set_fresh _ _ _ Hfresh). unfold odict_values. rewrite map_app.
    reflexivity.
Qed.

Lemma get_path_parent_lookup_fails (backends : registry) (r : Resource.t) (pid : string)
    (e : exn) :
  Resource.parent_id r = Some pid ->
  truthy (Some pid) = true ->
  lookup_resource backends (Resource.region_name r) (Resource.api_id r) pid = Raises e ->
  get_path backends r = Raises e.
Proof.
  intros Hpid Ht Hl. unfold get_path. cbn [Nat.add Resource.get_path_fuel].
  rewrite Hpid, Ht, Hl. reflexivity.
Qed.

(** X17: [delete_resource] removes the one resource and no other (the ids
    of the resources being distinct, as the keys of a dictionary are): a
    child of the deleted resource stays in the API, and its [get_path] then
    raises [KeyError] of the parent id. *)
Theorem delete_resource_leaves_children
    (backends : registry) (b : APIGatewayBackend.t) (function_id pid : string)
    (api : RestAPI.t) (parent child : Resource.t) :
  APIGatewayBackend.apis b !! function_id = Some api ->
  List.NoDup (map fst (RestAPI.resources api)) ->
  odict_get pid (RestAPI.resources api) = Some parent ->
  Resource.parent_id child = Some pid ->
  truthy (Some pid) = true ->
  Resource.api_id child = function_id ->
  let result := APIGatewayBackend.delete_resource function_id pid b in
  backends !! Resource.region_name child = Some (fst result) ->
  snd result = Returns parent
  /\ APIGatewayBackend.get_resource function_id pid (fst result) = Raises (KeyError pid)
  /\ (forall rid, rid <> pid ->
        APIGatewayBackend.get_resource function_id rid (fst result)
        = APIGatewayBackend.get_resource function_id rid b)
  /\ get_path backends child = Raises (KeyError pid).
Proof.
  intros Hapi Hnd Hparent Hpid Ht Hfid result Hreg. subst result.
  unfold APIGatewayBackend.delete_resource in *.
  rewrite (on_api_found b function_id api _ Hapi) in *. rewrite Hparent in *.
  cbn [fst snd] in *.
  assert (Hgone : APIGatewayBackend.get_resource function_id pid
                    (APIGatewayBackend.set_apis
                       (<[function_id :=
                            RestAPI.set_resources (odict_del pid (RestAPI.resources api)) api]>
                          (APIGatewayBackend.apis b)) b)
                  = Raises (KeyError pid)).
  { rewrite get_resource_after_set. unfold odict_item.
    cbn [RestAPI.resources RestAPI.set_resources].
    rewrite (odict_get_del_eq _ _ Hnd). reflexivity. }
  split; [reflexivity|]. split; [exact Hgone|]. split.
  - intros rid Hne. rewrite get_resource_after_set, (get_resource_found _ _ _ _ Hapi).
    unfold odict_item. cbn [RestAPI.resources RestAPI.set_resources].
    rewrite odict_get_del_ne by exact Hne. reflexivity.
  - apply (get_path_parent_lookup_fails backends child pid); [exact Hpid|exact Ht|].
    unfold lookup_resource. rewrite Hreg, Hfid. exact Hgone.
Qed.

Section ScanErrors.

Variable path_of : Resource.t -> outcome string.

Lemma first_with_path_raises (path : string) (before after : list Resource.t)
    (r : Resource.t) (e : exn) :
  (forall x, In x before -> exists p, path_of x = Returns p /\ p <> path) ->
  path_of r = Raises e ->
  RestAPI.first_with_path path_of path (before ++ r :: after) = Raises e.
Proof.
  intros Hbefore Hr. induction before as [|x before IH]; cbn [app RestAPI.first_with_path].
  - rewrite Hr. reflexivity.
  - destruct (Hbefore x) as (p & Hp & Hne); [left; reflexivity|].
    rewrite Hp. cbn [bind_outcome].
    destruct (String.eqb_spec p path); [contradiction|].
    apply IH. intros y Hy. apply Hbefore. right. exact Hy.
Qed.

End ScanErrors.

(** X18: [get_resource_for_path] raises what [get_path] raises on the first
    resource whose path cannot be computed, when the resources before it have
    other paths, whatever the resources after it are. *)
Theorem get_resource_for_path_stops_at_broken_node
    (backends : registry) (path : string) (api : RestAPI.t)
    (before after : list Resource.t) (r : Resource.t) (e : exn) :
  odict_values (RestAPI.resources api) = before ++ r :: after ->
  (forall x, In x before -> exists p, get_path backends x = Returns p /\ p <> path) ->
  get_path backends r = Raises e ->
  get_resource_for_path backends path api = Raises e.
Proof.
  intros Hres Hbefore Hr. unfold get_resource_for_path, RestAPI.get_resource_for_path.
  rewrite Hres. apply first_with_path_raises; assumption.
Qed.

(** ** Path parts that [create_resource] accepts *)

Lemma void_not_nullable (r : regex) : is_void r = true -> nullable r = false.
Proof.
  induction r; cbn; try discriminate; try reflexivity.
  - intros [H|H]%orb_prop; [rewrite (IHr1 H)|rewrite (IHr2 H)];
      [reflexivity|apply andb_false_r].
  - intros [H1 H2]%andb_prop. rewrite (IHr1 H1), (IHr2 H2). reflexivity.
Qed.

Lemma void_deriv (c : ascii) (r : regex) : is_void r = true -> is_void (deriv c r) = true.
Proof.
  induction r; cbn; try discriminate; try reflexivity.
  - intros H. destruct (nullable r1) eqn:Hn1; cbn.
    + apply orb_prop in H as [H|H].
      * rewrite (void_not_nullable _ H) in Hn1. discriminate.
      * rewrite H, (IHr2 H), orb_true_r. reflexivity.
    + apply orb_prop in H as [H|H].
      * rewrite (IHr1 H). reflexivity.
      * rewrite H. apply orb_true_r.
  - intros [H1 H2]%andb_prop. rewrite (IHr1 H1), (IHr2 H2). reflexivity.
Qed.

Lemma void_fullmatch (r : regex) (s : string) : is_void r = true -> re_fullmatch r s = false.
Proof.
  revert r. induction s as [|c s IH]; intros r H; cbn.
  - apply void_not_nullable, H.
  - apply IH, void_deriv, H.
Qed.

Lemma rejects_deriv (c c' : ascii) (r : regex) :
  rejects c r = true -> rejects c (deriv c' r) = true.
Proof.
  induction r; cbn; try reflexivity.
  - intros _. destruct (p c'); reflexivity.
  - intros [H1 H2]%andb_prop. destruct (nullable r1); cbn;
      rewrite (IHr1 H1), ?(IHr2 H2), H2; reflexivity.
  - intros [H1 H2]%andb_prop. rewrite (IHr1 H1), (IHr2 H2). reflexivity.
  - intros H. rewrite (IHr H), H. reflexivity.
Qed.

Lemma rejects_deriv_void (c : ascii) (r : regex) :
  rejects c r = true -> is_void (deriv c r) = true.
Proof.
  induction r; cbn; try reflexivity.
  - intros H. apply negb_true_iff in H. rewrite H. reflexivity.
  - intros [H1 H2]%andb_prop. destruct (nullable r1); cbn;
      rewrite (IHr1 H1), ?(IHr2 H2); reflexivity.
  - intros [H1 H2]%andb_prop. rewrite (IHr1 H1), (IHr2 H2). reflexivity.
  - intros H. rewrite (IHr H). reflexivity.
Qed.

Lemma fullmatch_avoids (c : ascii) (r : regex) (s : string) :
  rejects c r = true -> re_fullmatch r s = true -> contains (String c "") s = false.
Proof.
  revert r. induction s as [|c' s IH]; intros r Hr Hm; [reflexivity|].
  cbn [re_fullmatch] in Hm. cbn [contains String.prefix].
  destruct (ascii_dec c c') as [<-|Hne].
  - rewrite void_fullmatch in Hm by (apply rejects_deriv_void, Hr). discriminate.
  - cbn [orb]. apply (IH (deriv c' r)); [apply rejects_deriv, Hr|exact Hm].
Qed.

Lemma chomp_avoids (c : ascii) (s s' : string) :
  c <> "010"%char -> chomp s = Some s' ->
  contains (String c "") s' = false -> contains (String c "") s = false.
Proof.
  intros Hc. revert s'. induction s as [|a s IH]; intros s' Hch Hs'; [reflexivity|].
  cbn [chomp] in Hch. destruct s as [|a' s].
  - destruct (Ascii.eqb_spec a "010"%char) as [->|]; [|discriminate].
    cbn. destruct (ascii_dec c "010"%char); [contradiction|reflexivity].
  - destruct (chomp (String a' s)) as [t|] eqn:Ht; [|discriminate].
    injection Hch as <-. cbn [contains String.prefix] in Hs' |- *.
    destruct (ascii_dec c a); [destruct t; discriminate|].
    cbn [orb] in *. apply (IH t); [reflexivity|exact Hs'].
Qed.

(** X19: When [create_resource] returns, the path part is not empty and
    contains no [/], and it is the path part of the resource returned. *)
Theorem created_resource_is_one_segment
    (b : APIGatewayBackend.t) (function_id : string) (parent_resource_id : option string)
    (path_part child_id : string) (child : Resource.t) :
  snd (APIGatewayBackend.create_resource function_id parent_resource_id path_part
         child_id b) = Returns child ->
  path_part <> "" /\ contains "/" path_part = false /\ Resource.path_part child = path_part.
Proof.
  unfold APIGatewayBackend.create_resource.
  destruct (re_match_dollar path_part_pattern path_part) eqn:Hm; cbn [negb];
    [|discriminate].
  intros Hres. split; [|split].
  - intros ->. discriminate.
  - unfold re_match_dollar in Hm. apply orb_prop in Hm as [Hm|Hm].
    + apply (fullmatch_avoids "/" path_part_pattern); [reflexivity|exact Hm].
    + destruct (chomp path_part) as [s'|] eqn:Hch; [|discriminate].
      apply (chomp_avoids "/" path_part s'); [discriminate|exact Hch|].
      apply (fullmatch_avoids "/" path_part_pattern); [reflexivity|exact Hm].
  - unfold APIGatewayBackend.on_api in Hres.
    destruct (APIGatewayBackend.get_rest_api function_id b); [|discriminate].
    cbn in Hres. injection Hres as <-. reflexivity.
Qed.

(** ** Full paths *)

Lemma get_path_of_child (backends : registry) (r parent : Resource.t) (pid : string) :
  Resource.parent_id r = Some pid ->
  truthy (Some pid) = true ->
  lookup_resource backends (Resource.region_name r) (Resource.api_id r) pid
  = Returns parent ->
  get_path backends r =
  try! parent_path := get_path backends parent in
  Returns ((if negb (String.eqb parent_path "/")
            then (parent_path ++ "/")%string else parent_path)
           ++ Resource.path_part r)%string.
Proof.
  intros Hpid Ht Hparent. unfold get_path. cbn [Nat.add].
  rewrite (get_path_fuel_step _ (S _) r). unfold parent_key. rewrite Hpid, Ht.
  unfold lookup_key. cbn [fst snd]. rewrite Hparent. cbn [bind_outcome].
  rewrite (get_path_fuel_stable _ (all_resource_keys backends)
             (lookup_resource_known backends) (S (length (all_resource_keys backends))));
    [reflexivity|lia].
Qed.

Lemma append_assoc (a b c : string) : ((a ++ b) ++ c)%string = (a ++ b ++ c)%string.
Proof.
  induction a as [|x a IH]; [reflexivity|].
  change (String x ((a ++ b) ++ c)%string = String x (a ++ b ++ c)%string).
  rewrite IH. reflexivity.
Qed.

Lemma concat_snoc (sep s : string) (l : list string) :
  l <> [] -> String.concat sep (l ++ [s]) = (String.concat sep l ++ sep ++ s)%string.
Proof.
  induction l as [|x l IH]; [contradiction|]. intros _.
  destruct l as [|y l].
  - reflexivity.
  - cbn [app String.concat] in *. rewrite IH by discriminate.
    rewrite !append_assoc. reflexivity.
Qed.

Lemma concat_nonempty (sep : string) (l : list string) :
  l <> [] -> (forall x, In x l -> x <> "") -> String.concat sep l <> "".
Proof.
  destruct l as [|x l]; [contradiction|]. intros _ Hall.
  assert (Hx : x <> "") by (apply Hall; left; reflexivity).
  destruct x as [|c x]; [contradiction|]. destruct l; cbn; discriminate.
Qed.

Lemma slash_path_step (done : list string) (seg : string) :
  done <> [] -> (forall x, In x done -> x <> "") ->
  let pp := ("/" ++ String.concat "/" done)%string in
  ((if negb (String.eqb pp "/") then (pp ++ "/")%string else pp) ++ seg)%string
  = ("/" ++ String.concat "/" (done ++ [seg]))%string.
Proof.
  intros Hne Hall pp. subst pp.
  pose proof (concat_nonempty "/" done Hne Hall) as Hc.
  destruct (String.concat "/" done) as [|c rest] eqn:Hd; [contradiction|].
  rewrite concat_snoc by exact Hne. rewrite Hd.
  change ("/" ++ String c rest)%string with (String "/" (String c rest)).
  cbn [String.eqb]. rewrite Ascii.eqb_refl. cbn [negb].
  rewrite !append_assoc. reflexivity.
Qed.

Lemma last_cons {A : Type} (r d : A) (rs : list A) :
  List.last (r :: rs) d = List.last rs r.
Proof.
  revert r d. induction rs as [|x rs IH]; intros r d; [reflexivity|].
  change (List.last (r :: x :: rs) d) with (List.last (x :: rs) d).
  rewrite (IH x d), (IH x r). reflexivity.
Qed.

Lemma get_path_along (backends : registry) (rs : list Resource.t) :
  forall (parent : Resource.t) (done : list string),
    done <> [] -> (forall x, In x done -> x <> "") ->
    get_path backends parent = Returns ("/" ++ String.concat "/" done)%string ->
    linked backends parent rs ->
    get_path backends (List.last rs parent)
    = Returns ("/" ++ String.concat "/" (done ++ map Resource.path_part rs))%string.
Proof.
  induction rs as [|r rs IH]; intros parent done Hne Hall Hparent Hlinked.
  - cbn. rewrite app_nil_r. exact Hparent.
  - destruct Hlinked as ((pid & Hpid & Ht & Hl) & Hseg & Hrest).
    assert (Hr : get_path backends r
                 = Returns ("/" ++ String.concat "/" (done ++ [Resource.path_part r]))%string).
    { rewrite (get_path_of_child backends r parent pid Hpid Ht Hl), Hparent.
      cbn [bind_outcome]. f_equal. apply slash_path_step; assumption. }
    rewrite last_cons.
    cbn [map]. replace (done ++ Resource.path_part r :: map Resource.path_part rs)
      with ((done ++ [Resource.path_part r]) ++ map Resource.path_part rs)
      by (rewrite <- app_assoc; reflexivity).
    apply IH; try assumption.
    + destruct done; discriminate.
    + intros x [Hx|[<-|[]]]%in_app_or; auto.
Qed.

(** X20: Along a chain of resources from a root of segment [/], each with a
    non-empty segment and the one before as parent, [get_path] of the last
    resource is [/] followed by the segments joined with [/]. *)
Theorem get_path_joins_segments
    (backends : registry) (root first : Resource.t) (rest : list Resource.t) :
  truthy (Resource.parent_id root) = false ->
  Resource.path_part root = "/" ->
  linked backends root (first :: rest) ->
  get_path backends (List.last (first :: rest) root)
  = Returns ("/" ++ String.concat "/" (map Resource.path_part (first :: rest)))%string.
Proof.
  intros Hroot Hslash Hlinked.
  assert (Hr : get_path backends root = Returns "/").
  { unfold get_path. cbn [Nat.add]. rewrite get_path_fuel_step. unfold parent_key.
    destruct (Resource.parent_id root) as [pid|]; [rewrite Hroot|]; rewrite Hslash;
      reflexivity. }
  destruct Hlinked as ((pid & Hpid & Ht & Hl) & Hseg & Hrest).
  assert (Hf : get_path backends first
               = Returns ("/" ++ String.concat "/" [Resource.path_part first])%string).
  { rewrite (get_path_of_child backends first root pid Hpid Ht Hl), Hr. reflexivity. }
  rewrite last_cons.
  apply (get_path_along backends rest first [Resource.path_part first]);
    [discriminate| |exact Hf|exact Hrest].
  intros x [<-|[]]. exact Hseg.
Qed.

(** ** Methods, integrations and method responses *)

Lemma set_resources_same (api : RestAPI.t) (rid : string) (resource : Resource.t) :
  odict_get rid (RestAPI.resources api) = Some resource ->
  RestAPI.set_resources (odict_set rid resource (RestAPI.resources api)) api = api.
Proof.
  intros H. rewrite (odict_set_same _ _ _ H). destruct api; reflexivity.
Qed.

Lemma set_resource_methods_same (resource : Resource.t) (mt : string) (m : Method.t) :
  odict_get mt (Resource.resource_methods resource) = Some m ->
  Resource.set_resource_methods (odict_set mt m (Resource.resource_methods resource)) resource
  = resource.
Proof.
  intros H. rewrite (odict_set_same _ _ _ H). destruct resource; reflexivity.
Qed.

Lemma on_resource_found {A : Type} (b : APIGatewayBackend.t) (function_id rid : string)
    (api : RestAPI.t) (resource : Resource.t) (m : M Resource.t A) :
  APIGatewayBackend.apis b !! function_id = Some api ->
  odict_get rid (RestAPI.resources api) = Some resource ->
  APIGatewayBackend.on_resource function_id rid m b
  = (APIGatewayBackend.set_apis
       (<[function_id :=
            RestAPI.set_resources (odict_set rid (fst (m resource)) (RestAPI.resources api))
              api]> (APIGatewayBackend.apis b)) b,
     snd (m resource)).
Proof.
  intros Hapi Hres. unfold APIGatewayBackend.on_resource.
  rewrite (on_api_found b function_id api _ Hapi), Hres.
  destruct (m resource); reflexivity.
Qed.

(** A method of a resource that raised without changing the resource
    leaves the backend as it was. *)
Lemma on_resource_unchanged {A : Type} (b : APIGatewayBackend.t) (function_id rid : string)
    (m : M Resource.t A) :
  (forall r, fst (m r) = r) ->
  fst (APIGatewayBackend.on_resource function_id rid m b) = b.
Proof.
  intros Hm. unfold APIGatewayBackend.on_resource, APIGatewayBackend.on_api.
  destruct (APIGatewayBackend.get_rest_api function_id b) as [api|e] eqn:Hget;
    [|reflexivity].
  assert (Hapi : APIGatewayBackend.apis b !! function_id = Some api).
  { unfold APIGatewayBackend.get_rest_api in Hget.
    destruct (APIGatewayBackend.apis b !! function_id); [congruence|discriminate]. }
  destruct (odict_get rid (RestAPI.resources api)) as [resource|] eqn:Hres.
  - specialize (Hm resource). destruct (m resource) as [r' o]. cbn [fst] in *. subst r'.
    rewrite (set_resources_same _ _ _ Hres). apply set_apis_same, Hapi.
  - cbn [fst]. apply set_apis_same, Hapi.
Qed.

Lemma get_method_after_set (b : APIGatewayBackend.t) (function_id rid mt : string)
    (api : RestAPI.t) (resource' : Resource.t) :
  APIGatewayBackend.get_method function_id rid mt
    (APIGatewayBackend.set_apis
       (<[function_id :=
            RestAPI.set_resources (odict_set rid resource' (RestAPI.resources api)) api]>
          (APIGatewayBackend.apis b)) b)
  = odict_item mt (Resource.resource_methods resource').
Proof.
  unfold APIGatewayBackend.get_method. rewrite get_resource_after_set.
  unfold odict_item at 1. cbn [RestAPI.resources RestAPI.set_resources].
  rewrite odict_get_set_eq. reflexivity.
Qed.

Lemma get_method_found (b : APIGatewayBackend.t) (function_id rid mt : string)
    (api : RestAPI.t) (resource : Resource.t) :
  APIGatewayBackend.apis b !! function_id = Some api ->
  odict_get rid (RestAPI.resources api) = Some resource ->
  APIGatewayBackend.get_method function_id rid mt b
  = odict_item mt (Resource.resource_methods resource).
Proof.
  intros Hapi Hres. unfold APIGatewayBackend.get_method.
  rewrite (get_resource_found _ _ _ _ Hapi). unfold odict_item at 1. rewrite Hres.
  reflexivity.
Qed.

Lemma get_integration_after_set (b : APIGatewayBackend.t) (function_id rid mt : string)
    (api : RestAPI.t) (resource' : Resource.t) :
  APIGatewayBackend.get_integration function_id rid mt
    (APIGatewayBackend.set_apis
       (<[function_id :=
            RestAPI.set_resources (odict_set rid resource' (RestAPI.resources api)) api]>
          (APIGatewayBackend.apis b)) b)
  = Resource.get_integration mt resource'.
Proof.
  unfold APIGatewayBackend.get_integration. rewrite get_resource_after_set.
  unfold odict_item at 1. cbn [RestAPI.resources RestAPI.set_resources].
  rewrite odict_get_set_eq. reflexivity.
Qed.

(** X21: [create_method] on an existing resource stores a new method under the
    method type, replacing one that was there: [get_method] returns the new
    method, its integration is [None], and the other methods of the resource
    are as before. *)
Theorem create_method_replaces_the_method
    (b : APIGatewayBackend.t) (function_id rid method_type : string)
    (authorization_type : option string) (api_key_required : option bool)
    (api : RestAPI.t) (resource : Resource.t) :
  APIGatewayBackend.apis b !! function_id = Some api ->
  odict_get rid (RestAPI.resources api) = Some resource ->
  let method := Method.init method_type authorization_type api_key_required in
  let result :=
    APIGatewayBackend.create_method function_id rid method_type authorization_type
      api_key_required b in
  snd result = Returns method
  /\ APIGatewayBackend.get_method function_id rid method_type (fst result) = Returns method
  /\ APIGatewayBackend.get_integration function_id rid method_type (fst result)
     = Returns None
  /\ forall other, other <> method_type ->
       APIGatewayBackend.get_method function_id rid other (fst result)
       = APIGatewayBackend.get_method function_id rid other b.
Proof.
  intros Hapi Hres method result. subst result. unfold APIGatewayBackend.create_method.
  rewrite (on_resource_found b function_id rid api resource _ Hapi Hres).
  unfold Resource.add_method. cbn [fst snd]. fold method.
  split; [reflexivity|]. split; [|split].
  - rewrite get_method_after_set. unfold odict_item.
    cbn [Resource.resource_methods Resource.set_resource_methods].
    rewrite odict_get_set_eq. reflexivity.
  - rewrite get_integration_after_set. unfold Resource.get_integration, odict_item.
    cbn [Resource.resource_methods Resource.set_resource_methods].
    rewrite odict_get_set_eq. reflexivity.
  - intros other Hne. rewrite get_method_after_set, (get_method_found _ _ _ _ _ _ Hapi Hres).
    unfold odict_item. cbn [Resource.resource_methods Resource.set_resource_methods].
    rewrite odict_get_set_ne by exact Hne. reflexivity.
Qed.

Section IntegrationLifecycle.

Context {env : Env}.

(** The checks of [create_integration] passed. *)
Lemma create_integration_returns_inv
    (b : APIGatewayBackend.t) (function_id rid method_type integration_type uri : string)
    (integration_method credentials : option string)
    (request_templates : option (gmap string string)) (i : Integration.t) :
  snd (APIGatewayBackend.create_integration function_id rid method_type integration_type
         uri integration_method credentials request_templates b) = Returns i ->
  APIGatewayBackend.create_integration function_id rid method_type integration_type
    uri integration_method credentials request_templates b
  = APIGatewayBackend.on_resource function_id rid
      (Resource.add_integration method_type integration_type uri request_templates) b.
Proof.
  unfold APIGatewayBackend.create_integration, bind.
  destruct (APIGatewayBackend.get_resource function_id rid b); [|discriminate].
  repeat match goal with
         | |- context [if ?c then raise _ else _] =>
             destruct c; [unfold raise; cbn [snd]; discriminate|]
         end.
  reflexivity.
Qed.

(** X22: When [create_integration] returns, the integration is built from the
    type, the URI, the method type of the resource and the request templates,
    its [httpMethod] is that method type and not the integration method given,
    and [get_integration] returns it. *)
Theorem create_integration_then_get_integration
    (b : APIGatewayBackend.t) (function_id rid method_type integration_type uri : string)
    (integration_method credentials : option string)
    (request_templates : option (gmap string string)) (i : Integration.t) :
  let result :=
    APIGatewayBackend.create_integration function_id rid method_type integration_type
      uri integration_method credentials request_templates b in
  snd result = Returns i ->
  i = Integration.init integration_type uri method_type request_templates
  /\ Integration.httpMethod i = method_type
  /\ APIGatewayBackend.get_integration function_id rid method_type (fst result)
     = Returns (Some i).
Proof.
  intros result Hret. subst result.
  pose proof (create_integration_returns_inv _ _ _ _ _ _ _ _ _ _ Hret) as Heq.
  rewrite Heq in Hret |- *. clear Heq.
  unfold APIGatewayBackend.on_resource, APIGatewayBackend.on_api in *.
  destruct (APIGatewayBackend.get_rest_api function_id b) as [api|e] eqn:Hget;
    [|cbn [snd] in Hret; discriminate Hret].
  destruct (odict_get rid (RestAPI.resources api)) as [resource|] eqn:Hres;
    [|cbn [snd] in Hret; discriminate Hret].
  unfold Resource.add_integration in *.
  destruct (odict_get method_type (Resource.resource_methods resource)) as [m|] eqn:Hm;
    [|cbn [snd] in Hret; discriminate Hret].
  cbn [fst snd] in *. injection Hret as <-.
  split; [reflexivity|]. split; [reflexivity|].
  rewrite get_integration_after_set. unfold Resource.get_integration, odict_item.
  cbn [Resource.resource_methods Resource.set_resource_methods].
  rewrite odict_get_set_eq. reflexivity.
Qed.

(** X23: When [create_integration] raises, whatever the exception, the backend
    is unchanged. *)
Theorem create_integration_error_changes_nothing
    (b : APIGatewayBackend.t) (function_id rid method_type integration_type uri : string)
    (integration_method credentials : option string)
    (request_templates : option (gmap string string)) (e : exn) :
  let result :=
    APIGatewayBackend.create_integration function_id rid method_type integration_type
      uri integration_method credentials request_templates b in
  snd result = Raises e -> fst result = b.
Proof.
  intros result. subst result. unfold APIGatewayBackend.create_integration, bind.
  destruct (APIGatewayBackend.get_resource function_id rid b) as [resource|e'] eqn:Hget;
    [|reflexivity].
  repeat match goal with
         | |- context [if ?c then raise _ else _] =>
             destruct c; [unfold raise; cbn [fst]; reflexivity|]
         end.
  assert (Hapi : exists api, APIGatewayBackend.apis b !! function_id = Some api
                             /\ odict_get rid (RestAPI.resources api) = Some resource).
  { unfold APIGatewayBackend.get_resource, APIGatewayBackend.get_rest_api, odict_item in Hget.
    destruct (APIGatewayBackend.apis b !! function_id) as [api|]; [|discriminate].
    cbn in Hget. exists api. split; [reflexivity|].
    destruct (odict_get rid (RestAPI.resources api)); [congruence|discriminate]. }
  destruct Hapi as (api & Hapi & Hres).
  rewrite (on_resource_found b function_id rid api resource _ Hapi Hres).
  unfold Resource.add_integration.
  destruct (odict_get method_type (Resource.resource_methods resource)); [discriminate|].
  cbn [fst snd]. intros _. rewrite (set_resources_same _ _ _ Hres).
  apply set_apis_same, Hapi.
Qed.

(** X24: For an integration type that is none of [HTTP], [HTTP_PROXY], [AWS],
    [AWS_PROXY], and no credentials, [create_integration] on an existing
    method checks neither the URI nor the integration method and returns the
    integration. *)
Theorem unchecked_integration_type_is_stored
    (b : APIGatewayBackend.t) (function_id rid method_type integration_type uri : string)
    (integration_method : option string)
    (request_templates : option (gmap string string))
    (api : RestAPI.t) (resource : Resource.t) (m : Method.t) :
  APIGatewayBackend.in_list integration_type ["HTTP"; "HTTP_PROXY"; "AWS"; "AWS_PROXY"]
  = false ->
  APIGatewayBackend.apis b !! function_id = Some api ->
  odict_get rid (RestAPI.resources api) = Some resource ->
  odict_get method_type (Resource.resource_methods resource) = Some m ->
  snd (APIGatewayBackend.create_integration function_id rid method_type integration_type
         uri integration_method None request_templates b)
  = Returns (Integration.init integration_type uri method_type request_templates).
Proof.
  intros Htype Hapi Hres Hm. unfold APIGatewayBackend.create_integration, bind.
  rewrite (get_resource_found _ _ _ _ Hapi). unfold odict_item. rewrite Hres.
  unfold APIGatewayBackend.in_list in *. cbn [existsb] in *.
  repeat (apply orb_false_elim in Htype as [? Htype]).
  repeat match goal with H : String.eqb _ _ = false |- _ => rewrite H; clear H end.
  cbn [truthy andb orb negb]. rewrite !andb_false_r. cbn [andb].
  rewrite (on_resource_found b function_id rid api resource _ Hapi Hres).
  unfold Resource.add_integration. rewrite Hm. reflexivity.
Qed.

End IntegrationLifecycle.

(** X25: [delete_integration] on a method that has the key [methodIntegration]
    returns what the key held and removes the key: [get_integration] and a
    second [delete_integration] then raise [KeyError], and the method is
    otherwise as before. *)
Theorem delete_integration_removes_the_key
    (b : APIGatewayBackend.t) (function_id rid method_type : string)
    (api : RestAPI.t) (resource : Resource.t) (m : Method.t) (i : option Integration.t) :
  APIGatewayBackend.apis b !! function_id = Some api ->
  odict_get rid (RestAPI.resources api) = Some resource ->
  odict_get method_type (Resource.resource_methods resource) = Some m ->
  Method.methodIntegration m = Some i ->
  let result := APIGatewayBackend.delete_integration function_id rid method_type b in
  snd result = Returns i
  /\ APIGatewayBackend.get_method function_id rid method_type (fst result)
     = Returns (Method.set_methodIntegration None m)
  /\ APIGatewayBackend.get_integration function_id rid method_type (fst result)
     = Raises (KeyError "methodIntegration")
  /\ snd (APIGatewayBackend.delete_integration function_id rid method_type (fst result))
     = Raises (KeyError "methodIntegration").
Proof.
  intros Hapi Hres Hm Hi result. subst result. unfold APIGatewayBackend.delete_integration.
  rewrite (on_resource_found b function_id rid api resource _ Hapi Hres).
  assert (Hdel : Resource.delete_integration method_type resource
                 = (Resource.set_resource_methods
                      (odict_set method_type (Method.set_methodIntegration None m)
                         (Resource.resource_methods resource)) resource, Returns i)).
  { unfold Resource.delete_integration. rewrite Hm, Hi. reflexivity. }
  rewrite Hdel. cbn [fst snd]. split; [reflexivity|]. split; [|split].
  - rewrite get_method_after_set. unfold odict_item.
    cbn [Resource.resource_methods Resource.set_resource_methods].
    rewrite odict_get_set_eq. reflexivity.
  - rewrite get_integration_after_set. unfold Resource.get_integration, odict_item.
    cbn [Resource.resource_methods Resource.set_resource_methods].
    rewrite odict_get_set_eq. reflexivity.
  - erewrite on_resource_found;
      [| cbn [APIGatewayBackend.apis APIGatewayBackend.set_apis]; apply lookup_insert_eq
       | cbn [RestAPI.resources RestAPI.set_resources]; apply odict_get_set_eq].
    unfold Resource.delete_integration.
    cbn [Resource.resource_methods Resource.set_resource_methods].
    rewrite odict_get_set_eq. reflexivity.
Qed.

(** X26: On an existing method, [create_method_response] returns the response,
    [get_method_response] then returns it, [delete_method_response] returns it
    again, and after that [get_method_response] raises [KeyError]. *)
Theorem method_response_round_trip
    (b : APIGatewayBackend.t) (function_id rid method_type response_code : string)
    (api : RestAPI.t) (resource : Resource.t) (m : Method.t) :
  APIGatewayBackend.apis b !! function_id = Some api ->
  odict_get rid (RestAPI.resources api) = Some resource ->
  odict_get method_type (Resource.resource_methods resource) = Some m ->
  let created :=
    APIGatewayBackend.create_method_response function_id rid method_type response_code b in
  let deleted :=
    APIGatewayBackend.delete_method_response function_id rid method_type response_code
      (fst created) in
  snd created = Returns {| MethodResponse.statusCode := response_code |}
  /\ APIGatewayBackend.get_method_response function_id rid method_type response_code
       (fst created)
     = Returns {| MethodResponse.statusCode := response_code |}
  /\ snd deleted = Returns {| MethodResponse.statusCode := response_code |}
  /\ APIGatewayBackend.get_method_response function_id rid method_type response_code
       (fst deleted)
     = Raises (KeyError response_code).
Proof.
  intros Hapi Hres Hm created deleted.
  set (response := {| MethodResponse.statusCode := response_code |}).
  set (m1 := Method.set_method_responses
               (<[response_code := response]> (Method.method_responses m)) m).
  set (res1 := Resource.set_resource_methods
                 (odict_set method_type m1 (Resource.resource_methods resource)) resource).
  set (api1 := RestAPI.set_resources (odict_set rid res1 (RestAPI.resources api)) api).
  set (b1 := APIGatewayBackend.set_apis (<[function_id := api1]> (APIGatewayBackend.apis b)) b).
  assert (Hcreated : created = (b1, Returns response)).
  { subst created. unfold APIGatewayBackend.create_method_response, APIGatewayBackend.on_method.
    rewrite (on_resource_found b function_id rid api resource _ Hapi Hres), Hm.
    reflexivity. }
  assert (Hapi1 : APIGatewayBackend.apis b1 !! function_id = Some api1)
    by apply lookup_insert_eq.
  assert (Hres1 : odict_get rid (RestAPI.resources api1) = Some res1)
    by apply odict_get_set_eq.
  assert (Hm1 : odict_get method_type (Resource.resource_methods res1) = Some m1)
    by apply odict_get_set_eq.
  set (m2 := Method.set_method_responses (delete response_code (Method.method_responses m1)) m1).
  set (res2 := Resource.set_resource_methods
                 (odict_set method_type m2 (Resource.resource_methods res1)) res1).
  set (api2 := RestAPI.set_resources (odict_set rid res2 (RestAPI.resources api1)) api1).
  set (b2 := APIGatewayBackend.set_apis (<[function_id := api2]> (APIGatewayBackend.apis b1)) b1).
  assert (Hdeleted : deleted = (b2, Returns response)).
  { subst deleted. rewrite Hcreated. cbn [fst].
    unfold APIGatewayBackend.delete_method_response, APIGatewayBackend.on_method.
    rewrite (on_resource_found b1 function_id rid api1 res1 _ Hapi1 Hres1), Hm1.
    unfold Method.delete_response.
    assert (Hl : Method.method_responses m1 !! response_code = Some response)
      by apply lookup_insert_eq.
    rewrite Hl. reflexivity. }
  rewrite Hcreated, Hdeleted. cbn [fst snd].
  split; [reflexivity|]. split; [|split; [reflexivity|]].
  - unfold APIGatewayBackend.get_method_response.
    rewrite (get_method_found b1 function_id rid method_type api1 res1 Hapi1 Hres1).
    unfold odict_item. rewrite Hm1. cbn [bind_outcome]. unfold Method.get_response, item.
    assert (Hl : Method.method_responses m1 !! response_code = Some response)
      by apply lookup_insert_eq.
    rewrite Hl. reflexivity.
  - assert (Hapi2 : APIGatewayBackend.apis b2 !! function_id = Some api2)
      by apply lookup_insert_eq.
    assert (Hres2 : odict_get rid (RestAPI.resources api2) = Some res2)
      by apply odict_get_set_eq.
    assert (Hm2 : odict_get method_type (Resource.resource_methods res2) = Some m2)
      by apply odict_get_set_eq.
    unfold APIGatewayBackend.get_method_response.
    rewrite (get_method_found b2 function_id rid method_type api2 res2 Hapi2 Hres2).
    unfold odict_item. rewrite Hm2. cbn [bind_outcome]. unfold Method.get_response, item.
    assert (Hl : Method.method_responses m2 !! response_code = None)
      by apply lookup_delete_eq.
    rewrite Hl. reflexivity.
Qed.

(** ** API keys and their associations *)

Lemma update_operation_cases (o : Patch.t) (key : ApiKey.t) :
  let key' := fst (ApiKey.update_operation o key) in
  key' = key
  \/ (exists x, key' = ApiKey.set_name x key)
  \/ (exists x, key' = ApiKey.set_customerId x key)
  \/ (exists x, key' = ApiKey.set_description x key)
  \/ (exists x, key' = ApiKey.set_enabled x key).
Proof.
  cbv zeta. unfold ApiKey.update_operation.
  destruct (String.eqb (Patch.op o) "replace"); [|left; reflexivity].
  unfold bind, lift, modify, Patch.get_value.
  destruct (contains "/name" (Patch.path o)).
  { destruct (Patch.value o); [right; left; eexists; reflexivity|left; reflexivity]. }
  destruct (contains "/customerId" (Patch.path o)).
  { destruct (Patch.value o); [do 2 right; left; eexists; reflexivity|left; reflexivity]. }
  destruct (contains "/description" (Patch.path o)).
  { destruct (Patch.value o); [do 3 right; left; eexists; reflexivity|left; reflexivity]. }
  destruct (contains "/enabled" (Patch.path o)).
  { destruct (Patch.value o); [do 4 right; eexists; reflexivity|left; reflexivity]. }
  left. reflexivity.
Qed.

Lemma update_operations_preserves (P : ApiKey.t -> Prop) :
  (forall o key, P key -> P (fst (ApiKey.update_operation o key))) ->
  forall ops key, P key -> P (fst (ApiKey.update_operations ops key)).
Proof.
  intros Hstep ops. induction ops as [|o ops IH]; intros key Hkey; [exact Hkey|].
  cbn [ApiKey.update_operations]. unfold bind.
  specialize (Hstep o key Hkey).
  destruct (ApiKey.update_operation o key) as [key1 [[]|e]]; cbn [fst] in *; auto.
Qed.

(** X27: No batch of [update_operations] changes the id, the value, the
    creation date, the last-update date, the stage keys or the tags of an API
    key. *)
Theorem update_operations_keeps_identity (ops : list Patch.t) (key : ApiKey.t) :
  let key' := fst (ApiKey.update_operations ops key) in
  ApiKey.id key' = ApiKey.id key
  /\ ApiKey.value key' = ApiKey.value key
  /\ ApiKey.createdDate key' = ApiKey.createdDate key
  /\ ApiKey.lastUpdatedDate key' = ApiKey.lastUpdatedDate key
  /\ ApiKey.stageKeys key' = ApiKey.stageKeys key
  /\ ApiKey.tags key' = ApiKey.tags key.
Proof.
  cbv zeta.
  apply (update_operations_preserves
           (fun k => ApiKey.id k = ApiKey.id key
                     /\ ApiKey.value k = ApiKey.value key
                     /\ ApiKey.createdDate k = ApiKey.createdDate key
                     /\ ApiKey.lastUpdatedDate k = ApiKey.lastUpdatedDate key
                     /\ ApiKey.stageKeys k = ApiKey.stageKeys key
                     /\ ApiKey.tags k = ApiKey.tags key)); [|repeat split].
  intros o k Hk.
  destruct (update_operation_cases o k) as [->|[[x ->]|[[x ->]|[[x ->]|[x ->]]]]];
    exact Hk.
Qed.

Lemma update_operations_value (ops : list Patch.t) (key : ApiKey.t) :
  ApiKey.value (fst (ApiKey.update_operations ops key)) = ApiKey.value key.
Proof.
  apply (update_operations_preserves (fun k => ApiKey.value k = ApiKey.value key));
    [|reflexivity].
  intros o k Hk.
  destruct (update_operation_cases o k) as [->|[[x ->]|[[x ->]|[[x ->]|[x ->]]]]];
    exact Hk.
Qed.

(** X28: After [update_apikey] on an existing key, [get_apikey] returns the
    key as the batch left it, also when the batch raised; the other keys are
    as before. *)
Theorem update_apikey_then_get_apikey
    (b : APIGatewayBackend.t) (api_key_id : string) (ops : list Patch.t) (key : ApiKey.t) :
  APIGatewayBackend.keys b !! api_key_id = Some key ->
  let patched := ApiKey.update_operations ops key in
  let result := APIGatewayBackend.update_apikey api_key_id ops b in
  snd result = match snd patched with
               | Returns _ => Returns (fst patched)
               | Raises e => Raises e
               end
  /\ APIGatewayBackend.get_apikey api_key_id (fst result) = Returns (fst patched)
  /\ forall other, other <> api_key_id ->
       APIGatewayBackend.get_apikey other (fst result) = APIGatewayBackend.get_apikey other b.
Proof.
  intros Hkey patched result. subst result. unfold APIGatewayBackend.update_apikey.
  rewrite Hkey. fold patched. destruct patched as [key' r]. cbn [fst snd].
  split; [reflexivity|]. unfold APIGatewayBackend.get_apikey, item.
  cbn [APIGatewayBackend.keys APIGatewayBackend.set_keys]. split.
  - rewrite lookup_insert_eq. reflexivity.
  - intros other Hne. rewrite lookup_insert_ne by congruence. reflexivity.
Qed.

(** X29: When no two API keys of the backend have the same value, this still
    holds after [create_apikey] with an explicit non-empty value, after
    [update_apikey] and after [delete_apikey], whatever they return. *)
Theorem explicit_values_stay_unique (b : APIGatewayBackend.t) :
  values_unique b ->
  (forall payload value new_id random_value now,
      ApiKey.p_value payload = Some value -> value <> "" ->
      values_unique (fst (APIGatewayBackend.create_apikey payload new_id random_value now b)))
  /\ (forall api_key_id ops,
        values_unique (fst (APIGatewayBackend.update_apikey api_key_id ops b)))
  /\ (forall api_key_id,
        values_unique (fst (APIGatewayBackend.delete_apikey api_key_id b))).
Proof.
  intros Hu. split; [|split].
  - intros payload value new_id random_value now Hval Hne.
    unfold APIGatewayBackend.create_apikey. rewrite Hval.
    destruct (existsb _ (APIGatewayBackend.get_apikeys b)) eqn:Hex; [exact Hu|].
    cbn [fst]. set (key := ApiKey.init payload new_id random_value now).
    assert (Hkv : ApiKey.value key = value).
    { subst key. cbn. rewrite Hval. cbn.
      destruct (String.eqb_spec value ""); [contradiction|reflexivity]. }
    assert (Hfree : forall k key', APIGatewayBackend.keys b !! k = Some key' ->
                                   ApiKey.value key' <> value).
    { intros k key' Hk Hv.
      assert (Ht : existsb (fun api_key => String.eqb (ApiKey.value api_key) value)
                     (APIGatewayBackend.get_apikeys b) = true)
        by (apply value_taken_spec; eauto).
      congruence. }
    intros k1 k2 key1 key2 H1 H2 Hv.
    cbn [APIGatewayBackend.keys APIGatewayBackend.set_keys ApiKey.id] in H1, H2.
    change (ApiKey.id key) with new_id in H1, H2.
    apply lookup_insert_Some in H1 as [[<- <-]|[Hn1 H1]];
      apply lookup_insert_Some in H2 as [[<- <-]|[Hn2 H2]].
    + reflexivity.
    + destruct (Hfree k2 key2 H2). congruence.
    + destruct (Hfree k1 key1 H1). congruence.
    + eapply Hu; eauto.
  - intros api_key_id ops. unfold APIGatewayBackend.update_apikey.
    destruct (APIGatewayBackend.keys b !! api_key_id) as [key|] eqn:Hkey; [|exact Hu].
    pose proof (update_operations_value ops key) as Hv.
    destruct (ApiKey.update_operations ops key) as [key' r]. cbn [fst] in *.
    intros k1 k2 key1 key2 H1 H2 Heq.
    cbn [APIGatewayBackend.keys APIGatewayBackend.set_keys] in H1, H2.
    apply lookup_insert_Some in H1 as [[<- <-]|[Hn1 H1]];
      apply lookup_insert_Some in H2 as [[<- <-]|[Hn2 H2]].
    + reflexivity.
    + eapply Hu; eauto. congruence.
    + eapply Hu; eauto. congruence.
    + eapply Hu; eauto.
  - intros api_key_id. unfold APIGatewayBackend.delete_apikey.
    destruct (APIGatewayBackend.keys b !! api_key_id) as [key|] eqn:Hkey; [|exact Hu].
    cbn [fst]. intros k1 k2 key1 key2 H1 H2 Heq.
    cbn [APIGatewayBackend.keys APIGatewayBackend.set_keys] in H1, H2.
    apply lookup_delete_Some in H1 as [_ H1]. apply lookup_delete_Some in H2 as [_ H2].
    eapply Hu; eauto.
Qed.

(** X30: [create_usage_plan_key] for an existing API key returns an
    association with the name and value the key has then, and does not look
    the usage plan up; renaming the key and then deleting it leaves the
    association, with the old name, among the keys of the plan. *)
Theorem usage_plan_key_is_a_copy
    (b : APIGatewayBackend.t) (usage_plan_id key_id key_type : string)
    (payload : UsagePlanKey.payload) (key : ApiKey.t) (ops : list Patch.t) :
  UsagePlanKey.keyId payload = Some key_id ->
  UsagePlanKey.keyType payload = Some key_type ->
  APIGatewayBackend.keys b !! key_id = Some key ->
  let usage_plan_key :=
    {| UsagePlanKey.id := key_id; UsagePlanKey.name := ApiKey.name key;
       UsagePlanKey.type := key_type; UsagePlanKey.value := ApiKey.value key |} in
  let created := APIGatewayBackend.create_usage_plan_key usage_plan_id payload b in
  let updated := fst (APIGatewayBackend.update_apikey key_id ops (fst created)) in
  let deleted := fst (APIGatewayBackend.delete_apikey key_id updated) in
  snd created = Returns usage_plan_key
  /\ In usage_plan_key (APIGatewayBackend.get_usage_plan_keys usage_plan_id (fst created))
  /\ APIGatewayBackend.keys (fst created) = APIGatewayBackend.keys b
  /\ APIGatewayBackend.usage_plan_keys updated
     = APIGatewayBackend.usage_plan_keys (fst created)
  /\ APIGatewayBackend.keys deleted !! key_id = None
  /\ In usage_plan_key (APIGatewayBackend.get_usage_plan_keys usage_plan_id deleted).
Proof.
  intros Hid Hty Hkey upk created updated deleted.
  set (plan_keys := default ∅ (APIGatewayBackend.usage_plan_keys b !! usage_plan_id)).
  assert (Hcreated : created =
                     (APIGatewayBackend.set_usage_plan_keys
                        (<[usage_plan_id := <[key_id := upk]> plan_keys]>
                           (APIGatewayBackend.usage_plan_keys b)) b, Returns upk)).
  { subst created plan_keys. unfold APIGatewayBackend.create_usage_plan_key, bind, modify.
    rewrite Hid.
    destruct (APIGatewayBackend.usage_plan_keys b !! usage_plan_id) as [pk|] eqn:Hpk.
    - rewrite Hkey, Hty, Hpk. reflexivity.
    - cbn [APIGatewayBackend.keys APIGatewayBackend.set_usage_plan_keys
           APIGatewayBackend.usage_plan_keys].
      rewrite Hkey, Hty, lookup_insert_eq.
      unfold APIGatewayBackend.set_usage_plan_keys.
      cbn [APIGatewayBackend.apis APIGatewayBackend.keys APIGatewayBackend.usage_plans
           APIGatewayBackend.usage_plan_keys APIGatewayBackend.region_name default].
      rewrite insert_insert_eq. reflexivity. }
  assert (Hlisted : forall s,
             APIGatewayBackend.usage_plan_keys s
             = <[usage_plan_id := <[key_id := upk]> plan_keys]>
                 (APIGatewayBackend.usage_plan_keys b) ->
             In upk (APIGatewayBackend.get_usage_plan_keys usage_plan_id s)).
  { intros s Hs. unfold APIGatewayBackend.get_usage_plan_keys. rewrite Hs, lookup_insert_eq.
    apply list_elem_of_In, list_elem_of_fmap. exists (key_id, upk). split; [reflexivity|].
    apply elem_of_map_to_list, lookup_insert_eq. }
  assert (Hupd : APIGatewayBackend.usage_plan_keys updated
                 = APIGatewayBackend.usage_plan_keys (fst created)
                 /\ is_Some (APIGatewayBackend.keys updated !! key_id)).
  { subst updated. rewrite Hcreated. cbn [fst]. unfold APIGatewayBackend.update_apikey.
    cbn [APIGatewayBackend.keys APIGatewayBackend.set_usage_plan_keys]. rewrite Hkey.
    destruct (ApiKey.update_operations ops key) as [key' r]. cbn [fst].
    split; [reflexivity|]. cbn. rewrite lookup_insert_eq. eauto. }
  destruct Hupd as [Hupd1 [key' Hupd2]].
  assert (Hdel : APIGatewayBackend.usage_plan_keys deleted
                 = APIGatewayBackend.usage_plan_keys updated
                 /\ APIGatewayBackend.keys deleted !! key_id = None).
  { subst deleted. unfold APIGatewayBackend.delete_apikey. rewrite Hupd2. cbn [fst].
    split; [reflexivity|]. cbn. apply lookup_delete_eq. }
  destruct Hdel as [Hdel1 Hdel2].
  split; [rewrite Hcreated; reflexivity|]. split.
  { apply Hlisted. rewrite Hcreated. reflexivity. }
  split; [rewrite Hcreated; reflexivity|]. split; [exact Hupd1|]. split; [exact Hdel2|].
  apply Hlisted. rewrite Hdel1, Hupd1, Hcreated. reflexivity.
Qed.

(** ** The properties above on the examples *)

Lemma replace_variable_then_lookup_witness :
  contains "variables/" "color" = false
  /\ Stage.variables
       (fst (Stage.apply_operations (env := demo_env)
               [variable_patch "replace" "color" "blue"] demo_stage)) !! "color"
     = Some "blue".
Proof.
  split; [reflexivity|].
  destruct (replace_variable_then_lookup (env := demo_env) demo_stage "color" "blue" eq_refl)
    as (_ & H & _).
  exact H.
Defined.

Lemma remove_variable_witness :
  contains "variables/" "color" = false
  /\ Stage.variables demo_stage !! "color" = None
  /\ Stage.apply_operations (env := demo_env) [variable_patch "remove" "color" "x"] demo_stage
     = (demo_stage, Returns tt).
Proof.
  split; [reflexivity|]. split; [reflexivity|].
  destruct (remove_variable (env := demo_env) demo_stage "color" (Some "x") eq_refl)
    as (Heq & _ & Hsame).
  specialize (Hsame eq_refl). unfold variable_patch. rewrite Heq in Hsame |- *.
  cbn [fst] in Hsame. rewrite Hsame. reflexivity.
Defined.

Lemma variable_patch_touches_variables_only_witness :
  contains "variables/" "/variables/description" = true
  /\ Stage.description
       (fst (Stage.apply_operation (env := demo_env)
               (variable_patch "replace" "description" "new") demo_stage))
     = Stage.description demo_stage.
Proof.
  split; [reflexivity|].
  destruct (variable_patch_touches_variables_only (env := demo_env) demo_stage
              (variable_patch "replace" "description" "new") eq_refl)
    as (_ & _ & _ & H & _).
  exact H.
Defined.

Lemma unknown_replace_is_ignored_witness :
  let o := {| Patch.op := "replace"; Patch.path := "/*/*/tracing/enabled";
              Patch.value := Some "true" |} in
  split "/" 3 (Patch.path o) = [""; "*"; "*"; "tracing/enabled"]
  /\ Stage._method_settings_translations "tracing/enabled" = None
  /\ Stage.apply_operation (env := demo_env) o demo_stage = (demo_stage, Returns tt).
Proof.
  cbv zeta. split; [reflexivity|]. split; [reflexivity|].
  apply (proj2 (unknown_replace_is_ignored (env := demo_env) demo_stage
                  {| Patch.op := "replace"; Patch.path := "/*/*/tracing/enabled";
                     Patch.value := Some "true" |}
                  eq_refl eq_refl eq_refl eq_refl eq_refl eq_refl)
           "" "*" "*" "tracing/enabled" "true");
    reflexivity.
Defined.

Lemma patch_method_setting_updates_one_key_witness :
  let st := fst (Stage.apply_operations (env := demo_env) [rate_limit_patch] demo_stage) in
  Stage._method_settings_translations "throttling/burstLimit" = Some "throttlingBurstLimit"
  /\ Stage._convert_to_type (env := demo_env) "throttlingBurstLimit" "10" = Returns (VInt 10)
  /\ (fst (Stage._patch_method_setting (env := demo_env) "*/*" "throttling/burstLimit" "10" st))
     = fst (Stage.apply_operations (env := demo_env)
              [rate_limit_patch; burst_limit_patch "10"] demo_stage).
Proof.
  cbv zeta. split; [reflexivity|]. split; [reflexivity|].
  rewrite (patch_method_setting_updates_one_key (env := demo_env) _ "*/*"
             "throttling/burstLimit" "10" "throttlingBurstLimit" (VInt 10) eq_refl eq_refl).
  reflexivity.
Defined.

Lemma failed_conversion_keeps_defaults_witness :
  Stage._method_settings_translations "throttling/burstLimit" = Some "throttlingBurstLimit"
  /\ Stage._convert_to_type (env := demo_env) "throttlingBurstLimit" "many"
     = Raises ValueError
  /\ Stage.methodSettings demo_stage !! "*/*" = None
  /\ Stage.methodSettings
       (fst (Stage._patch_method_setting (env := demo_env) "*/*" "throttling/burstLimit"
               "many" demo_stage)) !! "*/*"
     = Some Stage._get_default_method_settings.
Proof.
  split; [reflexivity|]. split; [reflexivity|]. split; [reflexivity|].
  rewrite (failed_conversion_keeps_defaults (env := demo_env) demo_stage "*/*"
             "throttling/burstLimit" "many" "throttlingBurstLimit" ValueError
             eq_refl eq_refl).
  reflexivity.
Defined.

Lemma enabled_cache_cluster_has_size_witness :
  cache_size_when_enabled demo_stage
  /\ cache_size_when_enabled
       (fst (Stage.apply_operations (env := demo_env)
               [cache_cluster_patch; burst_limit_patch "many"] demo_stage)).
Proof.
  assert (H : cache_size_when_enabled demo_stage) by (intros H; discriminate H).
  split; [exact H|].
  apply (proj2 (enabled_cache_cluster_has_size (env := demo_env))). exact H.
Defined.

Lemma method_settings_entries_stay_complete_witness :
  settings_complete demo_stage
  /\ settings_complete
       (fst (Stage.apply_operations (env := demo_env)
               [rate_limit_patch; burst_limit_patch "many"] demo_stage)).
Proof.
  assert (H : settings_complete demo_stage)
    by apply (proj1 (method_settings_entries_stay_complete (env := demo_env))).
  split; [exact H|].
  apply (proj2 (method_settings_entries_stay_complete (env := demo_env))). exact H.
Defined.

Lemma update_stage_of_missing_stage_witness :
  APIGatewayBackend.apis backend_with_child !! "api1" = Some api_with_child
  /\ RestAPI.stages api_with_child !! "prod" = None
  /\ APIGatewayBackend.update_stage (env := demo_env) "api1" "prod" [rate_limit_patch]
       backend_with_child
     = (backend_with_child, Raises StageNotFoundException)
  /\ APIGatewayBackend.apis backend_with_child !! "api9" = None
  /\ APIGatewayBackend.update_stage (env := demo_env) "api9" "prod" [rate_limit_patch]
       backend_with_child
     = (backend_with_child, Raises RestAPINotFound).
Proof.
  split; [reflexivity|]. split; [reflexivity|]. split.
  - apply (proj2 (update_stage_of_missing_stage (env := demo_env) backend_with_child
                    "api1" "prod" [rate_limit_patch]) api_with_child);
      reflexivity.
  - split; [reflexivity|].
    apply (proj1 (update_stage_of_missing_stage (env := demo_env) backend_with_child
                    "api9" "prod" [rate_limit_patch])).
    reflexivity.
Defined.

Lemma update_stage_keeps_what_was_applied_witness :
  let bad := {| Patch.op := "add"; Patch.path := "/tracingEnabled"; Patch.value := None |} in
  let stage := Stage.init (Some "prod") (Some "dep001") (Some ∅) "" None None in
  APIGatewayBackend.apis backend_with_stage !! "api1"
  = Some (fst (RestAPI.create_stage "prod" (Some "dep001") (Some ∅) "" None None
                 api_with_child))
  /\ RestAPI.stages
       (fst (RestAPI.create_stage "prod" (Some "dep001") (Some ∅) "" None None
               api_with_child)) !! "prod" = Some stage
  /\ snd (APIGatewayBackend.update_stage (env := demo_env) "api1" "prod"
            [cache_cluster_patch; bad] backend_with_stage)
     = Raises (PatchNotImplemented "add")
  /\ APIGatewayBackend.get_stage "api1" "prod"
       (fst (APIGatewayBackend.update_stage (env := demo_env) "api1" "prod"
               [cache_cluster_patch; bad] backend_with_stage))
     = Returns (Stage.set_cacheClusterSize (Some "0.5")
                  (Stage.set_cacheClusterEnabled (Some true) stage)).
Proof.
  cbv zeta. split; [reflexivity|]. split; [reflexivity|].
  destruct (update_stage_keeps_what_was_applied (env := demo_env) backend_with_stage
              "api1" "prod"
              [cache_cluster_patch;
               {| Patch.op := "add"; Patch.path := "/tracingEnabled"; Patch.value := None |}]
              _ _ eq_refl eq_refl) as (Hsnd & Hget & _).
  split; [rewrite Hsnd; reflexivity|]. rewrite Hget. reflexivity.
Defined.

Lemma create_stage_then_get_stage_witness :
  APIGatewayBackend.apis backend_with_child !! "api1" = Some api_with_child
  /\ APIGatewayBackend.get_deployment "api1" "dep404" backend_with_child
     = Raises (KeyError "dep404")
  /\ APIGatewayBackend.get_stage "api1" "beta"
       (fst (APIGatewayBackend.create_stage "api1" "beta" (Some "dep404") None "" (Some true)
               None backend_with_child))
     = Returns (Stage.init (Some "beta") (Some "dep404") (Some ∅) "" (Some true) None).
Proof.
  split; [reflexivity|]. split; [reflexivity|].
  destruct (create_stage_then_get_stage backend_with_child "api1" "beta" (Some "dep404")
              None "" (Some true) None api_with_child eq_refl) as (_ & H & _).
  exact H.
Defined.

Lemma delete_stage_removes_only_the_stage_witness :
  APIGatewayBackend.apis backend_deployed !! "api1"
  = Some (fst (RestAPI.create_deployment "prod" "" (Some ∅) "dep001" 0
                 (default demo_api (APIGatewayBackend.apis backend_deployable !! "api1"))))
  /\ APIGatewayBackend.get_stage "api1" "prod"
       (fst (APIGatewayBackend.delete_stage "api1" "prod" backend_deployed))
     = Raises StageNotFoundException
  /\ APIGatewayBackend.get_deployment "api1" "dep001"
       (fst (APIGatewayBackend.delete_stage "api1" "prod" backend_deployed))
     = Returns (Deployment.init "dep001" "prod" "" 0)
  /\ APIGatewayBackend.delete_stage "api1" "beta" backend_deployed
     = (backend_deployed, Raises (KeyError "beta")).
Proof.
  split; [reflexivity|].
  destruct (delete_stage_removes_only_the_stage backend_deployed "api1" "prod" _ eq_refl)
    as (_ & Hhas).
  destruct Hhas as (_ & Hget & _ & Hdep); [eexists; reflexivity|].
  split; [exact Hget|]. split; [rewrite Hdep; reflexivity|].
  apply (proj1 (delete_stage_removes_only_the_stage backend_deployed "api1" "beta" _ eq_refl)).
  reflexivity.
Defined.

Lemma delete_deployment_keeps_stages_witness :
  APIGatewayBackend.get_deployment "api1" "dep001" backend_deployed
  = Returns (Deployment.init "dep001" "prod" "" 0)
  /\ APIGatewayBackend.get_deployment "api1" "dep001"
       (fst (APIGatewayBackend.delete_deployment "api1" "dep001" backend_deployed))
     = Raises (KeyError "dep001")
  /\ APIGatewayBackend.get_stage "api1" "prod"
       (fst (APIGatewayBackend.delete_deployment "api1" "dep001" backend_deployed))
     = Returns (Stage.init (Some "prod") (Some "dep001") (Some ∅) "" (Some false) None).
Proof.
  split; [reflexivity|].
  destruct (delete_deployment_keeps_stages backend_deployed "api1" "dep001" _
              (Deployment.init "dep001" "prod" "" 0) eq_refl eq_refl)
    as (_ & Hgone & Hstages & _).
  split; [exact Hgone|]. rewrite Hstages. reflexivity.
Defined.

Lemma create_deployment_resets_its_stage_witness :
  let patched :=
    fst (APIGatewayBackend.update_stage (env := demo_env) "api1" "prod"
           [cache_cluster_patch] backend_deployed) in
  APIGatewayBackend.get_stage "api1" "prod" patched
  = Returns (Stage.set_cacheClusterSize (Some "0.5")
               (Stage.set_cacheClusterEnabled (Some true)
                  (Stage.init (Some "prod") (Some "dep001") (Some ∅) "" (Some false) None)))
  /\ snd (APIGatewayBackend.create_deployment "api1" "prod" "again" None "dep002" 1 patched)
     = Returns (Deployment.init "dep002" "prod" "again" 1)
  /\ APIGatewayBackend.get_stage "api1" "prod"
       (fst (APIGatewayBackend.create_deployment "api1" "prod" "again" None "dep002" 1
               patched))
     = Returns (Stage.init (Some "prod") (Some "dep002") (Some ∅) "" (Some false) None)
  /\ APIGatewayBackend.get_deployment "api1" "dep001"
       (fst (APIGatewayBackend.create_deployment "api1" "prod" "again" None "dep002" 1
               patched))
     = Returns (Deployment.init "dep001" "prod" "" 0).
Proof.
  cbv zeta. split; [reflexivity|]. split; [reflexivity|].
  destruct (create_deployment_resets_its_stage
              (fst (APIGatewayBackend.update_stage (env := demo_env) "api1" "prod"
                      [cache_cluster_patch] backend_deployed))
              "api1" "prod" "again" None "dep002" 1
              (Deployment.init "dep002" "prod" "again" 1) eq_refl)
    as (_ & _ & Hstage & _ & Hdeps).
  split; [exact Hstage|]. rewrite (Hdeps "dep001"); [reflexivity|discriminate].
Defined.

Lemma create_resource_then_get_resource_witness :
  re_match_dollar path_part_pattern "{id}" = true
  /\ APIGatewayBackend.apis backend_with_child !! "api1" = Some api_with_child
  /\ odict_get "res002" (RestAPI.resources api_with_child) = None
  /\ APIGatewayBackend.get_resource "api1" "res404" backend_with_child
     = Raises (KeyError "res404")
  /\ APIGatewayBackend.list_resources "api1"
       (fst (APIGatewayBackend.create_resource "api1" (Some "res404") "{id}" "res002"
               backend_with_child))
     = Returns [demo_root; demo_child;
                Resource.init "res002" "us-east-1" "api1" "{id}" (Some "res404")].
Proof.
  split; [reflexivity|]. split; [reflexivity|]. split; [reflexivity|].
  split; [reflexivity|].
  destruct (create_resource_then_get_resource backend_with_child "api1" (Some "res404")
              "{id}" "res002" api_with_child eq_refl eq_refl eq_refl) as (_ & _ & _ & H).
  rewrite H. reflexivity.
Defined.

Lemma delete_resource_leaves_children_witness :
  APIGatewayBackend.apis backend_with_child !! "api1" = Some api_with_child
  /\ odict_get "root00" (RestAPI.resources api_with_child) = Some demo_root
  /\ registry_without_root !! "us-east-1"
     = Some (fst (APIGatewayBackend.delete_resource "api1" "root00" backend_with_child))
  /\ APIGatewayBackend.get_resource "api1" "res001"
       (fst (APIGatewayBackend.delete_resource "api1" "root00" backend_with_child))
     = Returns demo_child
  /\ get_path registry_without_root demo_child = Raises (KeyError "root00").
Proof.
  split; [reflexivity|]. split; [reflexivity|]. split; [reflexivity|].
  assert (Hnd : List.NoDup (map fst (RestAPI.resources api_with_child))).
  { repeat constructor; cbn; intuition discriminate. }
  destruct (delete_resource_leaves_children registry_without_root backend_with_child
              "api1" "root00" api_with_child demo_root demo_child
              eq_refl Hnd eq_refl eq_refl eq_refl eq_refl eq_refl)
    as (_ & _ & Hothers & Hpath).
  split; [rewrite (Hothers "res001"); [reflexivity|discriminate]|exact Hpath].
Defined.

Lemma get_resource_for_path_stops_at_broken_node_witness :
  let api :=
    default demo_api
      (APIGatewayBackend.apis
         (fst (APIGatewayBackend.delete_resource "api1" "root00" backend_with_child))
       !! "api1") in
  odict_values (RestAPI.resources api) = [] ++ demo_child :: []
  /\ get_path registry_without_root demo_child = Raises (KeyError "root00")
  /\ get_resource_for_path registry_without_root "/pets" api = Raises (KeyError "root00").
Proof.
  cbv zeta. split; [reflexivity|]. split; [reflexivity|].
  apply (get_resource_for_path_stops_at_broken_node registry_without_root "/pets" _
           [] [] demo_child (KeyError "root00"));
    [reflexivity| |reflexivity].
  intros x [].
Defined.

Lemma created_resource_is_one_segment_witness :
  snd (APIGatewayBackend.create_resource "api1" (Some "root00") "{proxy+}" "res002"
         backend_with_child)
  = Returns (Resource.init "res002" "us-east-1" "api1" "{proxy+}" (Some "root00"))
  /\ "{proxy+}" <> ""
  /\ contains "/" "{proxy+}" = false.
Proof.
  split; [reflexivity|].
  destruct (created_resource_is_one_segment backend_with_child "api1" (Some "root00")
              "{proxy+}" "res002" _ eq_refl) as (Hne & Hslash & _).
  split; [exact Hne|exact Hslash].
Defined.

Lemma get_path_joins_segments_witness :
  truthy (Resource.parent_id demo_root) = false
  /\ Resource.path_part demo_root = "/"
  /\ linked registry_with_grandchild demo_root [demo_child; demo_grandchild]
  /\ get_path registry_with_grandchild demo_grandchild = Returns "/pets/{id}".
Proof.
  assert (Hl : linked registry_with_grandchild demo_root [demo_child; demo_grandchild]).
  { cbn [linked]. split; [exists "root00"; repeat split; reflexivity|].
    split; [discriminate|].
    split; [exists "res001"; repeat split; reflexivity|].
    split; [discriminate|exact I]. }
  split; [reflexivity|]. split; [reflexivity|]. split; [exact Hl|].
  apply (get_path_joins_segments registry_with_grandchild demo_root demo_child
           [demo_grandchild] eq_refl eq_refl Hl).
Defined.

Lemma create_method_replaces_the_method_witness :
  APIGatewayBackend.apis backend_with_integration !! "api1"
  = Some (api_of backend_with_integration)
  /\ odict_get "res001" (RestAPI.resources (api_of backend_with_integration))
     = Some (pets_of backend_with_integration)
  /\ APIGatewayBackend.get_integration "api1" "res001" "GET" backend_with_integration
     = Returns (Some (Integration.init "MOCK" "" "GET" None))
  /\ APIGatewayBackend.get_integration "api1" "res001" "GET"
       (fst (APIGatewayBackend.create_method "api1" "res001" "GET" (Some "AWS_IAM")
               (Some true) backend_with_integration))
     = Returns None.
Proof.
  split; [reflexivity|]. split; [reflexivity|]. split; [reflexivity|].
  destruct (create_method_replaces_the_method backend_with_integration "api1" "res001"
              "GET" (Some "AWS_IAM") (Some true) _ _ eq_refl eq_refl) as (_ & _ & H & _).
  exact H.
Defined.

Lemma create_integration_then_get_integration_witness :
  let result :=
    APIGatewayBackend.create_integration (env := demo_env) "api1" "res001" "GET" "AWS"
      "arn:aws:apigateway:us-east-1:lambda:path/2015-03-31/functions/f/invocations"
      (Some "POST") None None backend_with_method in
  snd result
  = Returns (Integration.init "AWS"
               "arn:aws:apigateway:us-east-1:lambda:path/2015-03-31/functions/f/invocations"
               "GET" None)
  /\ APIGatewayBackend.get_integration "api1" "res001" "GET" (fst result)
     = Returns (Some (Integration.init "AWS"
                        "arn:aws:apigateway:us-east-1:lambda:path/2015-03-31/functions/f/invocations"
                        "GET" None)).
Proof.
  cbv zeta. split; [reflexivity|].
  destruct (create_integration_then_get_integration (env := demo_env) backend_with_method
              "api1" "res001" "GET" "AWS"
              "arn:aws:apigateway:us-east-1:lambda:path/2015-03-31/functions/f/invocations"
              (Some "POST") None None _ eq_refl) as (_ & _ & H).
  exact H.
Defined.

Lemma create_integration_error_changes_nothing_witness :
  snd (APIGatewayBackend.create_integration (env := demo_env) "api1" "res001" "POST" "MOCK"
         "" None None None backend_with_method)
  = Raises (KeyError "POST")
  /\ fst (APIGatewayBackend.create_integration (env := demo_env) "api1" "res001" "POST"
            "MOCK" "" None None None backend_with_method)
     = backend_with_method.
Proof.
  split; [reflexivity|].
  apply (create_integration_error_changes_nothing (env := demo_env) backend_with_method
           "api1" "res001" "POST" "MOCK" "" None None None (KeyError "POST")).
  reflexivity.
Defined.

Lemma unchecked_integration_type_is_stored_witness :
  APIGatewayBackend.in_list "LAMBDA" ["HTTP"; "HTTP_PROXY"; "AWS"; "AWS_PROXY"] = false
  /\ APIGatewayBackend.apis backend_with_method !! "api1" = Some (api_of backend_with_method)
  /\ odict_get "res001" (RestAPI.resources (api_of backend_with_method))
     = Some (pets_of backend_with_method)
  /\ odict_get "GET" (Resource.resource_methods (pets_of backend_with_method))
     = Some (Method.init "GET" (Some "NONE") None)
  /\ snd (APIGatewayBackend.create_integration (env := demo_env) "api1" "res001" "GET"
            "LAMBDA" "not a uri" None None None backend_with_method)
     = Returns (Integration.init "LAMBDA" "not a uri" "GET" None).
Proof.
  split; [reflexivity|]. split; [reflexivity|]. split; [reflexivity|].
  split; [reflexivity|].
  apply (unchecked_integration_type_is_stored (env := demo_env) backend_with_method
           "api1" "res001" "GET" "LAMBDA" "not a uri" None None
           (api_of backend_with_method) (pets_of backend_with_method)
           (Method.init "GET" (Some "NONE") None));
    reflexivity.
Defined.

Lemma delete_integration_removes_the_key_witness :
  APIGatewayBackend.apis backend_with_method !! "api1" = Some (api_of backend_with_method)
  /\ odict_get "res001" (RestAPI.resources (api_of backend_with_method))
     = Some (pets_of backend_with_method)
  /\ odict_get "GET" (Resource.resource_methods (pets_of backend_with_method))
     = Some (Method.init "GET" (Some "NONE") None)
  /\ Method.methodIntegration (Method.init "GET" (Some "NONE") None) = Some None
  /\ snd (APIGatewayBackend.delete_integration "api1" "res001" "GET" backend_with_method)
     = Returns None
  /\ APIGatewayBackend.get_integration "api1" "res001" "GET"
       (fst (APIGatewayBackend.delete_integration "api1" "res001" "GET" backend_with_method))
     = Raises (KeyError "methodIntegration").
Proof.
  split; [reflexivity|]. split; [reflexivity|]. split; [reflexivity|].
  split; [reflexivity|].
  destruct (delete_integration_removes_the_key backend_with_method "api1" "res001" "GET"
              (api_of backend_with_method) (pets_of backend_with_method)
              (Method.init "GET" (Some "NONE") None) None eq_refl eq_refl eq_refl eq_refl)
    as (Hret & _ & Hget & _).
  split; [exact Hret|exact Hget].
Defined.

Lemma method_response_round_trip_witness :
  APIGatewayBackend.apis backend_with_method !! "api1" = Some (api_of backend_with_method)
  /\ odict_get "res001" (RestAPI.resources (api_of backend_with_method))
     = Some (pets_of backend_with_method)
  /\ odict_get "GET" (Resource.resource_methods (pets_of backend_with_method))
     = Some (Method.init "GET" (Some "NONE") None)
  /\ APIGatewayBackend.get_method_response "api1" "res001" "GET" "200"
       (fst (APIGatewayBackend.create_method_response "api1" "res001" "GET" "200"
               backend_with_method))
     = Returns {| MethodResponse.statusCode := "200" |}.
Proof.
  split; [reflexivity|]. split; [reflexivity|]. split; [reflexivity|].
  destruct (method_response_round_trip backend_with_method "api1" "res001" "GET" "200"
              (api_of backend_with_method) (pets_of backend_with_method)
              (Method.init "GET" (Some "NONE") None) eq_refl eq_refl eq_refl)
    as (_ & H & _).
  exact H.
Defined.

Lemma update_apikey_then_get_apikey_witness :
  let key := ApiKey.init (demo_key_payload "secret") "key001" "r4nd0m" 0 in
  let ops := [ {| Patch.op := "replace"; Patch.path := "/name"; Patch.value := Some "renamed" |};
               {| Patch.op := "remove"; Patch.path := "/description"; Patch.value := None |} ] in
  APIGatewayBackend.keys backend_with_key !! "key001" = Some key
  /\ snd (APIGatewayBackend.update_apikey "key001" ops backend_with_key)
     = Raises (PatchNotImplemented "remove")
  /\ APIGatewayBackend.get_apikey "key001"
       (fst (APIGatewayBackend.update_apikey "key001" ops backend_with_key))
     = Returns (ApiKey.set_name (Some "renamed") key).
Proof.
  cbv zeta. split; [reflexivity|].
  destruct (update_apikey_then_get_apikey backend_with_key "key001"
              [ {| Patch.op := "replace"; Patch.path := "/name"; Patch.value := Some "renamed" |};
                {| Patch.op := "remove"; Patch.path := "/description"; Patch.value := None |} ]
              (ApiKey.init (demo_key_payload "secret") "key001" "r4nd0m" 0) eq_refl)
    as (Hsnd & Hget & _).
  split; [rewrite Hsnd; reflexivity|]. rewrite Hget. reflexivity.
Defined.

Lemma explicit_values_stay_unique_witness :
  values_unique backend_with_key
  /\ ApiKey.p_value (demo_key_payload "fresh") = Some "fresh"
  /\ "fresh" <> ""
  /\ values_unique
       (fst (APIGatewayBackend.create_apikey (demo_key_payload "fresh") "key002" "0th3r" 1
               backend_with_key)).
Proof.
  assert (H : values_unique backend_with_key).
  { intros k1 k2 key1 key2 H1 H2 _.
    change (APIGatewayBackend.keys backend_with_key)
      with (<["key001" := ApiKey.init (demo_key_payload "secret") "key001" "r4nd0m" 0]>
              (∅ : gmap string ApiKey.t)) in H1, H2.
    apply lookup_insert_Some in H1 as [[<- _]|[_ H1]];
      [|rewrite lookup_empty in H1; discriminate].
    apply lookup_insert_Some in H2 as [[<- _]|[_ H2]];
      [reflexivity|rewrite lookup_empty in H2; discriminate]. }
  split; [exact H|]. split; [reflexivity|]. split; [discriminate|].
  apply (proj1 (explicit_values_stay_unique backend_with_key H)
           (demo_key_payload "fresh") "fresh" "key002" "0th3r" 1%Z);
    [reflexivity|discriminate].
Defined.

Lemma usage_plan_key_is_a_copy_witness :
  let rename := [ {| Patch.op := "replace"; Patch.path := "/name";
                     Patch.value := Some "renamed" |} ] in
  let created :=
    fst (APIGatewayBackend.create_usage_plan_key "plan01" (usage_plan_key_payload "key001")
           backend_with_key) in
  let updated := fst (APIGatewayBackend.update_apikey "key001" rename created) in
  let deleted := fst (APIGatewayBackend.delete_apikey "key001" updated) in
  UsagePlanKey.keyId (usage_plan_key_payload "key001") = Some "key001"
  /\ UsagePlanKey.keyType (usage_plan_key_payload "key001") = Some "API_KEY"
  /\ APIGatewayBackend.keys backend_with_key !! "key001"
     = Some (ApiKey.init (demo_key_payload "secret") "key001" "r4nd0m" 0)
  /\ APIGatewayBackend.usage_plans backend_with_key !! "plan01" = None
  /\ APIGatewayBackend.get_apikey "key001" updated
     = Returns (ApiKey.set_name (Some "renamed")
                  (ApiKey.init (demo_key_payload "secret") "key001" "r4nd0m" 0))
  /\ In {| UsagePlanKey.id := "key001"; UsagePlanKey.name := Some "key";
           UsagePlanKey.type := "API_KEY"; UsagePlanKey.value := "secret" |}
        (APIGatewayBackend.get_usage_plan_keys "plan01" deleted).
Proof.
  cbv zeta. do 5 (split; [reflexivity|]).
  destruct (usage_plan_key_is_a_copy backend_with_key "plan01" "key001" "API_KEY"
              (usage_plan_key_payload "key001")
              (ApiKey.init (demo_key_payload "secret") "key001" "r4nd0m" 0)
              [ {| Patch.op := "replace"; Patch.path := "/name";
                   Patch.value := Some "renamed" |} ]
              eq_refl eq_refl eq_refl) as (_ & _ & _ & _ & _ & H).
  exact H.
Defined.
